(** * The group store of the SQL supplier (store/sqlstore/group_supplier.go)

    A shallow embedding of the group supplier: the four relations it owns
    (Groups, GroupMembers, GroupTeams, GroupChannels), the relations of other
    stores that its reconciliation statements join against, and the supplier
    methods as functions from a store (and the clock reading the method takes)
    to a new store and a supplier result.

    Conventions.
    - A relation is the list of its rows, in insertion order.
    - Identifiers are strings, timestamps are [Z] (the code only stores and
      compares them).
    - [model.GetMillis()] is the argument [now] of the method that calls it.
    - The only backend failures that are modelled are the ones the relations
      themselves decide: key and uniqueness violations, no row, several rows
      for [SelectOne]. Connection failures are outside of the model. *)

From Stdlib Require Import List ZArith String Bool Lia.
From Stdlib Require Import Sorted Permutation.
Import ListNotations.
Local Open Scope string_scope.
Local Open Scope Z_scope.
Local Open Scope list_scope.

(** ** Entities *)

(** model.Group, with the columns that [initSqlSupplierGroups] maps and the
    three timestamps the methods write. *)
Record Group := mkGroup {
  Group_Id : string;
  Group_Name : string;
  Group_DisplayName : string;
  Group_Description : string;
  Group_Type : string;
  Group_RemoteId : string;
  Group_CreateAt : Z;
  Group_UpdateAt : Z;
  Group_DeleteAt : Z
}.

(** model.GroupMember; its key is (GroupId, UserId). *)
Record GroupMember := mkGroupMember {
  GroupMember_GroupId : string;
  GroupMember_UserId : string;
  GroupMember_CreateAt : Z;
  GroupMember_DeleteAt : Z
}.

(** model.GroupSyncableType. *)
Inductive GroupSyncableType := GSTeam | GSChannel.

(** [GroupSyncableType.String], which the statements splice into the
    relation name [Group%ss] and the column name [%sId]. *)
Definition GroupSyncableType_String (t : GroupSyncableType) : string :=
  match t with GSTeam => "Team" | GSChannel => "Channel" end.

(** model.GroupSyncable, the logical link. [Type] is not a column. *)
Record GroupSyncable := mkGroupSyncable {
  GroupSyncable_GroupId : string;
  GroupSyncable_SyncableId : string;
  GroupSyncable_CanLeave : bool;
  GroupSyncable_AutoAdd : bool;
  GroupSyncable_CreateAt : Z;
  GroupSyncable_UpdateAt : Z;
  GroupSyncable_DeleteAt : Z;
  GroupSyncable_Type : GroupSyncableType
}.

(** A row of GroupTeams or of GroupChannels, with the columns named by the
    INSERT of [GroupCreateGroupSyncable]:
    (GroupId, TeamId or ChannelId, CanLeave, AutoAdd, CreateAt, UpdateAt,
    DeleteAt). [Row_ForeignId] is the column that [initSqlSupplierGroups]
    renames from SyncableId to TeamId, respectively ChannelId. *)
Record SyncableRow := mkSyncableRow {
  Row_GroupId : string;
  Row_ForeignId : string;
  Row_CanLeave : bool;
  Row_AutoAdd : bool;
  Row_CreateAt : Z;
  Row_UpdateAt : Z;
  Row_DeleteAt : Z
}.

(** The names of the columns of [Group%ss], as the statements spell them. *)
Definition syncable_columns (t : GroupSyncableType) : list string :=
  [ "GroupId"; GroupSyncableType_String t ++ "Id"; "CanLeave"; "AutoAdd";
    "CreateAt"; "UpdateAt"; "DeleteAt" ]%string.

(** ** Relations of other stores, as far as the statements here read them *)

(** TeamMembers: the statements read the columns they call SyncableId (the
    team) and UserId. *)
Record TeamMember := mkTeamMember {
  TeamMember_SyncableId : string;
  TeamMember_UserId : string
}.

(** Channels: Id, and the parent team, which the statement calls SyncableId. *)
Record Channel := mkChannel {
  Channel_Id : string;
  Channel_SyncableId : string
}.

(** Teams: Id. *)
Record Team := mkTeam {
  Team_Id : string
}.

(** ChannelMemberHistory: ChannelId, UserId and the nullable LeaveTime. *)
Record ChannelMemberHistoryRow := mkChannelMemberHistoryRow {
  ChannelMemberHistory_ChannelId : string;
  ChannelMemberHistory_UserId : string;
  ChannelMemberHistory_LeaveTime : option Z
}.

(** ** The store *)

Record Store := mkStore {
  Groups : list Group;
  GroupMembers : list GroupMember;
  GroupTeams : list SyncableRow;
  GroupChannels : list SyncableRow;
  TeamMembers : list TeamMember;
  Channels : list Channel;
  Teams : list Team;
  ChannelMemberHistory : list ChannelMemberHistoryRow
}.

Definition set_Groups (s : Store) (t : list Group) : Store :=
  mkStore t (GroupMembers s) (GroupTeams s) (GroupChannels s)
          (TeamMembers s) (Channels s) (Teams s) (ChannelMemberHistory s).

Definition set_GroupMembers (s : Store) (t : list GroupMember) : Store :=
  mkStore (Groups s) t (GroupTeams s) (GroupChannels s)
          (TeamMembers s) (Channels s) (Teams s) (ChannelMemberHistory s).

(** The relation [Group%ss] that a type selects. *)
Definition syncable_table (t : GroupSyncableType) (s : Store) : list SyncableRow :=
  match t with GSTeam => GroupTeams s | GSChannel => GroupChannels s end.

Definition set_syncable_table (t : GroupSyncableType) (s : Store)
    (rows : list SyncableRow) : Store :=
  match t with
  | GSTeam =>
      mkStore (Groups s) (GroupMembers s) rows (GroupChannels s)
              (TeamMembers s) (Channels s) (Teams s) (ChannelMemberHistory s)
  | GSChannel =>
      mkStore (Groups s) (GroupMembers s) (GroupTeams s) rows
              (TeamMembers s) (Channels s) (Teams s) (ChannelMemberHistory s)
  end.

(** ** Results and errors *)

(** model.AppError, as [model.NewAppError where id _ details status] builds
    it; the details string is left out. *)
Record AppError := mkAppError {
  AppError_Where : string;
  AppError_Id : string;
  AppError_StatusCode : Z
}.

Definition StatusBadRequest : Z := 400.
Definition StatusNotFound : Z := 404.
Definition StatusInternalServerError : Z := 500.

(** database/sql's [Result]: what [Exec] hands back. It has the two
    counters and no rows. *)
Record SqlResult := mkSqlResult {
  SqlResult_LastInsertId : Z;
  SqlResult_RowsAffected : Z
}.

(** What [result.Data] holds in the methods below. *)
Inductive ResultData :=
| DNil
| DGroup (g : Group)
| DGroups (gs : list Group)
| DMember (m : GroupMember)
| DSyncable (gs : GroupSyncable)
| DSyncables (l : list GroupSyncable)
| DSqlResult (r : SqlResult).

(** store.LayeredStoreSupplierResult *)
Record SupplierResult := mkResult {
  Data : ResultData;
  Err : option AppError
}.

Definition NewSupplierResult : SupplierResult := mkResult DNil None.
Definition with_Err (r : SupplierResult) (e : AppError) : SupplierResult :=
  mkResult (Data r) (Some e).
Definition with_Data (r : SupplierResult) (d : ResultData) : SupplierResult :=
  mkResult d (Err r).

(** The error taxonomy of the specification, section 7. The code has one
    error type, [AppError]; the class of an error is read off its id. *)
Inductive ErrorKind :=
| ValidationError | NotFoundError | ConflictError | ConcurrencyError
| NoChangeError | InfrastructureError.

Definition id_in (ids : list string) (e : AppError) : bool :=
  existsb (String.eqb (AppError_Id e)) ids.

Definition error_kind (e : AppError) : ErrorKind :=
  if id_in [ "store.sql_group.update.no_rows";
             "store.sql_group.delete.no_rows";
             "store.sql_group.get.no_rows";
             "store.sql_group.create_member.no_rows";
             "store.sql_group.delete_member.no_rows";
             "store.sql_group.update_group_syncable.no_rows";
             "store.sql_group.delete_group_syncable.no_rows" ] e
  then NotFoundError
  else if id_in [ "store.sql_group.create.unique_constraint";
                  "store.sql_group.create_member.unique_error";
                  "store.sql_group.delete.already_deleted";
                  "store.sql_group.delete_member.already_deleted";
                  "store.sql_group.delete_group_syncable.already_deleted" ] e
  then ConflictError
  else if id_in [ "store.sql_group.update.no_rows_changed";
                  "store.sql_group.delete.no_rows_affected";
                  "store.sql_scheme.delete_member.no_rows_affected";
                  "store.sql_group.delete_group_syncable.no_rows_affected" ] e
  then ConcurrencyError
  else if id_in [ "store.sql_group.update_group_syncable.no_change" ] e
  then NoChangeError
  else if id_in [ "store.sql_group.create.invalid_group_id";
                  "store.sql_group.delete.invalid_group_id";
                  "store.sql_group.delete_member.invalid_group_id";
                  "store.sql_group.delete_member.invalid_user_id";
                  "store.sql_group.delete_group_syncable.invalid_group_id";
                  "store.sql_group.delete_group_syncable.invalid_syncable_id" ] e
  then ValidationError
  else InfrastructureError.

(** ** The statements, on relations as lists *)

Definition streq (a b : string) : bool := String.eqb a b.

(** What a gorp select can fail with, as far as the callers tell the cases
    apart: [sql.ErrNoRows], or anything else ([SelectOne] refuses a result of
    several rows). *)
Inductive SelectError := ErrNoRows | ErrSelect.

(** gorp's [SelectOne] for a statement [SELECT * FROM tbl WHERE p]. *)
Definition SelectOne {A : Type} (p : A -> bool) (tbl : list A) : SelectError + A :=
  match filter p tbl with
  | [] => inl ErrNoRows
  | [r] => inr r
  | _ :: _ :: _ => inl ErrSelect
  end.

(** [ORDER BY key DESC], as a stable insertion sort. The statements have
    no second sort key: the order of rows of equal key is the backend's, and
    the one taken here, the order of the relation, is one it may produce.
    What is proved of a listing either holds for every order of such rows
    or is stated for rows of distinct keys. *)
Fixpoint insert_desc {A : Type} (key : A -> Z) (x : A) (l : list A) : list A :=
  match l with
  | [] => [x]
  | y :: l' => if key y <=? key x then x :: l else y :: insert_desc key x l'
  end.

Definition order_by_desc {A : Type} (key : A -> Z) (l : list A) : list A :=
  fold_right (insert_desc key) [] l.

(** [LIMIT :Limit OFFSET :Offset]; a negative bound is refused by the
    backend, which the callers see as a select error. *)
Definition limit_offset {A : Type} (limit offset : Z) (rows : list A)
    : option (list A) :=
  if (limit <? 0) || (offset <? 0) then None
  else Some (firstn (Z.to_nat limit) (skipn (Z.to_nat offset) rows)).

(** Keys. *)
Definition group_has_id (id : string) (g : Group) : bool :=
  streq (Group_Id g) id.

Definition member_has_key (groupID userID : string) (m : GroupMember) : bool :=
  streq (GroupMember_GroupId m) groupID && streq (GroupMember_UserId m) userID.

Definition row_has_key (groupID syncableID : string) (r : SyncableRow) : bool :=
  streq (Row_GroupId r) groupID && streq (Row_ForeignId r) syncableID.

Definition count_rows {A : Type} (p : A -> bool) (tbl : list A) : Z :=
  Z.of_nat (List.length (filter p tbl)).

(** [UPDATE Groups SET (every column but the key) WHERE Id = g.Id] *)
Definition replace_group (g : Group) (tbl : list Group) : list Group :=
  map (fun r => if group_has_id (Group_Id g) r then g else r) tbl.

(** gorp's [Update] of a Group: every column but the key is written in the
    rows of that [Id]; the outcome is the number of rows written, or [None]
    when the write would break the uniqueness of [Name]. *)
Definition Update_Group (tbl : list Group) (g : Group)
    : option (Z * list Group) :=
  let n := count_rows (group_has_id (Group_Id g)) tbl in
  if (0 <? n) &&
     existsb (fun r => streq (Group_Name r) (Group_Name g)
                       && negb (group_has_id (Group_Id g) r)) tbl
  then None
  else Some (n, replace_group g tbl).

(** What an insert into Groups can fail on: the unique column [Name], which
    [IsUniqueConstraintError] recognises, or the key [Id]. *)
Inductive InsertError := ErrUniqueName | ErrInsert.

(** gorp's [Insert] of a Group. [Id] is the key and [Name] is unique, over
    all rows, whatever their [DeleteAt]. *)
Definition Insert_Group (tbl : list Group) (g : Group)
    : InsertError + list Group :=
  if existsb (group_has_id (Group_Id g)) tbl then inl ErrInsert
  else if existsb (fun r => streq (Group_Name r) (Group_Name g)) tbl
       then inl ErrUniqueName
       else inr (tbl ++ [g]).

(** A gorp transaction on Groups: the rows as the transaction has them, and
    whether it is over. [Rollback] ends it and drops its writes. [Commit]
    ends it and makes its rows the relation; on a transaction that is over
    it fails (sql.ErrTxDone). *)
Record Transaction := mkTransaction {
  tx_rows : list Group;
  tx_done : bool
}.

Definition Begin (s : Store) : Transaction := mkTransaction (Groups s) false.

Definition Rollback (s : Store) (t : Transaction) : Transaction :=
  mkTransaction (Groups s) true.

Definition Commit (s : Store) (t : Transaction) : option Store :=
  if tx_done t then None else Some (set_Groups s (tx_rows t)).

(** gorp's [Insert] of a GroupMember: refused when the key (GroupId, UserId)
    is taken by any row, whatever its [DeleteAt]. *)
Definition Insert_GroupMember (tbl : list GroupMember) (m : GroupMember)
    : option (list GroupMember) :=
  if existsb (member_has_key (GroupMember_GroupId m) (GroupMember_UserId m)) tbl
  then None
  else Some (tbl ++ [m]).

(** gorp's [Update] of a GroupMember, by its key. *)
Definition Update_GroupMember (tbl : list GroupMember) (m : GroupMember)
    : Z * list GroupMember :=
  let k := member_has_key (GroupMember_GroupId m) (GroupMember_UserId m) in
  (count_rows k tbl, map (fun r => if k r then m else r) tbl).

(** What gorp scans of a row into a [*model.GroupSyncable]: the column
    TeamId or ChannelId has no field of its name, and Type no column, so
    both keep their zero values. *)
Definition scan_GroupSyncable (r : SyncableRow) : GroupSyncable :=
  mkGroupSyncable (Row_GroupId r) "" (Row_CanLeave r) (Row_AutoAdd r)
                  (Row_CreateAt r) (Row_UpdateAt r) (Row_DeleteAt r) GSTeam.

Definition row_of_GroupSyncable (gs : GroupSyncable) : SyncableRow :=
  mkSyncableRow (GroupSyncable_GroupId gs) (GroupSyncable_SyncableId gs)
                (GroupSyncable_CanLeave gs) (GroupSyncable_AutoAdd gs)
                (GroupSyncable_CreateAt gs) (GroupSyncable_UpdateAt gs)
                (GroupSyncable_DeleteAt gs).

(** The scanner of [GroupGetAllGroupSyncablesByGroupPage]: the embedded
    entity and both foreign-key fields, of which the relation has one. *)
Record GroupSyncableScanner := mkScanner {
  Scanner_GroupSyncable : GroupSyncable;
  Scanner_TeamId : string;
  Scanner_ChannelId : string
}.

Definition scan_Scanner (t : GroupSyncableType) (r : SyncableRow)
    : GroupSyncableScanner :=
  match t with
  | GSTeam => mkScanner (scan_GroupSyncable r) (Row_ForeignId r) ""
  | GSChannel => mkScanner (scan_GroupSyncable r) "" (Row_ForeignId r)
  end.

(** Field updates of the entities. *)
Definition Group_with_times (g : Group) (createAt updateAt deleteAt : Z) : Group :=
  mkGroup (Group_Id g) (Group_Name g) (Group_DisplayName g) (Group_Description g)
          (Group_Type g) (Group_RemoteId g) createAt updateAt deleteAt.

Definition GroupSyncable_with_times (gs : GroupSyncable)
    (createAt updateAt deleteAt : Z) : GroupSyncable :=
  mkGroupSyncable (GroupSyncable_GroupId gs) (GroupSyncable_SyncableId gs)
                  (GroupSyncable_CanLeave gs) (GroupSyncable_AutoAdd gs)
                  createAt updateAt deleteAt (GroupSyncable_Type gs).

(** [UPDATE ... SET CanLeave = c, AutoAdd = a, UpdateAt = u] on one row. *)
Definition set_flags (c a : bool) (u : Z) (r : SyncableRow) : SyncableRow :=
  mkSyncableRow (Row_GroupId r) (Row_ForeignId r) c a
                (Row_CreateAt r) u (Row_DeleteAt r).

(** [UPDATE ... SET DeleteAt = d, UpdateAt = u] on one row. *)
Definition set_deleted (d u : Z) (r : SyncableRow) : SyncableRow :=
  mkSyncableRow (Row_GroupId r) (Row_ForeignId r) (Row_CanLeave r) (Row_AutoAdd r)
                (Row_CreateAt r) u d.

(** ** The supplier methods *)

Section Supplier.

(** Package model is not part of this file's source. Its validators are
    taken as they are called. *)
Variable IsValidId : string -> bool.
Variable Group_IsValidForUpdate : Group -> option AppError.
Variable Group_IsValidForCreate : Group -> option AppError.
Variable GroupMember_IsValid : GroupMember -> option AppError.
Variable GroupSyncable_IsValid : GroupSyncable -> option AppError.

(** What the driver answers when a SELECT is run through [Exec]: an error
    ([None]) or a [sql.Result]. The rows that the statement selects are its
    argument; nothing of them can be read from the answer. *)
Variable Exec_select : list (option string * option string) -> option SqlResult.

Set Default Proof Using "Type".

Definition AppErr (where_ id : string) (status : Z) : AppError :=
  mkAppError where_ id status.

(** [GroupCreate]; [newId] is what [model.NewId()] returns. After a failed
    insert the transaction is rolled back, and the commit that follows in
    every case fails on it: its error replaces the one of the insert. *)
Definition GroupCreate (s : Store) (now : Z) (newId : string) (group : Group)
    : Store * SupplierResult :=
  let result := NewSupplierResult in
  if negb (Nat.eqb (String.length (Group_Id group)) 0) then
    (s, with_Err result
          (AppErr "SqlGroupStore.GroupCreate" "store.sql_group.create.invalid_group_id"
                  StatusBadRequest))
  else
    match Group_IsValidForCreate group with
    | Some err => (s, with_Err result err)
    | None =>
        let transaction := Begin s in
        match Group_IsValidForCreate group with
        | Some err => (s, with_Err result err)
        | None =>
            let group :=
              mkGroup newId (Group_Name group) (Group_DisplayName group)
                      (Group_Description group) (Group_Type group)
                      (Group_RemoteId group) now now (Group_DeleteAt group) in
            let '(transaction, result) :=
              match Insert_Group (tx_rows transaction) group with
              | inl ErrUniqueName =>
                  (Rollback s transaction,
                   with_Err result
                     (AppErr "SqlGroupStore.GroupCreate"
                             "store.sql_group.create.unique_constraint"
                             StatusInternalServerError))
              | inl ErrInsert =>
                  (Rollback s transaction,
                   with_Err result
                     (AppErr "SqlGroupStore.GroupCreate"
                             "store.sql_group.create.insert_error"
                             StatusInternalServerError))
              | inr rows =>
                  (mkTransaction rows false, with_Data result (DGroup group))
              end in
            match Commit s transaction with
            | None =>
                (s, with_Data
                      (with_Err result
                         (AppErr "SqlGroupStore.GroupCreate"
                                 "store.sql_group.create.commit_error"
                                 StatusInternalServerError))
                      DNil)
            | Some s' => (s', result)
            end
        end
    end.

(** [GroupGet] *)
Definition GroupGet (s : Store) (groupId : string) : SupplierResult :=
  let result := NewSupplierResult in
  match SelectOne (group_has_id groupId) (Groups s) with
  | inl ErrNoRows =>
      with_Err result
        (AppErr "SqlGroupStore.Get" "store.sql_group.get.no_rows"
                StatusInternalServerError)
  | inl ErrSelect =>
      with_Err result
        (AppErr "SqlGroupStore.Get" "store.sql_group.get.select_error"
                StatusInternalServerError)
  | inr group => with_Data result (DGroup group)
  end.

(** [GroupGetAllPage] *)
Definition GroupGetAllPage (s : Store) (offset limit : Z) : SupplierResult :=
  let result := NewSupplierResult in
  match limit_offset limit offset
          (order_by_desc Group_CreateAt
             (filter (fun g => Group_DeleteAt g =? 0) (Groups s))) with
  | None =>
      with_Err result
        (AppErr "SqlGroupStore.GetAllPage"
                "store.sql_group.get_all_page.select_error"
                StatusInternalServerError)
  | Some groups => with_Data result (DGroups groups)
  end.

(** [GroupUpdate] *)
Definition GroupUpdate (s : Store) (now : Z) (group : Group)
    : Store * SupplierResult :=
  let result := NewSupplierResult in
  match SelectOne (group_has_id (Group_Id group)) (Groups s) with
  | inl ErrNoRows =>
      (s, with_Err result
            (AppErr "SqlGroupStore.GroupUpdate" "store.sql_group.update.no_rows"
                    StatusNotFound))
  | inl ErrSelect =>
      (s, with_Err result
            (AppErr "SqlGroupStore.GroupUpdate" "store.sql_group.update.select_error"
                    StatusInternalServerError))
  | inr retrievedGroup =>
      (* Reset these properties, don't update them based on input *)
      let group := Group_with_times group (Group_CreateAt retrievedGroup) now
                                    (Group_DeleteAt retrievedGroup) in
      match Group_IsValidForUpdate group with
      | Some err => (s, with_Err result err)
      | None =>
          match Update_Group (Groups s) group with
          | None =>
              (s, with_Err result
                    (AppErr "SqlGroupStore.GroupUpdate"
                            "store.sql_group.update.update_error"
                            StatusInternalServerError))
          | Some (rowsChanged, tbl) =>
              if negb (rowsChanged =? 1) then
                (set_Groups s tbl,
                 with_Err result
                   (AppErr "SqlGroupStore.GroupUpdate"
                           "store.sql_group.update.no_rows_changed"
                           StatusInternalServerError))
              else (set_Groups s tbl, with_Data result (DGroup group))
          end
      end
  end.

(** [GroupDelete]. The check of the id sets the error and goes on. *)
Definition GroupDelete (s : Store) (now : Z) (groupID : string)
    : Store * SupplierResult :=
  let result :=
    if negb (IsValidId groupID) then
      with_Err NewSupplierResult
        (AppErr "SqlGroupStore.Delete" "store.sql_group.delete.invalid_group_id"
                StatusBadRequest)
    else NewSupplierResult in
  match SelectOne (group_has_id groupID) (Groups s) with
  | inl ErrNoRows =>
      (s, with_Err result
            (AppErr "SqlGroupStore.Delete" "store.sql_group.delete.no_rows"
                    StatusNotFound))
  | inl ErrSelect =>
      (s, with_Err result
            (AppErr "SqlGroupStore.Delete" "store.sql_group.delete.select_error"
                    StatusInternalServerError))
  | inr group =>
      if negb (Group_DeleteAt group =? 0) then
        (s, with_Err result
              (AppErr "SqlGroupStore.Delete" "store.sql_group.delete.already_deleted"
                      StatusInternalServerError))
      else
        let time := now in
        let group := Group_with_times group (Group_CreateAt group) time time in
        match Update_Group (Groups s) group with
        | None =>
            (s, with_Err result
                  (AppErr "SqlGroupStore.Delete" "store.sql_group.delete.update_error"
                          StatusInternalServerError))
        | Some (rowsChanged, tbl) =>
            if negb (rowsChanged =? 1) then
              (set_Groups s tbl,
               with_Err result
                 (AppErr "SqlGroupStore.Delete"
                         "store.sql_group.delete.no_rows_affected"
                         StatusInternalServerError))
            else (set_Groups s tbl, with_Data result (DGroup group))
        end
  end.

(** [GroupCreateMember] *)
Definition GroupCreateMember (s : Store) (now : Z) (groupID userID : string)
    : Store * SupplierResult :=
  let result := NewSupplierResult in
  let member := mkGroupMember groupID userID now 0 in
  match GroupMember_IsValid member with
  | Some err => (s, with_Err result err)
  | None =>
      match Insert_GroupMember (GroupMembers s) member with
      | None =>
          (s, with_Err result
                (AppErr "SqlGroupStore.CreateMember"
                        "store.sql_group.create_member.unique_error"
                        StatusBadRequest))
      | Some tbl =>
          let s' := set_GroupMembers s tbl in
          match SelectOne (member_has_key groupID userID) tbl with
          | inl ErrNoRows =>
              (s', with_Err result
                     (AppErr "SqlGroupStore.CreateMember"
                             "store.sql_group.create_member.no_rows"
                             StatusNotFound))
          | inl ErrSelect =>
              (s', with_Err result
                     (AppErr "SqlGroupStore.CreateMember"
                             "store.sql_group.create_member.select_error"
                             StatusInternalServerError))
          | inr retrievedMember => (s', with_Data result (DMember retrievedMember))
          end
      end
  end.

(** [GroupDeleteMember] *)
Definition GroupDeleteMember (s : Store) (now : Z) (groupID userID : string)
    : Store * SupplierResult :=
  let result := NewSupplierResult in
  if negb (IsValidId groupID) then
    (s, with_Err result
          (AppErr "SqlGroupStore.DeleteMember"
                  "store.sql_group.delete_member.invalid_group_id" StatusBadRequest))
  else if negb (IsValidId userID) then
    (s, with_Err result
          (AppErr "SqlGroupStore.DeleteMember"
                  "store.sql_group.delete_member.invalid_user_id" StatusBadRequest))
  else
    match SelectOne (member_has_key groupID userID) (GroupMembers s) with
    | inl ErrNoRows =>
        (s, with_Err result
              (AppErr "SqlGroupStore.DeleteMember"
                      "store.sql_group.delete_member.no_rows" StatusNotFound))
    | inl ErrSelect =>
        (s, with_Err result
              (AppErr "SqlGroupStore.DeleteMember"
                      "store.sql_group.delete_member.select_error"
                      StatusInternalServerError))
    | inr retrievedMember =>
        if negb (GroupMember_DeleteAt retrievedMember =? 0) then
          (s, with_Err result
                (AppErr "SqlGroupStore.DeleteMember"
                        "store.sql_group.delete_member.already_deleted"
                        StatusInternalServerError))
        else
          let retrievedMember :=
            mkGroupMember (GroupMember_GroupId retrievedMember)
                          (GroupMember_UserId retrievedMember)
                          (GroupMember_CreateAt retrievedMember) now in
          let (rowsChanged, tbl) :=
            Update_GroupMember (GroupMembers s) retrievedMember in
          if negb (rowsChanged =? 1) then
            (set_GroupMembers s tbl,
             with_Err result
               (AppErr "SqlGroupStore.DeleteMember"
                       "store.sql_scheme.delete_member.no_rows_affected"
                       StatusInternalServerError))
          else (set_GroupMembers s tbl, with_Data result (DMember retrievedMember))
    end.

(** [GroupCreateGroupSyncable]. The INSERT adds one row or fails on the key
    (GroupId, TeamId or ChannelId), so that the branch for no affected row
    is never taken. *)
Definition GroupCreateGroupSyncable (s : Store) (now : Z)
    (groupSyncable : GroupSyncable) : Store * SupplierResult :=
  let result := NewSupplierResult in
  match GroupSyncable_IsValid groupSyncable with
  | Some err => (s, with_Err result err)
  | None =>
      (* Reset values that shouldn't be updatable by parameter *)
      let groupSyncable := GroupSyncable_with_times groupSyncable now now 0 in
      let t := GroupSyncable_Type groupSyncable in
      if existsb (row_has_key (GroupSyncable_GroupId groupSyncable)
                              (GroupSyncable_SyncableId groupSyncable))
                 (syncable_table t s)
      then
        (s, with_Err result
              (AppErr "SqlGroupStore.CreateGroupSyncable"
                      "store.sql_group.create_group_syncable.insert_error"
                      StatusInternalServerError))
      else
        (set_syncable_table t s
           (syncable_table t s ++ [row_of_GroupSyncable groupSyncable]),
         with_Data result (DSyncable groupSyncable))
  end.

(** [GroupGetGroupSyncable]. On [sql.ErrNoRows] no error is set and the
    data is the nil pointer. *)
Definition GroupGetGroupSyncable (s : Store) (groupID syncableID : string)
    (syncableType : GroupSyncableType) : SupplierResult :=
  let result := NewSupplierResult in
  match SelectOne (row_has_key groupID syncableID)
                  (syncable_table syncableType s) with
  | inl ErrSelect =>
      with_Err result
        (AppErr "SqlGroupStore.Get" "store.sql_group.get_group_syncable.select_error"
                StatusInternalServerError)
  | inl ErrNoRows => with_Data result DNil
  | inr row =>
      let groupSyncable := scan_GroupSyncable row in
      (* Need to populate this because gorp won't scan it *)
      let groupSyncable :=
        mkGroupSyncable (GroupSyncable_GroupId groupSyncable) syncableID
                        (GroupSyncable_CanLeave groupSyncable)
                        (GroupSyncable_AutoAdd groupSyncable)
                        (GroupSyncable_CreateAt groupSyncable)
                        (GroupSyncable_UpdateAt groupSyncable)
                        (GroupSyncable_DeleteAt groupSyncable)
                        (GroupSyncable_Type groupSyncable) in
      with_Data result (DSyncable groupSyncable)
  end.

(** The loop body of [GroupGetAllGroupSyncablesByGroupPage]: the entity
    built from a scanned row; [Type] is not set. *)
Definition remap_scanner (syncableType : GroupSyncableType)
    (gsScan : GroupSyncableScanner) : GroupSyncable :=
  let e := Scanner_GroupSyncable gsScan in
  mkGroupSyncable (GroupSyncable_GroupId e)
                  (match syncableType with
                   | GSTeam => Scanner_TeamId gsScan
                   | GSChannel => Scanner_ChannelId gsScan
                   end)
                  (GroupSyncable_CanLeave e) (GroupSyncable_AutoAdd e)
                  (GroupSyncable_CreateAt e) (GroupSyncable_UpdateAt e)
                  (GroupSyncable_DeleteAt e) GSTeam.

(** The rows that the statement of [GroupGetAllGroupSyncablesByGroupPage]
    selects, before paging:
    [SELECT * from Group%ss WHERE GroupId = :GroupId ORDER BY CreateAt DESC]. *)
Definition select_by_group (s : Store) (groupID : string)
    (syncableType : GroupSyncableType) : list SyncableRow :=
  order_by_desc Row_CreateAt
    (filter (fun r => streq (Row_GroupId r) groupID)
            (syncable_table syncableType s)).

(** [GroupGetAllGroupSyncablesByGroupPage] *)
Definition GroupGetAllGroupSyncablesByGroupPage (s : Store) (groupID : string)
    (syncableType : GroupSyncableType) (offset limit : Z) : SupplierResult :=
  let result := NewSupplierResult in
  match limit_offset limit offset (select_by_group s groupID syncableType) with
  | None =>
      with_Err result
        (AppErr "SqlGroupStore.GetAllGroupSyncablesByGroupPage"
                "store.sql_group.get_all_group_syncables_by_group_page.select_error"
                StatusInternalServerError)
  | Some rows =>
      let groupSyncableScanners := map (scan_Scanner syncableType) rows in
      with_Data result
        (DSyncables (map (remap_scanner syncableType) groupSyncableScanners))
  end.

(** [GroupUpdateGroupSyncable]. The UPDATE statement is
    [UPDATE Group%ss SET CanLeave = %t, AutoAdd = %t, UpdateAt = %d],
    without a WHERE clause: it writes every row of the relation. *)
Definition GroupUpdateGroupSyncable (s : Store) (now : Z)
    (groupSyncable : GroupSyncable) : Store * SupplierResult :=
  let result := NewSupplierResult in
  let t := GroupSyncable_Type groupSyncable in
  match SelectOne (row_has_key (GroupSyncable_GroupId groupSyncable)
                               (GroupSyncable_SyncableId groupSyncable))
                  (syncable_table t s) with
  | inl ErrNoRows =>
      (s, with_Err result
            (AppErr "SqlGroupStore.UpdateGroupSyncable"
                    "store.sql_group.update_group_syncable.no_rows"
                    StatusInternalServerError))
  | inl ErrSelect =>
      (s, with_Err result
            (AppErr "SqlGroupStore.UpdateGroupSyncable"
                    "store.sql_group.update_group_syncable.select_error"
                    StatusInternalServerError))
  | inr row =>
      let retrievedGroupSyncable := scan_GroupSyncable row in
      match GroupSyncable_IsValid groupSyncable with
      | Some err => (s, with_Err result err)
      | None =>
          (* Check if no update is required *)
          if Bool.eqb (GroupSyncable_AutoAdd retrievedGroupSyncable)
                      (GroupSyncable_AutoAdd groupSyncable)
             && Bool.eqb (GroupSyncable_CanLeave retrievedGroupSyncable)
                         (GroupSyncable_CanLeave groupSyncable)
          then
            (s, with_Err result
                  (AppErr "SqlGroupStore.UpdateGroupSyncable"
                          "store.sql_group.update_group_syncable.no_change"
                          StatusInternalServerError))
          else
            (* Reset these properties, don't update them based on input *)
            let groupSyncable :=
              GroupSyncable_with_times groupSyncable
                (GroupSyncable_CreateAt retrievedGroupSyncable) now
                (GroupSyncable_DeleteAt retrievedGroupSyncable) in
            (set_syncable_table t s
               (map (set_flags (GroupSyncable_CanLeave groupSyncable)
                               (GroupSyncable_AutoAdd groupSyncable)
                               (GroupSyncable_UpdateAt groupSyncable))
                    (syncable_table t s)),
             with_Data result (DSyncable groupSyncable))
      end
  end.

(** [GroupDeleteGroupSyncable]. Its UPDATE has the clause
    [WHERE GroupId = '%s' AND %sId = '%s']. *)
Definition GroupDeleteGroupSyncable (s : Store) (now : Z)
    (groupID syncableID : string) (syncableType : GroupSyncableType)
    : Store * SupplierResult :=
  let result := NewSupplierResult in
  if negb (IsValidId groupID) then
    (s, with_Err result
          (AppErr "SqlGroupStore.DeleteGroupSyncable"
                  "store.sql_group.delete_group_syncable.invalid_group_id"
                  StatusBadRequest))
  else if negb (IsValidId syncableID) then
    (s, with_Err result
          (AppErr "SqlGroupStore.DeleteGroupSyncable"
                  "store.sql_group.delete_group_syncable.invalid_syncable_id"
                  StatusBadRequest))
  else
    match SelectOne (row_has_key groupID syncableID)
                    (syncable_table syncableType s) with
    | inl ErrNoRows =>
        (s, with_Err result
              (AppErr "SqlGroupStore.DeleteGroupSyncable"
                      "store.sql_group.delete_group_syncable.no_rows"
                      StatusNotFound))
    | inl ErrSelect =>
        (s, with_Err result
              (AppErr "SqlGroupStore.DeleteGroupSyncable"
                      "store.sql_group.delete_group_syncable.select_error"
                      StatusInternalServerError))
    | inr row =>
        let groupSyncable := scan_GroupSyncable row in
        if negb (GroupSyncable_DeleteAt groupSyncable =? 0) then
          (s, with_Err result
                (AppErr "SqlGroupStore.DeleteGroupSyncable"
                        "store.sql_group.delete_group_syncable.already_deleted"
                        StatusBadRequest))
        else
          let time := now in
          let groupSyncable :=
            mkGroupSyncable (GroupSyncable_GroupId groupSyncable) syncableID
                            (GroupSyncable_CanLeave groupSyncable)
                            (GroupSyncable_AutoAdd groupSyncable)
                            (GroupSyncable_CreateAt groupSyncable)
                            time time syncableType in
          let k := row_has_key (GroupSyncable_GroupId groupSyncable)
                               (GroupSyncable_SyncableId groupSyncable) in
          let tbl := syncable_table syncableType s in
          let s' :=
            set_syncable_table syncableType s
              (map (fun r => if k r
                             then set_deleted (GroupSyncable_DeleteAt groupSyncable)
                                              (GroupSyncable_UpdateAt groupSyncable) r
                             else r) tbl) in
          if count_rows k tbl =? 0 then
            (s', with_Err result
                   (AppErr "SqlGroupStore.DeleteGroupSyncable"
                           "store.sql_group.delete_group_syncable.no_rows_affected"
                           StatusInternalServerError))
          else (s', with_Data result (DSyncable groupSyncable))
    end.

(** ** The reconciliation statements *)

(** [a JOIN b ON on] *)
Definition inner_join {A B : Type} (on : A -> B -> bool)
    (l : list A) (r : list B) : list (A * B) :=
  flat_map (fun a => map (pair a) (filter (on a) r)) l.

(** [a FULL JOIN b ON on]: the matching pairs, the rows of [a] without a
    match, padded with NULLs on the right, and the rows of [b] without a
    match, padded on the left. *)
Definition full_join {A B : Type} (on : A -> B -> bool)
    (l : list A) (r : list B) : list (option A * option B) :=
  flat_map (fun a =>
              match filter (on a) r with
              | [] => [(Some a, None)]
              | b :: bs => map (fun b' => (Some a, Some b')) (b :: bs)
              end) l
  ++ map (fun b => (None, Some b))
         (filter (fun b => negb (existsb (fun a => on a b) l)) r).

(** A column of a side of an outer join: NULL when the side is padded. *)
Definition column {R C : Type} (f : R -> C) (r : option R) : option C :=
  option_map f r.

Definition column_opt {R C : Type} (f : R -> option C) (r : option R) : option C :=
  match r with Some x => f x | None => None end.

(** Conditions are three-valued: [None] is SQL's unknown. *)
Definition is_null {C : Type} (c : option C) : option bool :=
  Some (match c with None => true | Some _ => false end).

Definition sql_eqZ (c : option Z) (v : Z) : option bool :=
  option_map (fun x => x =? v) c.

Definition sql_geZ (c : option Z) (v : Z) : option bool :=
  option_map (fun x => v <=? x) c.

Definition sql_eqb (c : option bool) (v : bool) : option bool :=
  option_map (fun x => Bool.eqb x v) c.

Definition sql_and (a b : option bool) : option bool :=
  match a, b with
  | Some false, _ | _, Some false => Some false
  | Some true, Some true => Some true
  | _, _ => None
  end.

(** WHERE keeps a row when the condition is true, not when it is unknown. *)
Definition where_true (c : option bool) : bool :=
  match c with Some true => true | _ => false end.

(** The left side of the FULL JOIN of [PendingAutoAddTeamMemberships]:
    GroupMembers JOIN GroupTeams JOIN Groups. *)
Definition TeamSide : Type := GroupMember * SyncableRow * Group.
Definition ts_member (x : TeamSide) : GroupMember := fst (fst x).
Definition ts_link (x : TeamSide) : SyncableRow := snd (fst x).
Definition ts_group (x : TeamSide) : Group := snd x.

(** The columns of the relations that [initSqlSupplierGroups] declares.
    The relations of other stores are not declared in this file ([None]). *)
Definition declared_columns (relation : string) : option (list string) :=
  if String.eqb relation "Groups" then
    Some [ "Id"; "Name"; "DisplayName"; "Description"; "Type"; "RemoteId";
           "CreateAt"; "UpdateAt"; "DeleteAt" ]%string
  else if String.eqb relation "GroupMembers" then
    Some [ "GroupId"; "UserId"; "CreateAt"; "DeleteAt" ]%string
  else if String.eqb relation "GroupTeams" then Some (syncable_columns GSTeam)
  else if String.eqb relation "GroupChannels" then
    Some (syncable_columns GSChannel)
  else None.

(** A reference [relation.column] of a statement is good when the relation,
    if it is declared here, has the column. *)
Definition column_declared (ref : string * string) : bool :=
  match declared_columns (fst ref) with
  | Some columns => existsb (String.eqb (snd ref)) columns
  | None => true
  end.

(** [Exec] of a SELECT statement, given the columns that it names and the
    rows that it selects. The backend refuses a statement that names a
    column which a relation declared here does not have. Otherwise the
    answer is the driver's: a [sql.Result], or an error, as when a relation
    of another store lacks a column that the statement names. *)
Definition Exec (refs : list (string * string))
    (rows : list (option string * option string)) : option SqlResult :=
  if forallb column_declared refs then Exec_select rows else None.

(** The column references of the statement of
    [PendingAutoAddTeamMemberships], in the order of its text. *)
Definition team_statement_columns : list (string * string) :=
  [ ("GroupMembers", "UserId"); ("GroupTeams", "SyncableId");
    ("GroupTeams", "GroupId"); ("GroupMembers", "GroupId");
    ("Groups", "Id"); ("GroupMembers", "GroupId");
    ("TeamMembers", "SyncableId"); ("GroupTeams", "SyncableId");
    ("TeamMembers", "UserId"); ("GroupMembers", "UserId");
    ("TeamMembers", "UserId"); ("Groups", "DeleteAt");
    ("GroupTeams", "DeleteAt"); ("GroupTeams", "AutoAdd");
    ("GroupMembers", "DeleteAt"); ("GroupMembers", "CreateAt") ]%string.

(** The rows that the statement of [PendingAutoAddTeamMemberships] would
    select if its columns were there, with [GroupTeams.SyncableId] read as
    the team column of the relation ([Row_ForeignId]). The relation has that
    column as TeamId, so that the backend refuses the statement as it is
    written; see [Exec] and [team_statement_columns]. *)
Definition team_statement (s : Store) (MinGroupMembersCreateAt : Z)
    : list (option string * option string) :=
  let from :=
    full_join
      (fun x tm =>
         streq (TeamMember_SyncableId tm) (Row_ForeignId (ts_link x))
         && streq (TeamMember_UserId tm) (GroupMember_UserId (ts_member x)))
      (inner_join (fun x g => streq (Group_Id g) (GroupMember_GroupId (fst x)))
         (inner_join (fun gm gt => streq (Row_GroupId gt) (GroupMember_GroupId gm))
            (GroupMembers s) (GroupTeams s))
         (Groups s))
      (TeamMembers s) in
  map (fun row =>
         (column (fun x => GroupMember_UserId (ts_member x)) (fst row),
          column (fun x => Row_ForeignId (ts_link x)) (fst row)))
      (filter
         (fun row =>
            let l := fst row in
            where_true
              (sql_and (is_null (column TeamMember_UserId (snd row)))
              (sql_and (sql_eqZ (column (fun x => Group_DeleteAt (ts_group x)) l) 0)
              (sql_and (sql_eqZ (column (fun x => Row_DeleteAt (ts_link x)) l) 0)
              (sql_and (sql_eqb (column (fun x => Row_AutoAdd (ts_link x)) l) true)
              (sql_and (sql_eqZ (column (fun x => GroupMember_DeleteAt (ts_member x)) l) 0)
                       (sql_geZ (column (fun x => GroupMember_CreateAt (ts_member x)) l)
                                MinGroupMembersCreateAt)))))))
         from).

(** [PendingAutoAddTeamMemberships]: the statement goes through [Exec], and
    the data of the result is what [Exec] hands back. *)
Definition PendingAutoAddTeamMemberships (s : Store)
    (minGroupMembersCreateAt : Z) : SupplierResult :=
  let result := NewSupplierResult in
  match Exec team_statement_columns
             (team_statement s minGroupMembersCreateAt) with
  | None =>
      with_Data
        (with_Err result
           (AppErr "SqlGroupStore.PendingAutoAddTeamMemberships"
                   "store.sql_group.select_error" StatusInternalServerError))
        DNil
  | Some sqlResult => with_Data result (DSqlResult sqlResult)
  end.

(** The left side of the FULL JOIN of [PendingAutoAddChannelMemberships]:
    GroupMembers JOIN GroupChannels JOIN Groups JOIN Channels JOIN Teams
    JOIN TeamMembers. *)
Definition ChannelSide : Type :=
  GroupMember * SyncableRow * Group * Channel * Team * TeamMember.
Definition cs_member (x : ChannelSide) : GroupMember :=
  fst (fst (fst (fst (fst x)))).
Definition cs_link (x : ChannelSide) : SyncableRow :=
  snd (fst (fst (fst (fst x)))).
Definition cs_group (x : ChannelSide) : Group := snd (fst (fst (fst x))).
Definition cs_channel (x : ChannelSide) : Channel := snd (fst (fst x)).
Definition cs_team (x : ChannelSide) : Team := snd (fst x).
Definition cs_teamMember (x : ChannelSide) : TeamMember := snd x.

Definition channel_from (s : Store) : list ChannelSide :=
  inner_join
    (fun x tm =>
       streq (TeamMember_SyncableId tm) (Team_Id (snd x))
       && streq (TeamMember_UserId tm)
                (GroupMember_UserId (fst (fst (fst (fst x))))))
    (inner_join
       (fun x t => streq (Team_Id t) (Channel_SyncableId (snd x)))
       (inner_join
          (fun x ch => streq (Channel_Id ch) (Row_ForeignId (snd (fst x))))
          (inner_join
             (fun x g => streq (Group_Id g) (GroupMember_GroupId (fst x)))
             (inner_join
                (fun gm gc => streq (Row_GroupId gc) (GroupMember_GroupId gm))
                (GroupMembers s) (GroupChannels s))
             (Groups s))
          (Channels s))
       (Teams s))
    (TeamMembers s).


(** The rows that the statement of [PendingAutoAddChannelMemberships]
    would select on a backend where Channels and TeamMembers have the
    column [SyncableId] that the statement names. Whether they have is not
    decided in this file; where they have not, the statement is refused,
    which is the answer [None] of the driver in [Exec]. *)
Definition channel_statement (s : Store) (MinGroupMembersCreateAt : Z)
    : list (option string * option string) :=
  let from :=
    full_join
      (fun x h =>
         streq (ChannelMemberHistory_ChannelId h) (Row_ForeignId (cs_link x))
         && streq (ChannelMemberHistory_UserId h)
                  (GroupMember_UserId (cs_member x)))
      (channel_from s) (ChannelMemberHistory s) in
  map (fun row =>
         (column (fun x => GroupMember_UserId (cs_member x)) (fst row),
          column (fun x => Row_ForeignId (cs_link x)) (fst row)))
      (filter
         (fun row =>
            let l := fst row in
            where_true
              (sql_and (is_null (column ChannelMemberHistory_UserId (snd row)))
              (sql_and (is_null (column_opt ChannelMemberHistory_LeaveTime (snd row)))
              (sql_and (sql_eqZ (column (fun x => Group_DeleteAt (cs_group x)) l) 0)
              (sql_and (sql_eqZ (column (fun x => Row_DeleteAt (cs_link x)) l) 0)
              (sql_and (sql_eqb (column (fun x => Row_AutoAdd (cs_link x)) l) true)
              (sql_and (sql_eqZ (column (fun x => GroupMember_DeleteAt (cs_member x)) l) 0)
                       (sql_geZ (column (fun x => GroupMember_CreateAt (cs_member x)) l)
                                MinGroupMembersCreateAt))))))))
         from).


(** ** The operations by kind *)

(** The update methods of the supplier. There is one for groups and one for
    links; no method updates a group member other than [GroupDeleteMember]. *)
Inductive UpdateOp :=
| UpdateGroup (group : Group)
| UpdateGroupSyncable (groupSyncable : GroupSyncable).

Definition run_update (s : Store) (now : Z) (op : UpdateOp)
    : Store * SupplierResult :=
  match op with
  | UpdateGroup group => GroupUpdate s now group
  | UpdateGroupSyncable groupSyncable => GroupUpdateGroupSyncable s now groupSyncable
  end.

(** The soft deletes. *)
Inductive DeleteOp :=
| DeleteGroup (groupID : string)
| DeleteMember (groupID userID : string)
| DeleteGroupSyncable (groupID syncableID : string) (syncableType : GroupSyncableType).

Definition run_delete (s : Store) (now : Z) (op : DeleteOp)
    : Store * SupplierResult :=
  match op with
  | DeleteGroup groupID => GroupDelete s now groupID
  | DeleteMember groupID userID => GroupDeleteMember s now groupID userID
  | DeleteGroupSyncable groupID syncableID syncableType =>
      GroupDeleteGroupSyncable s now groupID syncableID syncableType
  end.

(** ** Vocabulary of the properties *)

(** The relation holds exactly one row that satisfies [p], and it is [r]. *)
Definition holds_one {A : Type} (p : A -> bool) (tbl : list A) (r : A) : Prop :=
  filter p tbl = [r].

(** Key, [CreateAt] and [DeleteAt] of every row of the four relations. *)
Definition Group_times (g : Group) : string * Z * Z :=
  (Group_Id g, Group_CreateAt g, Group_DeleteAt g).

Definition GroupMember_times (m : GroupMember) : string * string * Z * Z :=
  (GroupMember_GroupId m, GroupMember_UserId m,
   GroupMember_CreateAt m, GroupMember_DeleteAt m).

Definition Row_times (r : SyncableRow) : string * string * Z * Z :=
  (Row_GroupId r, Row_ForeignId r, Row_CreateAt r, Row_DeleteAt r).

Definition stored_times (s : Store) :=
  (map Group_times (Groups s), map GroupMember_times (GroupMembers s),
   map Row_times (GroupTeams s), map Row_times (GroupChannels s)).

(** The entity that an update addresses is stored once, soft-deleted. *)
Definition soft_deleted_target (s : Store) (op : UpdateOp) : Prop :=
  match op with
  | UpdateGroup group =>
      exists r, holds_one (group_has_id (Group_Id group)) (Groups s) r
                /\ Group_DeleteAt r <> 0
  | UpdateGroupSyncable gs =>
      exists r, holds_one (row_has_key (GroupSyncable_GroupId gs)
                                       (GroupSyncable_SyncableId gs))
                          (syncable_table (GroupSyncable_Type gs) s) r
                /\ Row_DeleteAt r <> 0
  end.

(** The update is one that the method carries out: the entity passes the
    validation of package model; a group keeps [Name] unique; a link comes
    with a change of [AutoAdd] or of [CanLeave]. *)
Definition update_accepted (s : Store) (now : Z) (op : UpdateOp) : Prop :=
  match op with
  | UpdateGroup group =>
      (forall r, holds_one (group_has_id (Group_Id group)) (Groups s) r ->
                 Group_IsValidForUpdate
                   (Group_with_times group (Group_CreateAt r) now (Group_DeleteAt r))
                 = None)
      /\ (forall r, In r (Groups s) -> Group_Name r = Group_Name group ->
                    Group_Id r = Group_Id group)
  | UpdateGroupSyncable gs =>
      GroupSyncable_IsValid gs = None
      /\ (forall r, holds_one (row_has_key (GroupSyncable_GroupId gs)
                                           (GroupSyncable_SyncableId gs))
                              (syncable_table (GroupSyncable_Type gs) s) r ->
                    Row_AutoAdd r <> GroupSyncable_AutoAdd gs
                    \/ Row_CanLeave r <> GroupSyncable_CanLeave gs)
  end.

(** [CreateAt] and [DeleteAt] that the store holds for the entity an update
    addresses, one pair for each row of its key. *)
Definition target_times (s : Store) (op : UpdateOp) : list (Z * Z) :=
  match op with
  | UpdateGroup group =>
      map (fun g => (Group_CreateAt g, Group_DeleteAt g))
          (filter (group_has_id (Group_Id group)) (Groups s))
  | UpdateGroupSyncable gs =>
      map (fun r => (Row_CreateAt r, Row_DeleteAt r))
          (filter (row_has_key (GroupSyncable_GroupId gs)
                               (GroupSyncable_SyncableId gs))
                  (syncable_table (GroupSyncable_Type gs) s))
  end.

(** The rows that the store holds under the key an update addresses, as
    the entities they stand for; a row of links is of the type of the
    update. *)
Definition stored_target (s : Store) (op : UpdateOp) : list ResultData :=
  match op with
  | UpdateGroup group =>
      map DGroup (filter (group_has_id (Group_Id group)) (Groups s))
  | UpdateGroupSyncable gs =>
      map (fun r =>
             DSyncable
               (mkGroupSyncable (Row_GroupId r) (Row_ForeignId r)
                                (Row_CanLeave r) (Row_AutoAdd r)
                                (Row_CreateAt r) (Row_UpdateAt r)
                                (Row_DeleteAt r) (GroupSyncable_Type gs)))
          (filter (row_has_key (GroupSyncable_GroupId gs)
                               (GroupSyncable_SyncableId gs))
                  (syncable_table (GroupSyncable_Type gs) s))
  end.

(** The entity of an update with the three times set: the caller's other
    columns, among them the ones the update is to change. *)
Definition updated_entity (op : UpdateOp) (createAt updateAt deleteAt : Z)
    : ResultData :=
  match op with
  | UpdateGroup group =>
      DGroup (Group_with_times group createAt updateAt deleteAt)
  | UpdateGroupSyncable gs =>
      DSyncable (GroupSyncable_with_times gs createAt updateAt deleteAt)
  end.

(** [CreateAt] and [DeleteAt] of the entity that a result carries. *)
Definition data_times (d : ResultData) : option (Z * Z) :=
  match d with
  | DGroup g => Some (Group_CreateAt g, Group_DeleteAt g)
  | DMember m => Some (GroupMember_CreateAt m, GroupMember_DeleteAt m)
  | DSyncable gs => Some (GroupSyncable_CreateAt gs, GroupSyncable_DeleteAt gs)
  | DNil | DGroups _ | DSyncables _ | DSqlResult _ => None
  end.

(** The entity that a delete addresses is stored once with a [DeleteAt]
    other than 0, under well-formed identifiers. *)
Definition already_deleted (s : Store) (op : DeleteOp) : Prop :=
  match op with
  | DeleteGroup groupID =>
      exists g, holds_one (group_has_id groupID) (Groups s) g
                /\ Group_DeleteAt g <> 0
  | DeleteMember groupID userID =>
      IsValidId groupID = true /\ IsValidId userID = true
      /\ exists m, holds_one (member_has_key groupID userID) (GroupMembers s) m
                   /\ GroupMember_DeleteAt m <> 0
  | DeleteGroupSyncable groupID syncableID syncableType =>
      IsValidId groupID = true /\ IsValidId syncableID = true
      /\ exists r, holds_one (row_has_key groupID syncableID)
                             (syncable_table syncableType s) r
                   /\ Row_DeleteAt r <> 0
  end.

(** The pairs of the team case, as the reconciliation is described: a live
    member, of at least the watermark, of a live group with a live AutoAdd
    link to the team, and no membership of the user in the team. *)
Definition pending_team (s : Store) (minCreateAt : Z) (u t : string) : Prop :=
  exists gm gt g,
    In gm (GroupMembers s) /\ In gt (GroupTeams s) /\ In g (Groups s)
    /\ Row_GroupId gt = GroupMember_GroupId gm
    /\ Group_Id g = GroupMember_GroupId gm
    /\ GroupMember_UserId gm = u /\ Row_ForeignId gt = t
    /\ Group_DeleteAt g = 0
    /\ Row_DeleteAt gt = 0 /\ Row_AutoAdd gt = true
    /\ GroupMember_DeleteAt gm = 0 /\ minCreateAt <= GroupMember_CreateAt gm
    /\ (forall tm, In tm (TeamMembers s) ->
                   ~ (TeamMember_SyncableId tm = t /\ TeamMember_UserId tm = u)).

(** The pairs of the channel case. *)
Definition pending_channel (s : Store) (minCreateAt : Z) (u c : string) : Prop :=
  exists gm gc g ch t tm,
    In gm (GroupMembers s) /\ In gc (GroupChannels s) /\ In g (Groups s)
    /\ In ch (Channels s) /\ In t (Teams s) /\ In tm (TeamMembers s)
    /\ Row_GroupId gc = GroupMember_GroupId gm
    /\ Group_Id g = GroupMember_GroupId gm
    /\ GroupMember_UserId gm = u /\ Row_ForeignId gc = c
    /\ Group_DeleteAt g = 0
    /\ Row_DeleteAt gc = 0 /\ Row_AutoAdd gc = true
    /\ GroupMember_DeleteAt gm = 0 /\ minCreateAt <= GroupMember_CreateAt gm
    /\ Channel_Id ch = c /\ Team_Id t = Channel_SyncableId ch
    /\ TeamMember_SyncableId tm = Team_Id t /\ TeamMember_UserId tm = u
    /\ (forall h, In h (ChannelMemberHistory s) ->
                  ~ (ChannelMemberHistory_ChannelId h = c
                     /\ ChannelMemberHistory_UserId h = u)).

(** ** All the writes *)

(** The methods of the supplier that write. *)
Inductive Mutation :=
| DoGroupCreate (newId : string) (group : Group)
| DoUpdate (op : UpdateOp)
| DoDelete (op : DeleteOp)
| DoGroupCreateMember (groupID userID : string)
| DoGroupCreateGroupSyncable (groupSyncable : GroupSyncable).

Definition run_mutation (s : Store) (now : Z) (m : Mutation)
    : Store * SupplierResult :=
  match m with
  | DoGroupCreate newId group => GroupCreate s now newId group
  | DoUpdate op => run_update s now op
  | DoDelete op => run_delete s now op
  | DoGroupCreateMember groupID userID => GroupCreateMember s now groupID userID
  | DoGroupCreateGroupSyncable gs => GroupCreateGroupSyncable s now gs
  end.

(** The keys that [initSqlSupplierGroups] declares with [SetKeys]. *)
Definition member_key (m : GroupMember) : string * string :=
  (GroupMember_GroupId m, GroupMember_UserId m).

Definition row_key (r : SyncableRow) : string * string :=
  (Row_GroupId r, Row_ForeignId r).

(** No two rows of a relation have the same key. *)
Definition keys_unique (s : Store) : Prop :=
  NoDup (map Group_Id (Groups s))
  /\ NoDup (map member_key (GroupMembers s))
  /\ NoDup (map row_key (GroupTeams s))
  /\ NoDup (map row_key (GroupChannels s)).

(** No two groups have the same [Name] ([SetUnique] of the column). *)
Definition names_unique (s : Store) : Prop :=
  NoDup (map Group_Name (Groups s)).

(** The keys of the rows of the four relations, in the order of the rows. *)
Definition stored_keys (s : Store) :=
  (map Group_Id (Groups s), map member_key (GroupMembers s),
   map row_key (GroupTeams s), map row_key (GroupChannels s)).

(** [l] is [k] followed by at most one element, which is not in [k]. *)
Definition extends {A : Type} (k l : list A) : Prop :=
  exists more, l = k ++ more
               /\ (List.length more <= 1)%nat
               /\ forall x, In x more -> ~ In x k.

(** For a delete of a group, the id passes [model.IsValidId]. *)
Definition group_id_checked (m : Mutation) : Prop :=
  match m with
  | DoDelete (DeleteGroup groupID) => IsValidId groupID = true
  | _ => True
  end.

(** Descending order of a list by a key, every element against all later
    ones. *)
Definition sorted_desc {A : Type} (key : A -> Z) (l : list A) : Prop :=
  StronglySorted (fun a b => key b <= key a) l.

(** The entity that the page of links builds from a row. *)
Definition link_of_row (r : SyncableRow) : GroupSyncable :=
  mkGroupSyncable (Row_GroupId r) (Row_ForeignId r) (Row_CanLeave r)
                  (Row_AutoAdd r) (Row_CreateAt r) (Row_UpdateAt r)
                  (Row_DeleteAt r) GSTeam.

(** The list of links in the data of a result, and the list of groups. *)
Definition data_links (d : ResultData) : list GroupSyncable :=
  match d with DSyncables l => l | _ => [] end.

Definition data_groups (d : ResultData) : list Group :=
  match d with DGroups l => l | _ => [] end.

(** The id of the group that a write addresses, when it is one on Groups. *)
Definition written_group_id (m : Mutation) : option string :=
  match m with
  | DoGroupCreate newId _ => Some newId
  | DoUpdate (UpdateGroup group) => Some (Group_Id group)
  | DoDelete (DeleteGroup groupID) => Some groupID
  | _ => None
  end.

(** The key and type of the link that a write addresses, when it is one on
    GroupTeams or GroupChannels. *)
Definition written_link (m : Mutation)
    : option (string * string * GroupSyncableType) :=
  match m with
  | DoGroupCreateGroupSyncable gs
  | DoUpdate (UpdateGroupSyncable gs) =>
      Some (GroupSyncable_GroupId gs, GroupSyncable_SyncableId gs,
            GroupSyncable_Type gs)
  | DoDelete (DeleteGroupSyncable groupID syncableID t) =>
      Some (groupID, syncableID, t)
  | _ => None
  end.

(** Two links agree on what the relations store of a link; [Type] is not
    stored. *)
Definition same_columns (a b : GroupSyncable) : Prop :=
  row_of_GroupSyncable a = row_of_GroupSyncable b.

(** No row is stored under the key that an update or a delete addresses;
    for the deletes that check them first, the identifiers are well-formed. *)
Definition target_absent (s : Store) (m : Mutation) : Prop :=
  match m with
  | DoUpdate (UpdateGroup group) =>
      forall r, In r (Groups s) -> group_has_id (Group_Id group) r = false
  | DoUpdate (UpdateGroupSyncable gs) =>
      forall r, In r (syncable_table (GroupSyncable_Type gs) s) ->
                row_has_key (GroupSyncable_GroupId gs)
                            (GroupSyncable_SyncableId gs) r = false
  | DoDelete (DeleteGroup groupID) =>
      forall r, In r (Groups s) -> group_has_id groupID r = false
  | DoDelete (DeleteMember groupID userID) =>
      IsValidId groupID = true /\ IsValidId userID = true
      /\ forall r, In r (GroupMembers s) ->
                   member_has_key groupID userID r = false
  | DoDelete (DeleteGroupSyncable groupID syncableID t) =>
      IsValidId groupID = true /\ IsValidId syncableID = true
      /\ forall r, In r (syncable_table t s) ->
                   row_has_key groupID syncableID r = false
  | DoGroupCreate _ _ | DoGroupCreateMember _ _
  | DoGroupCreateGroupSyncable _ => False
  end.

(** ** A store and an instance of package model for the examples *)

Definition ex_group1 : string := "group1xxxxxxxxxxxxxxxxxxxx".
Definition ex_group2 : string := "group2xxxxxxxxxxxxxxxxxxxx".
Definition ex_user1 : string := "user1xxxxxxxxxxxxxxxxxxxxx".
Definition ex_user2 : string := "user2xxxxxxxxxxxxxxxxxxxxx".
Definition ex_team1 : string := "team1xxxxxxxxxxxxxxxxxxxxx".
Definition ex_team2 : string := "team2xxxxxxxxxxxxxxxxxxxxx".
Definition ex_chan1 : string := "chan1xxxxxxxxxxxxxxxxxxxxx".

(** Group 1 ("eng") is live, with the member user 1 of time 1000 and live
    AutoAdd links to team 1 and to channel 1 of team 1. Group 2 ("ops"), its
    member user 2 and its link to team 2 are soft-deleted. Nobody is a
    member of a team yet. *)
Definition ex_store : Store :=
  mkStore
    [ mkGroup ex_group1 "eng" "Engineering" "" "ldap" "r1" 800 800 0;
      mkGroup ex_group2 "ops" "Operations" "" "ldap" "r2" 700 750 750 ]
    [ mkGroupMember ex_group1 ex_user1 1000 0;
      mkGroupMember ex_group2 ex_user2 600 650 ]
    [ mkSyncableRow ex_group1 ex_team1 true true 900 900 0;
      mkSyncableRow ex_group2 ex_team2 true false 20 60 60 ]
    [ mkSyncableRow ex_group1 ex_chan1 true true 900 900 0 ]
    []
    [ mkChannel ex_chan1 ex_team1 ]
    [ mkTeam ex_team1; mkTeam ex_team2 ]
    [].

(** The same after user 1 has been made a member of team 1. *)
Definition ex_store_provisioned : Store :=
  mkStore (Groups ex_store) (GroupMembers ex_store) (GroupTeams ex_store)
          (GroupChannels ex_store)
          [ mkTeamMember ex_team1 ex_user1 ]
          (Channels ex_store) (Teams ex_store) (ChannelMemberHistory ex_store).

(** A store whose one group, live, has an id that is not well-formed. *)
Definition ex_store_short_id : Store :=
  mkStore [ mkGroup "g1" "old" "Old" "" "ldap" "r0" 100 100 0 ]
          [] [] [] [] [] [] [].

(** Identifiers of 26 characters are the well-formed ones. *)
Definition ex_IsValidId (id : string) : bool :=
  Nat.eqb (String.length id) 26.

Definition ex_invalid : AppError :=
  mkAppError "model" "model.is_valid.app_error" StatusBadRequest.

Definition ex_Group_IsValidForUpdate (g : Group) : option AppError :=
  if ex_IsValidId (Group_Id g) then None else Some ex_invalid.

Definition ex_GroupMember_IsValid (m : GroupMember) : option AppError :=
  if ex_IsValidId (GroupMember_GroupId m) && ex_IsValidId (GroupMember_UserId m)
  then None else Some ex_invalid.

Definition ex_GroupSyncable_IsValid (gs : GroupSyncable) : option AppError :=
  if ex_IsValidId (GroupSyncable_GroupId gs)
     && ex_IsValidId (GroupSyncable_SyncableId gs)
  then None else Some ex_invalid.

Definition ex_Group_IsValidForCreate (g : Group) : option AppError :=
  if Nat.eqb (String.length (Group_Name g)) 0 then Some ex_invalid else None.

(** Inputs of the examples. *)
Definition ex_group3 : string := "group3xxxxxxxxxxxxxxxxxxxx".

Definition ex_new_group : Group :=
  mkGroup "" "qa" "Quality" "" "ldap" "r3" 1 2 3.

Definition ex_new_link : GroupSyncable :=
  mkGroupSyncable ex_group2 ex_chan1 false true 1 2 3 GSChannel.

Definition ex_link_update : GroupSyncable :=
  mkGroupSyncable ex_group1 ex_team1 false false 1 2 3 GSTeam.

Definition ex_link_same : GroupSyncable :=
  mkGroupSyncable ex_group1 ex_team1 true true 1 2 3 GSTeam.

Definition ex_deleted_link_update : GroupSyncable :=
  mkGroupSyncable ex_group2 ex_team2 true true 1 2 0 GSTeam.

Definition ex_group_update : Group :=
  mkGroup ex_group1 "eng" "Engineers" "all of them" "ldap" "r1" 1 2 3.

Definition ex_deleted_group_update : Group :=
  mkGroup ex_group2 "ops" "Operators" "" "ldap" "r2" 1 2 0.

(** A store for the pages: three live groups and a soft-deleted one, and
    three links of group 1 to teams, stored in no order of their times. *)
Definition ex_group4 : string := "group4xxxxxxxxxxxxxxxxxxxx".
Definition ex_team3 : string := "team3xxxxxxxxxxxxxxxxxxxxx".

Definition ex_store_pages : Store :=
  mkStore
    [ mkGroup ex_group1 "eng" "Engineering" "" "ldap" "r1" 800 800 0;
      mkGroup ex_group2 "ops" "Operations" "" "ldap" "r2" 700 750 750;
      mkGroup ex_group3 "qa" "Quality" "" "ldap" "r3" 950 950 0;
      mkGroup ex_group4 "web" "Web" "" "ldap" "r4" 900 900 0 ]
    []
    [ mkSyncableRow ex_group1 ex_team1 true true 900 900 0;
      mkSyncableRow ex_group1 ex_team2 true false 950 960 960;
      mkSyncableRow ex_group4 ex_team1 true true 905 905 0;
      mkSyncableRow ex_group1 ex_team3 false true 910 910 0 ]
    []
    []
    []
    [ mkTeam ex_team1; mkTeam ex_team2; mkTeam ex_team3 ]
    [].

(** * Properties *)

(** ** Rows selected by key *)

Lemma streq_true (a b : string) : streq a b = true <-> a = b.
Proof. unfold streq. apply String.eqb_eq. Qed.

Lemma streq_false (a b : string) : streq a b = false <-> a <> b.
Proof. unfold streq. apply String.eqb_neq. Qed.

Lemma SelectOne_holds_one (A : Type) (p : A -> bool) (tbl : list A) (r : A) :
  holds_one p tbl r -> SelectOne p tbl = inr r.
Proof. unfold holds_one, SelectOne. intros ->. reflexivity. Qed.

Lemma SelectOne_found (A : Type) (p : A -> bool) (tbl : list A) (r : A) :
  SelectOne p tbl = inr r -> holds_one p tbl r.
Proof.
  unfold holds_one, SelectOne.
  destruct (filter p tbl) as [|x [|y l]]; intro H; try discriminate.
  now inversion H.
Qed.

Lemma SelectOne_no_rows (A : Type) (p : A -> bool) (tbl : list A) :
  SelectOne p tbl = inl ErrNoRows <-> (forall r, In r tbl -> p r = false).
Proof.
  unfold SelectOne. split.
  - intros H r Hin. destruct (p r) eqn:E; [|reflexivity].
    assert (Hf : In r (filter p tbl)) by (apply filter_In; auto).
    destruct (filter p tbl) as [|x [|y l]]; [destruct Hf | discriminate | discriminate].
  - intro H.
    assert (Hf : filter p tbl = []).
    { induction tbl as [|x l IH]; [reflexivity|]. simpl.
      rewrite (H x (or_introl eq_refl)). apply IH. intros r Hr. apply H. now right. }
    now rewrite Hf.
Qed.

Lemma holds_one_In (A : Type) (p : A -> bool) (tbl : list A) (r : A) :
  holds_one p tbl r -> In r tbl /\ p r = true.
Proof.
  unfold holds_one. intro H. apply filter_In. rewrite H. now left.
Qed.

Lemma holds_one_only (A : Type) (p : A -> bool) (tbl : list A) (r x : A) :
  holds_one p tbl r -> In x tbl -> p x = true -> x = r.
Proof.
  unfold holds_one. intros H Hin Hp.
  assert (Hf : In x (filter p tbl)) by (apply filter_In; auto).
  rewrite H in Hf. destruct Hf as [->|[]]. reflexivity.
Qed.

Lemma count_rows_holds_one (A : Type) (p : A -> bool) (tbl : list A) (r : A) :
  holds_one p tbl r -> count_rows p tbl = 1.
Proof. unfold holds_one, count_rows. intros ->. reflexivity. Qed.

Lemma filter_none (A : Type) (p : A -> bool) (l : list A) :
  (forall x, In x l -> p x = false) -> filter p l = [].
Proof.
  induction l as [|x l IH]; intro H; [reflexivity|].
  simpl. rewrite (H x (or_introl eq_refl)). apply IH.
  intros y Hy. apply H. now right.
Qed.

(** A row is stored once when its key is the key of no other row. *)
Lemma holds_one_of_NoDup (A K : Type) (key : A -> K) (p : A -> bool)
    (tbl : list A) (r : A) :
  (forall x, p x = true -> key x = key r) ->
  NoDup (map key tbl) -> In r tbl -> p r = true -> holds_one p tbl r.
Proof.
  intros Hk. unfold holds_one.
  induction tbl as [|x l IH]; intros Hnd Hin Hp; [destruct Hin|].
  simpl in Hnd. inversion Hnd as [|? ? Hx Hl]; subst.
  simpl. destruct Hin as [->|Hin].
  - rewrite Hp. f_equal. apply filter_none.
    intros y Hy. destruct (p y) eqn:E; [|reflexivity].
    exfalso. apply Hx. rewrite <- (Hk y E). now apply in_map.
  - destruct (p x) eqn:E.
    + exfalso. apply Hx. rewrite (Hk x E). now apply in_map.
    + now apply IH.
Qed.

(** ** What the two updates write *)

Lemma eqb_both_false (a b c d : bool) :
  a <> b \/ c <> d -> Bool.eqb a b && Bool.eqb c d = false.
Proof.
  intros [H|H]; apply andb_false_iff; [left|right];
    apply Bool.eqb_false_iff; exact H.
Qed.

(** The link update, when it goes through: every row of the relation of the
    type is written. *)
Lemma GroupUpdateGroupSyncable_success (s : Store) (now : Z)
    (gs : GroupSyncable) (row : SyncableRow) :
  holds_one (row_has_key (GroupSyncable_GroupId gs) (GroupSyncable_SyncableId gs))
            (syncable_table (GroupSyncable_Type gs) s) row ->
  GroupSyncable_IsValid gs = None ->
  Row_AutoAdd row <> GroupSyncable_AutoAdd gs
  \/ Row_CanLeave row <> GroupSyncable_CanLeave gs ->
  GroupUpdateGroupSyncable s now gs
  = (set_syncable_table (GroupSyncable_Type gs) s
       (map (set_flags (GroupSyncable_CanLeave gs) (GroupSyncable_AutoAdd gs) now)
            (syncable_table (GroupSyncable_Type gs) s)),
     mkResult (DSyncable (GroupSyncable_with_times gs (Row_CreateAt row) now
                                                   (Row_DeleteAt row)))
              None).
Proof.
  intros Hone Hvalid Hdelta. unfold GroupUpdateGroupSyncable.
  rewrite (SelectOne_holds_one _ _ _ _ Hone), Hvalid. simpl.
  rewrite (eqb_both_false _ _ _ _ Hdelta). reflexivity.
Qed.

Lemma GroupUpdateGroupSyncable_ok_inv (s : Store) (now : Z) (gs : GroupSyncable) :
  Err (snd (GroupUpdateGroupSyncable s now gs)) = None ->
  exists row,
    holds_one (row_has_key (GroupSyncable_GroupId gs) (GroupSyncable_SyncableId gs))
              (syncable_table (GroupSyncable_Type gs) s) row
    /\ GroupSyncable_IsValid gs = None
    /\ (Row_AutoAdd row <> GroupSyncable_AutoAdd gs
        \/ Row_CanLeave row <> GroupSyncable_CanLeave gs).
Proof.
  unfold GroupUpdateGroupSyncable.
  destruct (SelectOne _ _) as [[|]|row] eqn:Hsel; simpl; try discriminate.
  destruct (GroupSyncable_IsValid gs) eqn:Hvalid; simpl; try discriminate.
  destruct (Bool.eqb (Row_AutoAdd row) (GroupSyncable_AutoAdd gs)) eqn:Ea;
  destruct (Bool.eqb (Row_CanLeave row) (GroupSyncable_CanLeave gs)) eqn:Ec;
    simpl; try discriminate; intros _; exists row;
    (split; [now apply SelectOne_found | split; [reflexivity|]]).
  - right. now apply Bool.eqb_false_iff.
  - left. now apply Bool.eqb_false_iff.
  - left. now apply Bool.eqb_false_iff.
Qed.

(** In every outcome the link update leaves the store as it is or writes
    the three columns in all rows of one relation. *)
Lemma GroupUpdateGroupSyncable_store (s : Store) (now : Z) (gs : GroupSyncable) :
  fst (GroupUpdateGroupSyncable s now gs) = s
  \/ fst (GroupUpdateGroupSyncable s now gs)
     = set_syncable_table (GroupSyncable_Type gs) s
         (map (set_flags (GroupSyncable_CanLeave gs) (GroupSyncable_AutoAdd gs) now)
              (syncable_table (GroupSyncable_Type gs) s)).
Proof.
  unfold GroupUpdateGroupSyncable.
  destruct (SelectOne _ _) as [[|]|row]; simpl; auto.
  destruct (GroupSyncable_IsValid gs); simpl; auto.
  destruct (_ && _); simpl; auto.
Qed.

Lemma Row_times_set_flags (c a : bool) (u : Z) (r : SyncableRow) :
  Row_times (set_flags c a u r) = Row_times r.
Proof. reflexivity. Qed.

Lemma stored_times_set_syncable_table (t : GroupSyncableType) (s : Store)
    (f : SyncableRow -> SyncableRow) :
  (forall r, Row_times (f r) = Row_times r) ->
  stored_times (set_syncable_table t s (map f (syncable_table t s)))
  = stored_times s.
Proof.
  intro Hf.
  assert (Hm : forall l, map Row_times (map f l) = map Row_times l).
  { intro l. rewrite map_map. apply map_ext. exact Hf. }
  destruct t; unfold stored_times; simpl; now rewrite Hm.
Qed.

(** The group update: the row of the [Id] is replaced by the entity, which
    carries the stored [CreateAt] and [DeleteAt]. *)
Lemma Update_Group_rows (tbl : list Group) (g : Group) (n : Z) (tbl' : list Group) :
  Update_Group tbl g = Some (n, tbl') ->
  n = count_rows (group_has_id (Group_Id g)) tbl /\ tbl' = replace_group g tbl.
Proof.
  unfold Update_Group. destruct (_ && _); [discriminate|].
  intro H. inversion H. auto.
Qed.

Lemma GroupUpdate_store (s : Store) (now : Z) (group : Group) :
  fst (GroupUpdate s now group) = s
  \/ exists r,
       holds_one (group_has_id (Group_Id group)) (Groups s) r
       /\ fst (GroupUpdate s now group)
          = set_Groups s
              (replace_group
                 (Group_with_times group (Group_CreateAt r) now (Group_DeleteAt r))
                 (Groups s)).
Proof.
  unfold GroupUpdate.
  destruct (SelectOne _ _) as [[|]|r] eqn:Hsel; simpl; auto.
  destruct (Group_IsValidForUpdate _); simpl; auto.
  destruct (Update_Group _ _) as [[n tbl]|] eqn:Hup; simpl; auto.
  apply Update_Group_rows in Hup. destruct Hup as [_ ->].
  right. exists r. split; [now apply SelectOne_found|].
  destruct (negb (n =? 1)); reflexivity.
Qed.

Lemma Group_times_replace (g r : Group) (tbl : list Group) :
  holds_one (group_has_id (Group_Id g)) tbl r ->
  Group_CreateAt g = Group_CreateAt r -> Group_DeleteAt g = Group_DeleteAt r ->
  map Group_times (replace_group g tbl) = map Group_times tbl.
Proof.
  intros Hone Hc Hd. unfold replace_group. rewrite map_map.
  apply map_ext_in. intros x Hx.
  destruct (group_has_id (Group_Id g) x) eqn:E; [|reflexivity].
  rewrite (holds_one_only _ _ _ _ x Hone Hx E).
  destruct (holds_one_In _ _ _ _ Hone) as [_ Hid].
  unfold group_has_id in Hid. apply streq_true in Hid.
  unfold Group_times. now rewrite Hc, Hd, Hid.
Qed.

(** No update touches a stored [CreateAt] or [DeleteAt], in any outcome. *)
Lemma run_update_stored_times (s : Store) (now : Z) (op : UpdateOp) :
  stored_times (fst (run_update s now op)) = stored_times s.
Proof.
  destruct op as [group|gs]; simpl.
  - destruct (GroupUpdate_store s now group) as [->|[r [Hone ->]]];
      [reflexivity|].
    unfold stored_times, set_Groups; simpl.
    erewrite Group_times_replace;
      [reflexivity | exact Hone | reflexivity | reflexivity].
  - destruct (GroupUpdateGroupSyncable_store s now gs) as [->| ->];
      [reflexivity|].
    apply stored_times_set_syncable_table. intro r. apply Row_times_set_flags.
Qed.

(** ** Updates *)

Lemma filter_map_same (A : Type) (p : A -> bool) (f : A -> A) (l : list A) :
  (forall x, p (f x) = p x) -> filter p (map f l) = map f (filter p l).
Proof.
  intro H. induction l as [|x l IH]; [reflexivity|].
  simpl. rewrite H. destruct (p x); simpl; now rewrite IH.
Qed.

Lemma filter_replace_group (g : Group) (tbl : list Group) :
  filter (group_has_id (Group_Id g)) (replace_group g tbl)
  = map (fun _ => g) (filter (group_has_id (Group_Id g)) tbl).
Proof.
  unfold replace_group. rewrite filter_map_same.
  - apply map_ext_in. intros x Hx. apply filter_In in Hx. now rewrite (proj2 Hx).
  - intro x. destruct (group_has_id (Group_Id g) x) eqn:E; [|exact E].
    unfold group_has_id. now apply streq_true.
Qed.

Lemma name_kept_unique (g : Group) (tbl : list Group) :
  (forall r, In r tbl -> Group_Name r = Group_Name g -> Group_Id r = Group_Id g) ->
  existsb (fun r => streq (Group_Name r) (Group_Name g)
                    && negb (group_has_id (Group_Id g) r)) tbl = false.
Proof.
  intro H. destruct (existsb _ tbl) eqn:E; [|reflexivity].
  apply existsb_exists in E. destruct E as [r [Hin Hr]].
  apply andb_true_iff in Hr. destruct Hr as [Hn Hi].
  apply streq_true in Hn. apply negb_true_iff in Hi.
  unfold group_has_id in Hi. apply streq_false in Hi.
  exfalso. apply Hi. now apply H.
Qed.

(** The group update, when it goes through. *)
Lemma GroupUpdate_success (s : Store) (now : Z) (group r : Group) :
  holds_one (group_has_id (Group_Id group)) (Groups s) r ->
  Group_IsValidForUpdate
    (Group_with_times group (Group_CreateAt r) now (Group_DeleteAt r)) = None ->
  (forall x, In x (Groups s) -> Group_Name x = Group_Name group ->
             Group_Id x = Group_Id group) ->
  GroupUpdate s now group
  = (set_Groups s
       (replace_group
          (Group_with_times group (Group_CreateAt r) now (Group_DeleteAt r))
          (Groups s)),
     mkResult
       (DGroup (Group_with_times group (Group_CreateAt r) now (Group_DeleteAt r)))
       None).
Proof.
  intros Hone Hvalid Hname. unfold GroupUpdate.
  rewrite (SelectOne_holds_one _ _ _ _ Hone), Hvalid.
  unfold Update_Group. simpl Group_Id. simpl Group_Name.
  rewrite (name_kept_unique group (Groups s) Hname), andb_false_r.
  now rewrite (count_rows_holds_one _ _ _ _ Hone).
Qed.

Lemma GroupUpdate_ok_inv (s : Store) (now : Z) (group : Group) :
  Err (snd (GroupUpdate s now group)) = None ->
  exists r,
    holds_one (group_has_id (Group_Id group)) (Groups s) r
    /\ GroupUpdate s now group
       = (set_Groups s
            (replace_group
               (Group_with_times group (Group_CreateAt r) now (Group_DeleteAt r))
               (Groups s)),
          mkResult
            (DGroup (Group_with_times group (Group_CreateAt r) now
                                      (Group_DeleteAt r)))
            None).
Proof.
  unfold GroupUpdate.
  destruct (SelectOne _ _) as [[|]|r] eqn:Hsel; simpl; try discriminate.
  destruct (Group_IsValidForUpdate _); simpl; try discriminate.
  destruct (Update_Group _ _) as [[n tbl]|] eqn:Hup; simpl; try discriminate.
  apply Update_Group_rows in Hup. destruct Hup as [_ ->].
  destruct (negb (n =? 1)); simpl; try discriminate.
  intros _. exists r. split; [now apply SelectOne_found | reflexivity].
Qed.

Lemma syncable_table_set (t : GroupSyncableType) (s : Store)
    (rows : list SyncableRow) :
  syncable_table t (set_syncable_table t s rows) = rows.
Proof. destruct t; reflexivity. Qed.

(** An update that goes through: the entity it addresses is stored once,
    before and after, with the same [CreateAt] and [DeleteAt], and these
    are the ones of the entity that the result carries. *)
Lemma run_update_success (s : Store) (now : Z) (op : UpdateOp) :
  Err (snd (run_update s now op)) = None ->
  exists c d,
    target_times s op = [(c, d)]
    /\ target_times (fst (run_update s now op)) op = [(c, d)]
    /\ data_times (Data (snd (run_update s now op))) = Some (c, d).
Proof.
  destruct op as [group|gs]; simpl; intro Hok.
  - destruct (GroupUpdate_ok_inv s now group Hok) as [r [Hone ->]].
    exists (Group_CreateAt r), (Group_DeleteAt r). simpl.
    change (Group_Id group)
      with (Group_Id (Group_with_times group (Group_CreateAt r) now
                                       (Group_DeleteAt r))) at 2.
    rewrite filter_replace_group. simpl Group_Id.
    unfold holds_one in Hone. rewrite Hone. repeat split.
  - destruct (GroupUpdateGroupSyncable_ok_inv s now gs Hok)
      as [r [Hone [Hvalid Hdelta]]].
    rewrite (GroupUpdateGroupSyncable_success s now gs r Hone Hvalid Hdelta).
    exists (Row_CreateAt r), (Row_DeleteAt r). simpl.
    rewrite syncable_table_set, filter_map_same by (intro x; reflexivity).
    unfold holds_one in Hone. rewrite Hone. repeat split.
Qed.

(** C7. A successful update of a group or of a link leaves the [CreateAt]
    and the [DeleteAt] of every stored row as they were, whatever the
    caller supplied for them, and the entity it returns carries the stored
    pair. The rows of GroupMembers are among the rows that stay: the
    supplier has no update of a member. *)
Theorem update_preserves_CreateAt_DeleteAt (s : Store) (now : Z) (op : UpdateOp) :
  Err (snd (run_update s now op)) = None ->
  stored_times (fst (run_update s now op)) = stored_times s
  /\ exists c d,
       target_times s op = [(c, d)]
       /\ target_times (fst (run_update s now op)) op = [(c, d)]
       /\ data_times (Data (snd (run_update s now op))) = Some (c, d).
Proof.
  intro Hok. split; [apply run_update_stored_times|].
  now apply run_update_success.
Qed.

(** C10. Neither update looks at the stored [DeleteAt]: on an entity that is
    soft-deleted, an update that passes validation (and for a link comes
    with a change of [AutoAdd] or [CanLeave]) returns without an error and
    is carried out: the row stored under the key afterwards is the entity
    of the caller, with the [UpdateAt] of the call, which is also what the
    call returns; and it has the [CreateAt] and the [DeleteAt] that were
    stored, the latter not 0. *)
Theorem update_of_soft_deleted (s : Store) (now : Z) (op : UpdateOp) :
  soft_deleted_target s op -> update_accepted s now op ->
  Err (snd (run_update s now op)) = None
  /\ exists c d, d <> 0
       /\ target_times s op = [(c, d)]
       /\ target_times (fst (run_update s now op)) op = [(c, d)]
       /\ Data (snd (run_update s now op)) = updated_entity op c now d
       /\ stored_target (fst (run_update s now op)) op
          = [updated_entity op c now d].
Proof.
  intros Hdel Hacc.
  destruct op as [group|gs]; simpl in *.
  - destruct Hdel as [r [Hone Hd]]. destruct Hacc as [Hvalid Hname].
    rewrite (GroupUpdate_success s now group r Hone (Hvalid r Hone) Hname).
    simpl. split; [reflexivity|].
    exists (Group_CreateAt r), (Group_DeleteAt r).
    assert (Hafter : filter (group_has_id (Group_Id group))
                       (replace_group
                          (Group_with_times group (Group_CreateAt r) now
                                            (Group_DeleteAt r))
                          (Groups s))
                     = [Group_with_times group (Group_CreateAt r) now
                                         (Group_DeleteAt r)]).
    { change (Group_Id group)
        with (Group_Id (Group_with_times group (Group_CreateAt r) now
                                         (Group_DeleteAt r))) at 1.
      rewrite filter_replace_group. simpl Group_Id.
      unfold holds_one in Hone. now rewrite Hone. }
    split; [exact Hd|]. split.
    + unfold holds_one in Hone. now rewrite Hone.
    + rewrite Hafter. simpl. auto.
  - destruct Hdel as [r [Hone Hd]]. destruct Hacc as [Hvalid Hdelta].
    rewrite (GroupUpdateGroupSyncable_success s now gs r Hone Hvalid
               (Hdelta r Hone)).
    simpl. split; [reflexivity|].
    exists (Row_CreateAt r), (Row_DeleteAt r).
    assert (Hkey : Row_GroupId r = GroupSyncable_GroupId gs
                   /\ Row_ForeignId r = GroupSyncable_SyncableId gs).
    { destruct (holds_one_In _ _ _ _ Hone) as [_ Hk].
      unfold row_has_key in Hk. apply andb_true_iff in Hk.
      destruct Hk as [Hg Hi]. split; now apply streq_true. }
    destruct Hkey as [Hg Hi].
    rewrite syncable_table_set, filter_map_same by (intro x; reflexivity).
    split; [exact Hd|]. split.
    + unfold holds_one in Hone. now rewrite Hone.
    + unfold holds_one in Hone. rewrite Hone. simpl.
      unfold GroupSyncable_with_times. rewrite Hg, Hi. auto.
Qed.

(** C9. An update of a stored link with the stored [AutoAdd] and
    [CanLeave] returns the no-change error and writes nothing: the store is
    the same, and reading the link afterwards shows the [UpdateAt] that was
    stored. *)
Theorem update_without_change (s : Store) (now : Z) (gs : GroupSyncable)
    (row : SyncableRow) :
  holds_one (row_has_key (GroupSyncable_GroupId gs) (GroupSyncable_SyncableId gs))
            (syncable_table (GroupSyncable_Type gs) s) row ->
  GroupSyncable_IsValid gs = None ->
  GroupSyncable_AutoAdd gs = Row_AutoAdd row ->
  GroupSyncable_CanLeave gs = Row_CanLeave row ->
  (exists e,
     GroupUpdateGroupSyncable s now gs = (s, mkResult DNil (Some e))
     /\ error_kind e = NoChangeError)
  /\ exists got,
       GroupGetGroupSyncable (fst (GroupUpdateGroupSyncable s now gs))
         (GroupSyncable_GroupId gs) (GroupSyncable_SyncableId gs)
         (GroupSyncable_Type gs)
       = mkResult (DSyncable got) None
       /\ GroupSyncable_UpdateAt got = Row_UpdateAt row.
Proof.
  intros Hone Hvalid Ha Hc.
  assert (Hrun : GroupUpdateGroupSyncable s now gs
                 = (s, mkResult DNil
                         (Some (AppErr "SqlGroupStore.UpdateGroupSyncable"
                                  "store.sql_group.update_group_syncable.no_change"
                                  StatusInternalServerError)))).
  { unfold GroupUpdateGroupSyncable.
    rewrite (SelectOne_holds_one _ _ _ _ Hone), Hvalid. simpl.
    rewrite Ha, Hc, !Bool.eqb_reflx. reflexivity. }
  split.
  - eexists. split; [exact Hrun | reflexivity].
  - rewrite Hrun. simpl. unfold GroupGetGroupSyncable.
    rewrite (SelectOne_holds_one _ _ _ _ Hone). simpl.
    eexists. split; reflexivity.
Qed.

(** ** Soft deletes *)

(** C8. A delete of a group, a member or a link that is stored with a
    [DeleteAt] other than 0 returns the already-deleted error, a conflict,
    and the store is as before. *)
Theorem delete_of_deleted (s : Store) (now : Z) (op : DeleteOp) :
  already_deleted s op ->
  exists e, run_delete s now op = (s, mkResult DNil (Some e))
            /\ error_kind e = ConflictError.
Proof.
  destruct op as [groupID|groupID userID|groupID syncableID t]; simpl.
  - intros [g [Hone Hdel]]. unfold GroupDelete.
    rewrite (SelectOne_holds_one _ _ _ _ Hone).
    apply Z.eqb_neq in Hdel. rewrite Hdel. simpl.
    eexists. split.
    + destruct (IsValidId groupID); reflexivity.
    + reflexivity.
  - intros [Hg [Hu [m [Hone Hdel]]]]. unfold GroupDeleteMember.
    rewrite Hg, Hu. simpl. rewrite (SelectOne_holds_one _ _ _ _ Hone).
    apply Z.eqb_neq in Hdel. rewrite Hdel. simpl.
    eexists. split; reflexivity.
  - intros [Hg [Hi [r [Hone Hdel]]]]. unfold GroupDeleteGroupSyncable.
    rewrite Hg, Hi. simpl. rewrite (SelectOne_holds_one _ _ _ _ Hone).
    apply Z.eqb_neq in Hdel. simpl. rewrite Hdel. simpl.
    eexists. split; reflexivity.
Qed.

(** The member removal, when it goes through: the row of the key stays in
    the relation, with [DeleteAt] set to the time of the removal. *)
Lemma GroupDeleteMember_ok_inv (s : Store) (now : Z) (groupID userID : string) :
  Err (snd (GroupDeleteMember s now groupID userID)) = None ->
  exists m,
    holds_one (member_has_key groupID userID) (GroupMembers s) m
    /\ GroupMember_DeleteAt m = 0
    /\ fst (GroupDeleteMember s now groupID userID)
       = set_GroupMembers s
           (map (fun r => if member_has_key groupID userID r
                          then mkGroupMember groupID userID
                                             (GroupMember_CreateAt m) now
                          else r)
                (GroupMembers s)).
Proof.
  unfold GroupDeleteMember.
  destruct (negb (IsValidId groupID)); [discriminate|].
  destruct (negb (IsValidId userID)); [discriminate|].
  destruct (SelectOne _ _) as [[|]|m] eqn:Hsel; try discriminate.
  apply SelectOne_found in Hsel.
  destruct (holds_one_In _ _ _ _ Hsel) as [_ Hkey].
  unfold member_has_key in Hkey. apply andb_true_iff in Hkey.
  destruct Hkey as [Hg Hu]. apply streq_true in Hg, Hu.
  destruct (GroupMember_DeleteAt m =? 0) eqn:Hdel; [|discriminate].
  simpl. rewrite Hg, Hu. unfold Update_GroupMember. simpl.
  destruct (negb (count_rows _ _ =? 1)); [discriminate|].
  intros _. exists m. split; [exact Hsel|]. split; [now apply Z.eqb_eq|].
  reflexivity.
Qed.

(** C6. After a removal of a member that went through, adding the member
    again under the same key is refused with the uniqueness error, a
    conflict: the removed row is still in the relation, with its [DeleteAt]
    set, and the key is unique over all rows. The store stays as the
    removal left it. *)
Theorem add_after_remove (s : Store) (now now' : Z) (groupID userID : string) :
  Err (snd (GroupDeleteMember s now groupID userID)) = None ->
  GroupMember_IsValid (mkGroupMember groupID userID now' 0) = None ->
  let s' := fst (GroupDeleteMember s now groupID userID) in
  (exists m, holds_one (member_has_key groupID userID) (GroupMembers s') m
             /\ GroupMember_DeleteAt m = now)
  /\ exists e, GroupCreateMember s' now' groupID userID
               = (s', mkResult DNil (Some e))
               /\ error_kind e = ConflictError.
Proof.
  intros Hok Hvalid s'.
  destruct (GroupDeleteMember_ok_inv s now groupID userID Hok)
    as [m [Hone [_ Hs']]].
  subst s'. rewrite Hs'. simpl GroupMembers.
  set (m' := mkGroupMember groupID userID (GroupMember_CreateAt m) now).
  assert (Hkey : member_has_key groupID userID m' = true).
  { unfold member_has_key, m'. simpl. apply andb_true_iff.
    split; now apply streq_true. }
  assert (Hf : holds_one (member_has_key groupID userID)
                 (map (fun r => if member_has_key groupID userID r then m' else r)
                      (GroupMembers s)) m').
  { unfold holds_one. rewrite filter_map_same.
    - unfold holds_one in Hone. rewrite Hone. simpl.
      destruct (holds_one_In _ _ _ _ Hone) as [_ Hk]. unfold holds_one in Hk.
      now rewrite Hk.
    - intro x. destruct (member_has_key groupID userID x) eqn:E; [exact Hkey|exact E]. }
  split.
  - exists m'. split; [exact Hf | reflexivity].
  - unfold GroupCreateMember. rewrite Hvalid.
    unfold Insert_GroupMember. simpl.
    assert (Hex : existsb (member_has_key groupID userID)
                    (map (fun r => if member_has_key groupID userID r then m' else r)
                         (GroupMembers s)) = true).
    { apply existsb_exists. exists m'. split; [|exact Hkey].
      now apply (holds_one_In _ _ _ _ Hf). }
    rewrite Hex. eexists. split; reflexivity.
Qed.

(** ** Joins *)

Lemma in_inner_join (A B : Type) (on : A -> B -> bool) (l : list A)
    (r : list B) (a : A) (b : B) :
  In (a, b) (inner_join on l r) <-> In a l /\ In b r /\ on a b = true.
Proof.
  unfold inner_join. rewrite in_flat_map. split.
  - intros [x [Hx Hin]]. apply in_map_iff in Hin.
    destruct Hin as [y [Heq Hy]]. inversion Heq; subst.
    apply filter_In in Hy. tauto.
  - intros [Ha [Hb Hon]]. exists a. split; [exact Ha|].
    apply in_map. apply filter_In. tauto.
Qed.

(** The rows of a full join whose right side is padded are the rows of the
    left side that have no match. *)
Lemma in_full_join_padded_right (A B : Type) (on : A -> B -> bool)
    (l : list A) (r : list B) (x : option A) :
  In (x, None) (full_join on l r)
  <-> exists a, x = Some a /\ In a l /\ forall b, In b r -> on a b = false.
Proof.
  unfold full_join. rewrite in_app_iff, in_flat_map. split.
  - intros [[a [Ha Hin]] | Hin].
    + destruct (filter (on a) r) as [|b bs] eqn:Hf.
      * destruct Hin as [Heq|[]]. inversion Heq; subst.
        exists a. split; [reflexivity|]. split; [exact Ha|].
        intros b Hb. destruct (on a b) eqn:E; [|reflexivity].
        assert (Hin : In b (filter (on a) r)) by (apply filter_In; auto).
        rewrite Hf in Hin. destruct Hin.
      * apply in_map_iff in Hin. destruct Hin as [y [Heq _]]. discriminate.
    + apply in_map_iff in Hin. destruct Hin as [y [Heq _]]. discriminate.
  - intros [a [-> [Ha Hno]]]. left. exists a. split; [exact Ha|].
    rewrite (filter_none _ (on a) r Hno). now left.
Qed.

Lemma where_true_and (a b : option bool) :
  where_true (sql_and a b) = where_true a && where_true b.
Proof. destruct a as [[|]|], b as [[|]|]; reflexivity. Qed.

Lemma where_true_is_null (C : Type) (c : option C) :
  where_true (is_null c) = true <-> c = None.
Proof. destruct c; simpl; split; congruence. Qed.

Lemma where_true_eqZ (c : option Z) (v : Z) :
  where_true (sql_eqZ c v) = true <-> c = Some v.
Proof.
  destruct c as [x|]; simpl; [|split; discriminate].
  destruct (x =? v) eqn:E; split; intro H; try discriminate.
  - apply Z.eqb_eq in E. now subst.
  - reflexivity.
  - inversion H; subst. now rewrite Z.eqb_refl in E.
Qed.

Lemma where_true_geZ (c : option Z) (v : Z) :
  where_true (sql_geZ c v) = true <-> exists x, c = Some x /\ v <= x.
Proof.
  destruct c as [x|]; simpl.
  - destruct (v <=? x) eqn:E; split.
    + intros _. exists x. split; [reflexivity | now apply Z.leb_le].
    + reflexivity.
    + discriminate.
    + intros [y [Hy Hle]]. inversion Hy; subst.
      apply Z.leb_le in Hle. congruence.
  - split; [discriminate | intros [y [Hy _]]; discriminate].
Qed.

Lemma where_true_eqb (c : option bool) (v : bool) :
  where_true (sql_eqb c v) = true <-> c = Some v.
Proof.
  destruct c as [x|]; simpl; [|split; discriminate].
  destruct x, v; simpl; split; congruence.
Qed.

(** The condition of the team statement, on a row of the FROM clause. *)
Lemma team_where (l : option TeamSide) (r : option TeamMember) (m : Z) :
  where_true
    (sql_and (is_null (column TeamMember_UserId r))
    (sql_and (sql_eqZ (column (fun x => Group_DeleteAt (ts_group x)) l) 0)
    (sql_and (sql_eqZ (column (fun x => Row_DeleteAt (ts_link x)) l) 0)
    (sql_and (sql_eqb (column (fun x => Row_AutoAdd (ts_link x)) l) true)
    (sql_and (sql_eqZ (column (fun x => GroupMember_DeleteAt (ts_member x)) l) 0)
             (sql_geZ (column (fun x => GroupMember_CreateAt (ts_member x)) l) m))))))
  = true
  <-> r = None
      /\ exists x, l = Some x
           /\ Group_DeleteAt (ts_group x) = 0
           /\ Row_DeleteAt (ts_link x) = 0
           /\ Row_AutoAdd (ts_link x) = true
           /\ GroupMember_DeleteAt (ts_member x) = 0
           /\ m <= GroupMember_CreateAt (ts_member x).
Proof.
  rewrite !where_true_and, !andb_true_iff, where_true_is_null,
          !where_true_eqZ, where_true_eqb, where_true_geZ.
  destruct r as [tm|], l as [x|]; simpl; split.
  - intros [H _]. discriminate.
  - intros [H _]. discriminate.
  - intros [H _]. discriminate.
  - intros [H _]. discriminate.
  - intros [_ [H1 [H2 [H3 [H4 [y [H5 H6]]]]]]].
    split; [reflexivity|]. exists x.
    injection H1 as H1. injection H2 as H2. injection H3 as H3.
    injection H4 as H4. injection H5 as H5.
    repeat split; try assumption. lia.
  - intros [_ [y [Hy [H1 [H2 [H3 [H4 H5]]]]]]]. injection Hy as <-.
    rewrite H1, H2, H3, H4. repeat split.
    exists (GroupMember_CreateAt (ts_member x)). auto.
  - intros [_ [H _]]. discriminate.
  - intros [_ [y [Hy _]]]. discriminate.
Qed.

(** The statement of [PendingAutoAddTeamMemberships] selects the pairs of
    the team case, and nothing else. *)
Lemma team_statement_selects (s : Store) (minCreateAt : Z)
    (row : option string * option string) :
  In row (team_statement s minCreateAt)
  <-> exists u t, row = (Some u, Some t) /\ pending_team s minCreateAt u t.
Proof.
  unfold team_statement. rewrite in_map_iff. split.
  - intros [[l r] [Hrow Hin]]. apply filter_In in Hin.
    destruct Hin as [Hin Hw]. simpl fst in *. simpl snd in *.
    apply team_where in Hw.
    destruct Hw as [-> [x [-> [Hg [Hl [Ha [Hm Hc]]]]]]].
    apply in_full_join_padded_right in Hin.
    destruct Hin as [a [Ha' [Hin Hno]]]. inversion Ha'; subst a; clear Ha'.
    destruct x as [[gm gt] g]. unfold ts_group, ts_link, ts_member in *.
    simpl in *.
    apply in_inner_join in Hin. destruct Hin as [Hin [Hgin Hgon]].
    apply in_inner_join in Hin. destruct Hin as [Hgm [Hgt Hon]].
    simpl in *. apply streq_true in Hgon, Hon.
    exists (GroupMember_UserId gm), (Row_ForeignId gt).
    split; [now rewrite <- Hrow|].
    exists gm, gt, g. repeat split; auto.
    intros tm Htm [Ht Hu]. specialize (Hno tm Htm).
    apply andb_false_iff in Hno.
    destruct Hno as [Hno|Hno]; apply streq_false in Hno; contradiction.
  - intros [u [t [-> [gm [gt [g H]]]]]].
    destruct H as [Hgm [Hgt [Hg [Hon [Hgon [Hu [Ht [Hgd [Hld [Ha [Hmd [Hc Hno]]]]]]]]]]]].
    exists (Some (gm, gt, g), None). split.
    + simpl. unfold ts_member, ts_link. simpl. now rewrite Hu, Ht.
    + apply filter_In. split.
      * apply in_full_join_padded_right. exists (gm, gt, g).
        split; [reflexivity|]. split.
        -- apply in_inner_join. split; [|split; [exact Hg|]].
           ++ apply in_inner_join. repeat split; auto. now apply streq_true.
           ++ simpl. now apply streq_true.
        -- intros tm Htm. unfold ts_member, ts_link. simpl.
           apply andb_false_iff.
           destruct (streq (TeamMember_SyncableId tm) (Row_ForeignId gt)) eqn:E1;
             [|now left].
           right. apply streq_false. intro E2. apply streq_true in E1.
           apply (Hno tm Htm). split; congruence.
      * simpl fst. simpl snd. apply team_where. split; [reflexivity|].
        exists (gm, gt, g). repeat split; auto.
Qed.

(** The condition of the channel statement, on a row of the FROM clause. *)
Lemma channel_where (l : option ChannelSide) (r : option ChannelMemberHistoryRow)
    (m : Z) :
  where_true
    (sql_and (is_null (column ChannelMemberHistory_UserId r))
    (sql_and (is_null (column_opt ChannelMemberHistory_LeaveTime r))
    (sql_and (sql_eqZ (column (fun x => Group_DeleteAt (cs_group x)) l) 0)
    (sql_and (sql_eqZ (column (fun x => Row_DeleteAt (cs_link x)) l) 0)
    (sql_and (sql_eqb (column (fun x => Row_AutoAdd (cs_link x)) l) true)
    (sql_and (sql_eqZ (column (fun x => GroupMember_DeleteAt (cs_member x)) l) 0)
             (sql_geZ (column (fun x => GroupMember_CreateAt (cs_member x)) l) m)))))))
  = true
  <-> r = None
      /\ exists x, l = Some x
           /\ Group_DeleteAt (cs_group x) = 0
           /\ Row_DeleteAt (cs_link x) = 0
           /\ Row_AutoAdd (cs_link x) = true
           /\ GroupMember_DeleteAt (cs_member x) = 0
           /\ m <= GroupMember_CreateAt (cs_member x).
Proof.
  rewrite !where_true_and, !andb_true_iff, !where_true_is_null,
          !where_true_eqZ, where_true_eqb, where_true_geZ.
  destruct r as [h|], l as [x|]; simpl; split.
  - intros [H _]. discriminate.
  - intros [H _]. discriminate.
  - intros [H _]. discriminate.
  - intros [H _]. discriminate.
  - intros [_ [_ [H1 [H2 [H3 [H4 [y [H5 H6]]]]]]]].
    split; [reflexivity|]. exists x.
    injection H1 as H1. injection H2 as H2. injection H3 as H3.
    injection H4 as H4. injection H5 as H5.
    repeat split; try assumption. lia.
  - intros [_ [y [Hy [H1 [H2 [H3 [H4 H5]]]]]]]. injection Hy as <-.
    rewrite H1, H2, H3, H4. repeat split.
    exists (GroupMember_CreateAt (cs_member x)). auto.
  - intros [_ [_ [H _]]]. discriminate.
  - intros [_ [y [Hy _]]]. discriminate.
Qed.

(** The rows of the inner joins of the channel statement. *)
Lemma in_channel_from (s : Store) (gm : GroupMember) (gc : SyncableRow)
    (g : Group) (ch : Channel) (t : Team) (tm : TeamMember) :
  In (gm, gc, g, ch, t, tm) (channel_from s)
  <-> In gm (GroupMembers s) /\ In gc (GroupChannels s) /\ In g (Groups s)
      /\ In ch (Channels s) /\ In t (Teams s) /\ In tm (TeamMembers s)
      /\ Row_GroupId gc = GroupMember_GroupId gm
      /\ Group_Id g = GroupMember_GroupId gm
      /\ Channel_Id ch = Row_ForeignId gc
      /\ Team_Id t = Channel_SyncableId ch
      /\ TeamMember_SyncableId tm = Team_Id t
      /\ TeamMember_UserId tm = GroupMember_UserId gm.
Proof.
  clear IsValidId Group_IsValidForUpdate Group_IsValidForCreate
        GroupMember_IsValid GroupSyncable_IsValid Exec_select.
  unfold channel_from. rewrite !in_inner_join. simpl.
  rewrite andb_true_iff, !streq_true. tauto.
Qed.

(** ** Reconciliation *)

(** On a backend that has the columns the statement names, every row that
    the statement of [PendingAutoAddChannelMemberships] selects is a pair of
    the channel case. *)
Lemma channel_rows_pending (s : Store) (minCreateAt : Z)
    (row : option string * option string) :
  In row (channel_statement s minCreateAt) ->
  exists u c, row = (Some u, Some c) /\ pending_channel s minCreateAt u c.
Proof.
  unfold channel_statement. rewrite in_map_iff.
  intros [[l r] [Hrow Hin]]. apply filter_In in Hin.
  destruct Hin as [Hin Hw]. simpl fst in *. simpl snd in *.
  apply channel_where in Hw.
  destruct Hw as [-> [x [-> [Hg [Hl [Ha [Hm Hc]]]]]]].
  apply in_full_join_padded_right in Hin.
  destruct Hin as [a [Ha' [Hin Hno]]]. injection Ha' as <-.
  destruct x as [[[[[gm gc] g] ch] t] tm].
  unfold cs_group, cs_link, cs_member in *. simpl in *.
  apply in_channel_from in Hin.
  destruct Hin as [H1 [H2 [H3 [H4 [H5 [H6 [H7 [H8 [H9 [H10 [H11 H12]]]]]]]]]]].
  exists (GroupMember_UserId gm), (Row_ForeignId gc).
  split; [now rewrite <- Hrow|].
  exists gm, gc, g, ch, t, tm. repeat split; auto.
  intros h Hh [Hhc Hhu]. specialize (Hno h Hh).
  apply andb_false_iff in Hno.
  destruct Hno as [Hno|Hno]; apply streq_false in Hno; contradiction.
Qed.

(** The other direction: the channel statement selects every such pair. *)
Lemma channel_statement_complete (s : Store) (minCreateAt : Z) (u c : string) :
  pending_channel s minCreateAt u c ->
  In (Some u, Some c) (channel_statement s minCreateAt).
Proof.
  unfold channel_statement. rewrite in_map_iff.
  intros [gm [gc [g [ch [t [tm H]]]]]].
  destruct H as [H1 [H2 [H3 [H4 [H5 [H6 [H7 [H8 [Hu [Hc H]]]]]]]]]].
  destruct H as [Hgd [Hld [Ha [Hmd [Hmin [Hch [Ht [Htm [Htu Hno]]]]]]]]].
  exists (Some (gm, gc, g, ch, t, tm), None). split.
  - simpl. unfold cs_member, cs_link. simpl. now rewrite Hu, Hc.
  - apply filter_In. split.
    + apply in_full_join_padded_right. exists (gm, gc, g, ch, t, tm).
      split; [reflexivity|]. split.
      * apply in_channel_from. repeat split; auto; congruence.
      * intros h Hh. unfold cs_member, cs_link. simpl.
        apply andb_false_iff.
        destruct (streq (ChannelMemberHistory_ChannelId h) (Row_ForeignId gc))
          eqn:E1; [|now left].
        right. apply streq_false. intro E2. apply streq_true in E1.
        apply (Hno h Hh). split; congruence.
    + simpl fst. simpl snd. apply channel_where. split; [reflexivity|].
      exists (gm, gc, g, ch, t, tm). repeat split; auto.
Qed.

(** In every outcome the data of [PendingAutoAddTeamMemberships] is what
    [Exec] handed back: nil after an error, a [sql.Result] otherwise. *)
Lemma PendingAutoAddTeamMemberships_data (s : Store) (minCreateAt : Z) :
  Data (PendingAutoAddTeamMemberships s minCreateAt) = DNil
  \/ exists r, Data (PendingAutoAddTeamMemberships s minCreateAt) = DSqlResult r.
Proof.
  unfold PendingAutoAddTeamMemberships.
  destruct (Exec _ _) as [r|]; simpl; [right; now exists r | now left].
Qed.


(** X28. [PendingAutoAddTeamMemberships] returns the select error and nil
    data on every store, for every watermark and whatever the driver would
    answer: its statement names the column [GroupTeams.SyncableId], and the
    relation, as [initSqlSupplierGroups] declares it, has that column under
    the name TeamId. *)
Theorem PendingAutoAddTeamMemberships_refused (s : Store) (minCreateAt : Z) :
  existsb (String.eqb "SyncableId") (syncable_columns GSTeam) = false
  /\ PendingAutoAddTeamMemberships s minCreateAt
     = mkResult DNil
         (Some (AppErr "SqlGroupStore.PendingAutoAddTeamMemberships"
                       "store.sql_group.select_error"
                       StatusInternalServerError)).
Proof.
  split; [reflexivity|].
  unfold PendingAutoAddTeamMemberships, Exec.
  assert (Hrefs : forallb column_declared team_statement_columns = false)
    by reflexivity.
  now rewrite Hrefs.
Qed.

(** ** Reading a link *)

(** C3, as the code has it. When no row of the relation of the type has the
    key, [GroupGetGroupSyncable] returns nil data and no error. When the
    relation holds one row of the key, it returns that link without an
    error, with the [SyncableId] that was asked for, for teams and for
    channels. *)
Theorem GroupGetGroupSyncable_returns (s : Store) (groupID syncableID : string)
    (syncableType : GroupSyncableType) :
  ((forall r, In r (syncable_table syncableType s) ->
              row_has_key groupID syncableID r = false) ->
   GroupGetGroupSyncable s groupID syncableID syncableType = mkResult DNil None)
  /\ (forall row,
        holds_one (row_has_key groupID syncableID)
                  (syncable_table syncableType s) row ->
        exists got,
          GroupGetGroupSyncable s groupID syncableID syncableType
          = mkResult (DSyncable got) None
          /\ GroupSyncable_SyncableId got = syncableID
          /\ GroupSyncable_GroupId got = groupID
          /\ GroupSyncable_CanLeave got = Row_CanLeave row
          /\ GroupSyncable_AutoAdd got = Row_AutoAdd row).
Proof.
  unfold GroupGetGroupSyncable. split.
  - intro Hno. apply SelectOne_no_rows in Hno. now rewrite Hno.
  - intros row Hone. rewrite (SelectOne_holds_one _ _ _ _ Hone).
    eexists. split; [reflexivity|]. simpl. repeat split.
    destruct (holds_one_In _ _ _ _ Hone) as [_ Hk].
    unfold row_has_key in Hk. apply andb_true_iff in Hk.
    now apply streq_true.
Qed.

(** ** What each write leaves in the store *)

Ltac nothing_written :=
  left; split; [reflexivity | simpl; try destruct (IsValidId _); discriminate].

Lemma existsb_false_filter (A : Type) (p : A -> bool) (l : list A) :
  existsb p l = false -> filter p l = [].
Proof.
  intro H. apply filter_none. intros x Hx.
  destruct (p x) eqn:E; [|reflexivity].
  assert (Ht : existsb p l = true) by (apply existsb_exists; eauto).
  congruence.
Qed.

Lemma filter_app_one (A : Type) (p : A -> bool) (l : list A) (x : A) :
  existsb p l = false -> p x = true -> filter p (l ++ [x]) = [x].
Proof.
  intros Hl Hx. rewrite filter_app, (existsb_false_filter _ _ _ Hl).
  simpl. now rewrite Hx.
Qed.

Lemma group_has_id_refl (g : Group) : group_has_id (Group_Id g) g = true.
Proof. unfold group_has_id. now apply streq_true. Qed.

Lemma member_has_key_refl (m : GroupMember) :
  member_has_key (GroupMember_GroupId m) (GroupMember_UserId m) m = true.
Proof.
  unfold member_has_key. apply andb_true_iff. split; now apply streq_true.
Qed.

Lemma row_has_key_refl (r : SyncableRow) :
  row_has_key (Row_GroupId r) (Row_ForeignId r) r = true.
Proof.
  unfold row_has_key. apply andb_true_iff. split; now apply streq_true.
Qed.

Lemma member_has_key_true (g u : string) (m : GroupMember) :
  member_has_key g u m = true <-> member_key m = (g, u).
Proof.
  unfold member_has_key, member_key. rewrite andb_true_iff, !streq_true.
  split; [intros [-> ->]; reflexivity | intro H; injection H; auto].
Qed.

Lemma row_has_key_true (g i : string) (r : SyncableRow) :
  row_has_key g i r = true <-> row_key r = (g, i).
Proof.
  unfold row_has_key, row_key. rewrite andb_true_iff, !streq_true.
  split; [intros [-> ->]; reflexivity | intro H; injection H; auto].
Qed.

(** [GroupCreate] leaves the store or appends one group of the new id. *)
Lemma GroupCreate_store (s : Store) (now : Z) (newId : string) (group : Group) :
  (fst (GroupCreate s now newId group) = s
   /\ Err (snd (GroupCreate s now newId group)) <> None)
  \/ (existsb (group_has_id newId) (Groups s) = false
      /\ existsb (fun r => streq (Group_Name r) (Group_Name group)) (Groups s)
         = false
      /\ GroupCreate s now newId group
         = (set_Groups s
              (Groups s ++
               [mkGroup newId (Group_Name group) (Group_DisplayName group)
                        (Group_Description group) (Group_Type group)
                        (Group_RemoteId group) now now (Group_DeleteAt group)]),
            mkResult
              (DGroup (mkGroup newId (Group_Name group) (Group_DisplayName group)
                               (Group_Description group) (Group_Type group)
                               (Group_RemoteId group) now now
                               (Group_DeleteAt group)))
              None)).
Proof.
  unfold GroupCreate.
  destruct (negb _); [nothing_written|].
  destruct (Group_IsValidForCreate group); [nothing_written|].
  unfold Insert_Group, Begin. simpl.
  destruct (existsb (group_has_id newId) (Groups s)); [nothing_written|].
  destruct (existsb _ (Groups s)); [nothing_written|].
  right. auto.
Qed.

(** [GroupDelete] leaves the store or stamps the one live row of the id. *)
Lemma GroupDelete_store (s : Store) (now : Z) (groupID : string) :
  (fst (GroupDelete s now groupID) = s
   /\ Err (snd (GroupDelete s now groupID)) <> None)
  \/ exists r,
       holds_one (group_has_id groupID) (Groups s) r
       /\ Group_DeleteAt r = 0
       /\ fst (GroupDelete s now groupID)
          = set_Groups s
              (replace_group (Group_with_times r (Group_CreateAt r) now now)
                             (Groups s)).
Proof.
  unfold GroupDelete.
  destruct (SelectOne _ _) as [[|]|r] eqn:Hsel; simpl; try nothing_written.
  destruct (Group_DeleteAt r =? 0) eqn:Hd; simpl; try nothing_written.
  destruct (Update_Group _ _) as [[n tbl]|] eqn:Hup; simpl; try nothing_written.
  apply Update_Group_rows in Hup. destruct Hup as [_ ->].
  right. exists r. split; [now apply SelectOne_found|].
  split; [now apply Z.eqb_eq|].
  destruct (negb (n =? 1)); reflexivity.
Qed.

(** [GroupCreateMember] leaves the store or appends the member. *)
Lemma GroupCreateMember_store (s : Store) (now : Z) (groupID userID : string) :
  (fst (GroupCreateMember s now groupID userID) = s
   /\ Err (snd (GroupCreateMember s now groupID userID)) <> None)
  \/ (existsb (member_has_key groupID userID) (GroupMembers s) = false
      /\ GroupCreateMember s now groupID userID
         = (set_GroupMembers s
              (GroupMembers s ++ [mkGroupMember groupID userID now 0]),
            mkResult (DMember (mkGroupMember groupID userID now 0)) None)).
Proof.
  unfold GroupCreateMember.
  destruct (GroupMember_IsValid _); [nothing_written|].
  unfold Insert_GroupMember. simpl.
  destruct (existsb _ (GroupMembers s)) eqn:Hex; [nothing_written|].
  right. split; [reflexivity|].
  unfold SelectOne.
  rewrite (filter_app_one _ _ _ _ Hex
             (member_has_key_refl (mkGroupMember groupID userID now 0))).
  reflexivity.
Qed.

(** [GroupDeleteMember] leaves the store or stamps the one live row of the
    key. *)
Lemma GroupDeleteMember_store (s : Store) (now : Z) (groupID userID : string) :
  (fst (GroupDeleteMember s now groupID userID) = s
   /\ Err (snd (GroupDeleteMember s now groupID userID)) <> None)
  \/ exists m,
       holds_one (member_has_key groupID userID) (GroupMembers s) m
       /\ GroupMember_DeleteAt m = 0
       /\ GroupDeleteMember s now groupID userID
          = (set_GroupMembers s
               (map (fun r => if member_has_key groupID userID r
                              then mkGroupMember groupID userID
                                                 (GroupMember_CreateAt m) now
                              else r)
                    (GroupMembers s)),
             mkResult
               (DMember (mkGroupMember groupID userID (GroupMember_CreateAt m) now))
               None).
Proof.
  unfold GroupDeleteMember.
  destruct (negb (IsValidId groupID)); [nothing_written|].
  destruct (negb (IsValidId userID)); [nothing_written|].
  destruct (SelectOne _ _) as [[|]|m] eqn:Hsel; try nothing_written.
  apply SelectOne_found in Hsel.
  destruct (holds_one_In _ _ _ _ Hsel) as [_ Hkey].
  unfold member_has_key in Hkey. apply andb_true_iff in Hkey.
  destruct Hkey as [Hg Hu]. apply streq_true in Hg, Hu.
  destruct (GroupMember_DeleteAt m =? 0) eqn:Hdel; [|now left].
  simpl. rewrite Hg, Hu. unfold Update_GroupMember. simpl.
  rewrite (count_rows_holds_one _ _ _ _ Hsel). simpl.
  right. exists m. split; [exact Hsel|]. split; [now apply Z.eqb_eq|].
  reflexivity.
Qed.

(** [GroupCreateGroupSyncable] leaves the store or appends the link to the
    relation of its type, with the times of the call. *)
Lemma GroupCreateGroupSyncable_store (s : Store) (now : Z) (gs : GroupSyncable) :
  (fst (GroupCreateGroupSyncable s now gs) = s
   /\ Err (snd (GroupCreateGroupSyncable s now gs)) <> None)
  \/ (GroupSyncable_IsValid gs = None
      /\ existsb (row_has_key (GroupSyncable_GroupId gs)
                              (GroupSyncable_SyncableId gs))
                 (syncable_table (GroupSyncable_Type gs) s) = false
      /\ GroupCreateGroupSyncable s now gs
         = (set_syncable_table (GroupSyncable_Type gs) s
              (syncable_table (GroupSyncable_Type gs) s
               ++ [row_of_GroupSyncable (GroupSyncable_with_times gs now now 0)]),
            mkResult (DSyncable (GroupSyncable_with_times gs now now 0)) None)).
Proof.
  unfold GroupCreateGroupSyncable.
  destruct (GroupSyncable_IsValid gs); [nothing_written|].
  simpl. destruct (existsb _ _); [nothing_written|].
  right. auto.
Qed.

(** [GroupDeleteGroupSyncable] leaves the store or stamps the one live row
    of the key, in the relation of the type. *)
Lemma GroupDeleteGroupSyncable_store (s : Store) (now : Z)
    (groupID syncableID : string) (t : GroupSyncableType) :
  (fst (GroupDeleteGroupSyncable s now groupID syncableID t) = s
   /\ Err (snd (GroupDeleteGroupSyncable s now groupID syncableID t)) <> None)
  \/ exists r,
       holds_one (row_has_key groupID syncableID) (syncable_table t s) r
       /\ Row_DeleteAt r = 0
       /\ GroupDeleteGroupSyncable s now groupID syncableID t
          = (set_syncable_table t s
               (map (fun x => if row_has_key groupID syncableID x
                              then set_deleted now now x else x)
                    (syncable_table t s)),
             mkResult
               (DSyncable (mkGroupSyncable groupID syncableID (Row_CanLeave r)
                                           (Row_AutoAdd r) (Row_CreateAt r)
                                           now now t))
               None).
Proof.
  unfold GroupDeleteGroupSyncable.
  destruct (negb (IsValidId groupID)); [nothing_written|].
  destruct (negb (IsValidId syncableID)); [nothing_written|].
  destruct (SelectOne _ _) as [[|]|r] eqn:Hsel; try nothing_written.
  apply SelectOne_found in Hsel.
  destruct (holds_one_In _ _ _ _ Hsel) as [_ Hkey].
  unfold row_has_key in Hkey. apply andb_true_iff in Hkey.
  destruct Hkey as [Hg _]. apply streq_true in Hg.
  simpl. destruct (Row_DeleteAt r =? 0) eqn:Hdel; [|now left].
  simpl. rewrite Hg. rewrite (count_rows_holds_one _ _ _ _ Hsel). simpl.
  right. exists r. split; [exact Hsel|]. split; [now apply Z.eqb_eq|].
  reflexivity.
Qed.

Lemma NoDup_map_eq (A B : Type) (f : A -> B) (l : list A) (x y : A) :
  NoDup (map f l) -> In x l -> In y l -> f x = f y -> x = y.
Proof.
  induction l as [|a l IH]; intros Hnd Hx Hy Hf; [destruct Hx|].
  simpl in Hnd. inversion Hnd as [|? ? Ha Hl]; subst.
  destruct Hx as [->|Hx], Hy as [->|Hy]; auto.
  - exfalso. apply Ha. rewrite Hf. now apply in_map.
  - exfalso. apply Ha. rewrite <- Hf. now apply in_map.
Qed.

(** With unique names, no row of another id has the name of a stored row. *)
Lemma no_name_clash (tbl : list Group) (r g : Group) :
  NoDup (map Group_Name tbl) -> In r tbl ->
  group_has_id (Group_Id g) r = true -> Group_Name g = Group_Name r ->
  existsb (fun x => streq (Group_Name x) (Group_Name g)
                    && negb (group_has_id (Group_Id g) x)) tbl = false.
Proof.
  intros Hnd Hr Hid Hname.
  destruct (existsb _ tbl) eqn:E; [|reflexivity].
  apply existsb_exists in E. destruct E as [x [Hx Hc]].
  apply andb_true_iff in Hc. destruct Hc as [Hn Hi].
  apply streq_true in Hn. rewrite Hname in Hn.
  rewrite (NoDup_map_eq _ _ Group_Name tbl x r Hnd Hx Hr Hn), Hid in Hi.
  discriminate.
Qed.

Lemma Update_Group_ok (tbl : list Group) (g r : Group) (n : Z)
    (tbl' : list Group) :
  holds_one (group_has_id (Group_Id g)) tbl r ->
  Update_Group tbl g = Some (n, tbl') ->
  n = 1 /\ tbl' = replace_group g tbl
  /\ existsb (fun x => streq (Group_Name x) (Group_Name g)
                       && negb (group_has_id (Group_Id g) x)) tbl = false.
Proof.
  intros Hone. unfold Update_Group.
  rewrite (count_rows_holds_one _ _ _ _ Hone). simpl.
  destruct (existsb _ tbl); [discriminate|].
  intro H. injection H as <- <-. auto.
Qed.

(** [GroupUpdate] leaves the store, or replaces the one row of the id by
    the entity, whose name no other row has, and returns without error. *)
Lemma GroupUpdate_written (s : Store) (now : Z) (group : Group) :
  (fst (GroupUpdate s now group) = s
   /\ Err (snd (GroupUpdate s now group)) <> None)
  \/ exists r,
       holds_one (group_has_id (Group_Id group)) (Groups s) r
       /\ existsb (fun x => streq (Group_Name x) (Group_Name group)
                            && negb (group_has_id (Group_Id group) x))
                  (Groups s) = false
       /\ GroupUpdate s now group
          = (set_Groups s
               (replace_group
                  (Group_with_times group (Group_CreateAt r) now (Group_DeleteAt r))
                  (Groups s)),
             mkResult
               (DGroup (Group_with_times group (Group_CreateAt r) now
                                         (Group_DeleteAt r)))
               None).
Proof.
  unfold GroupUpdate.
  destruct (SelectOne _ _) as [[|]|r] eqn:Hsel; simpl; try nothing_written.
  apply SelectOne_found in Hsel.
  destruct (Group_IsValidForUpdate _); simpl; try nothing_written.
  destruct (Update_Group _ _) as [[n tbl]|] eqn:Hup; simpl; try nothing_written.
  apply (Update_Group_ok _ _ r) in Hup; [|exact Hsel].
  destruct Hup as [-> [-> Hclash]]. simpl.
  right. exists r. auto.
Qed.

(** [GroupDelete], for an id that passes the check: the store is left, or
    the one live row of the id is stamped and the call returns it without
    error. *)
Lemma GroupDelete_written (s : Store) (now : Z) (groupID : string) :
  IsValidId groupID = true ->
  (fst (GroupDelete s now groupID) = s
   /\ Err (snd (GroupDelete s now groupID)) <> None)
  \/ exists r,
       holds_one (group_has_id groupID) (Groups s) r
       /\ Group_DeleteAt r = 0
       /\ GroupDelete s now groupID
          = (set_Groups s
               (replace_group (Group_with_times r (Group_CreateAt r) now now)
                              (Groups s)),
             mkResult (DGroup (Group_with_times r (Group_CreateAt r) now now))
                      None).
Proof.
  intro Hvalid. unfold GroupDelete. rewrite Hvalid. simpl.
  destruct (SelectOne _ _) as [[|]|r] eqn:Hsel; simpl; try nothing_written.
  apply SelectOne_found in Hsel.
  destruct (Group_DeleteAt r =? 0) eqn:Hd; simpl; try nothing_written.
  destruct (Update_Group _ _) as [[n tbl]|] eqn:Hup; simpl; try nothing_written.
  assert (Hid : Group_Id r = groupID).
  { destruct (holds_one_In _ _ _ _ Hsel) as [_ H]. now apply streq_true. }
  apply (Update_Group_ok _ _ r) in Hup; [|simpl; now rewrite Hid].
  destruct Hup as [-> [-> _]]. simpl.
  right. exists r. split; [exact Hsel|]. split; [now apply Z.eqb_eq|].
  reflexivity.
Qed.

(** ** A call that returns an error has written nothing *)

(** X1. Every write of the supplier that returns an error leaves the store as
    it was: the row counts that the methods test cannot differ from one
    after the row was read, and a failed insert of a group is rolled back.
    The exception, left out by the hypothesis, is [GroupDelete] called with
    an id that fails [model.IsValidId]. *)
Theorem error_writes_nothing (s : Store) (now : Z) (m : Mutation)
    (e : AppError) :
  group_id_checked m ->
  Err (snd (run_mutation s now m)) = Some e ->
  fst (run_mutation s now m) = s.
Proof.
  intros Hchk Herr.
  destruct m as [newId group|[group|gs]|[groupID|groupID userID|groupID syncableID t]
                 |groupID userID|gs]; simpl in *.
  - destruct (GroupCreate_store s now newId group) as [[H _]|[_ [_ H]]]; [exact H|].
    rewrite H in Herr. discriminate.
  - destruct (GroupUpdate_written s now group) as [[H _]|[r [_ [_ H]]]]; [exact H|].
    rewrite H in Herr. discriminate.
  - destruct (GroupUpdateGroupSyncable_store s now gs) as [H|H]; [exact H|].
    revert Herr. unfold GroupUpdateGroupSyncable.
    destruct (SelectOne _ _) as [[|]|row]; simpl; auto.
    destruct (GroupSyncable_IsValid gs); simpl; auto.
    destruct (_ && _); simpl; auto. discriminate.
  - destruct (GroupDelete_written s now groupID Hchk) as [[H _]|[r [_ [_ H]]]];
      [exact H|].
    rewrite H in Herr. discriminate.
  - destruct (GroupDeleteMember_store s now groupID userID)
      as [[H _]|[r [_ [_ H]]]]; [exact H|].
    rewrite H in Herr. discriminate.
  - destruct (GroupDeleteGroupSyncable_store s now groupID syncableID t)
      as [[H _]|[r [_ [_ H]]]]; [exact H|].
    rewrite H in Herr. discriminate.
  - destruct (GroupCreateMember_store s now groupID userID) as [[H _]|[_ H]];
      [exact H|].
    rewrite H in Herr. discriminate.
  - destruct (GroupCreateGroupSyncable_store s now gs) as [[H _]|[_ [_ H]]];
      [exact H|].
    rewrite H in Herr. discriminate.
Qed.

(** X2. [GroupDelete] on an id that fails [model.IsValidId] sets the error
    and goes on: when a live group is stored under the id, the group is
    soft-deleted all the same, and the result carries both the group and
    the error. *)
Theorem GroupDelete_invalid_id_still_deletes (s : Store) (now : Z)
    (groupID : string) (r : Group) :
  IsValidId groupID = false ->
  names_unique s ->
  holds_one (group_has_id groupID) (Groups s) r ->
  Group_DeleteAt r = 0 ->
  GroupDelete s now groupID
  = (set_Groups s
       (replace_group (Group_with_times r (Group_CreateAt r) now now) (Groups s)),
     mkResult (DGroup (Group_with_times r (Group_CreateAt r) now now))
              (Some (AppErr "SqlGroupStore.Delete"
                            "store.sql_group.delete.invalid_group_id"
                            StatusBadRequest))).
Proof.
  intros Hinvalid Hnames Hone Hlive. unfold GroupDelete.
  rewrite Hinvalid, (SelectOne_holds_one _ _ _ _ Hone), Hlive. simpl.
  destruct (holds_one_In _ _ _ _ Hone) as [Hin Hid].
  assert (Hid' : Group_Id r = groupID) by now apply streq_true.
  unfold Update_Group. simpl Group_Id. simpl Group_Name. rewrite Hid'.
  rewrite (count_rows_holds_one _ _ _ _ Hone).
  assert (Hclash : existsb (fun x => streq (Group_Name x) (Group_Name r)
                                     && negb (group_has_id groupID x))
                           (Groups s) = false).
  { rewrite <- Hid'. apply (no_name_clash (Groups s) r r Hnames Hin).
    - now rewrite Hid'.
    - reflexivity. }
  rewrite Hclash. reflexivity.
Qed.

(** ** Keys and names stay unique, rows stay *)

Lemma NoDup_snoc (A : Type) (l : list A) (k : A) :
  NoDup l -> ~ In k l -> NoDup (l ++ [k]).
Proof.
  induction l as [|a l IH]; intros Hnd Hk; simpl.
  - constructor; [intros []|constructor].
  - inversion Hnd as [|? ? Ha Hl]; subst. constructor.
    + rewrite in_app_iff. intros [H|[H|[]]]; [now apply Ha|].
      apply Hk. now left.
    + apply IH; [exact Hl|]. intro H. apply Hk. now right.
Qed.

Lemma key_not_stored (A K : Type) (key : A -> K) (p : A -> bool) (k : K)
    (tbl : list A) :
  (forall x, key x = k -> p x = true) ->
  existsb p tbl = false -> ~ In k (map key tbl).
Proof.
  intros Hp Hex Hin. apply in_map_iff in Hin. destruct Hin as [x [Hk Hx]].
  assert (Ht : existsb p tbl = true)
    by (apply existsb_exists; exists x; split; [exact Hx | now apply Hp]).
  congruence.
Qed.

Lemma map_key_same (A K : Type) (key : A -> K) (f : A -> A) (l : list A) :
  (forall x, key (f x) = key x) -> map key (map f l) = map key l.
Proof. intro H. rewrite map_map. apply map_ext. exact H. Qed.

Lemma Group_Id_replace_group (g : Group) (tbl : list Group) :
  map Group_Id (replace_group g tbl) = map Group_Id tbl.
Proof.
  unfold replace_group. apply map_key_same. intro x.
  destruct (group_has_id (Group_Id g) x) eqn:E; [|reflexivity].
  symmetry. now apply streq_true.
Qed.

Lemma member_key_stamped (g u : string) (m : GroupMember) (tbl : list GroupMember) :
  member_key m = (g, u) ->
  map member_key (map (fun r => if member_has_key g u r then m else r) tbl)
  = map member_key tbl.
Proof.
  intro Hm. apply map_key_same. intro x.
  destruct (member_has_key g u x) eqn:E; [|reflexivity].
  apply member_has_key_true in E. congruence.
Qed.

Lemma row_key_stamped (p : SyncableRow -> bool) (d u : Z) (tbl : list SyncableRow) :
  map row_key (map (fun x => if p x then set_deleted d u x else x) tbl)
  = map row_key tbl.
Proof. apply map_key_same. intro x. now destruct (p x). Qed.

Lemma row_key_set_flags (c a : bool) (u : Z) (tbl : list SyncableRow) :
  map row_key (map (set_flags c a u) tbl) = map row_key tbl.
Proof. apply map_key_same. reflexivity. Qed.

(** The keys after a write: the keys before, in their order, and at most
    one key more, which was not stored. *)
Lemma run_mutation_keys (s : Store) (now : Z) (m : Mutation) :
  let s' := fst (run_mutation s now m) in
  (map Group_Id (Groups s') = map Group_Id (Groups s)
   \/ exists k, ~ In k (map Group_Id (Groups s))
        /\ map Group_Id (Groups s') = map Group_Id (Groups s) ++ [k])
  /\ (map member_key (GroupMembers s') = map member_key (GroupMembers s)
      \/ exists k, ~ In k (map member_key (GroupMembers s))
           /\ map member_key (GroupMembers s')
              = map member_key (GroupMembers s) ++ [k])
  /\ (map row_key (GroupTeams s') = map row_key (GroupTeams s)
      \/ exists k, ~ In k (map row_key (GroupTeams s))
           /\ map row_key (GroupTeams s') = map row_key (GroupTeams s) ++ [k])
  /\ (map row_key (GroupChannels s') = map row_key (GroupChannels s)
      \/ exists k, ~ In k (map row_key (GroupChannels s))
           /\ map row_key (GroupChannels s')
              = map row_key (GroupChannels s) ++ [k]).
Proof.
  assert (Hsame : forall s0 : Store,
    s0 = s ->
    (map Group_Id (Groups s0) = map Group_Id (Groups s)
     \/ exists k, ~ In k (map Group_Id (Groups s))
          /\ map Group_Id (Groups s0) = map Group_Id (Groups s) ++ [k])
    /\ (map member_key (GroupMembers s0) = map member_key (GroupMembers s)
        \/ exists k, ~ In k (map member_key (GroupMembers s))
             /\ map member_key (GroupMembers s0)
                = map member_key (GroupMembers s) ++ [k])
    /\ (map row_key (GroupTeams s0) = map row_key (GroupTeams s)
        \/ exists k, ~ In k (map row_key (GroupTeams s))
             /\ map row_key (GroupTeams s0) = map row_key (GroupTeams s) ++ [k])
    /\ (map row_key (GroupChannels s0) = map row_key (GroupChannels s)
        \/ exists k, ~ In k (map row_key (GroupChannels s))
             /\ map row_key (GroupChannels s0)
                = map row_key (GroupChannels s) ++ [k]))
    by (intros s0 ->; repeat split; now left).
  intro s'. subst s'.
  destruct m as [newId group|[group|gs]|[groupID|groupID userID|groupID syncableID t]
                 |groupID userID|gs]; simpl.
  - destruct (GroupCreate_store s now newId group) as [[H _]|[Hid [_ H]]];
      [now apply Hsame|].
    rewrite H. simpl. repeat split; try now left.
    right. exists newId. split.
    + apply (key_not_stored _ _ Group_Id (group_has_id newId)); [|exact Hid].
      intros x Hx. unfold group_has_id. now apply streq_true.
    + now rewrite map_app.
  - destruct (GroupUpdate_written s now group) as [[H _]|[r [_ [_ H]]]];
      [now apply Hsame|].
    rewrite H. simpl. rewrite Group_Id_replace_group.
    repeat split; now left.
  - destruct (GroupUpdateGroupSyncable_store s now gs) as [H|H];
      [now apply Hsame|].
    rewrite H. destruct (GroupSyncable_Type gs); simpl;
      rewrite row_key_set_flags; repeat split; now left.
  - destruct (GroupDelete_store s now groupID) as [[H _]|[r [_ [_ H]]]];
      [now apply Hsame|].
    rewrite H. simpl. rewrite Group_Id_replace_group.
    repeat split; now left.
  - destruct (GroupDeleteMember_store s now groupID userID)
      as [[H _]|[r [_ [_ H]]]]; [now apply Hsame|].
    rewrite H. simpl. rewrite member_key_stamped by reflexivity.
    repeat split; now left.
  - destruct (GroupDeleteGroupSyncable_store s now groupID syncableID t)
      as [[H _]|[r [_ [_ H]]]]; [now apply Hsame|].
    rewrite H. destruct t; simpl; rewrite row_key_stamped;
      repeat split; now left.
  - destruct (GroupCreateMember_store s now groupID userID) as [[H _]|[Hex H]];
      [now apply Hsame|].
    rewrite H. simpl. repeat split; try now left.
    right. exists (groupID, userID). split.
    + apply (key_not_stored _ _ member_key (member_has_key groupID userID));
        [|exact Hex].
      intros x Hx. now apply member_has_key_true.
    + now rewrite map_app.
  - destruct (GroupCreateGroupSyncable_store s now gs) as [[H _]|[_ [Hex H]]];
      [now apply Hsame|].
    rewrite H.
    assert (Hk : ~ In (GroupSyncable_GroupId gs, GroupSyncable_SyncableId gs)
                   (map row_key (syncable_table (GroupSyncable_Type gs) s))).
    { apply (key_not_stored _ _ row_key
               (row_has_key (GroupSyncable_GroupId gs)
                            (GroupSyncable_SyncableId gs))); [|exact Hex].
      intros x Hx. now apply row_has_key_true. }
    destruct (GroupSyncable_Type gs); simpl in *; repeat split; try now left.
    + right. exists (GroupSyncable_GroupId gs, GroupSyncable_SyncableId gs).
      split; [exact Hk | now rewrite map_app].
    + right. exists (GroupSyncable_GroupId gs, GroupSyncable_SyncableId gs).
      split; [exact Hk | now rewrite map_app].
Qed.

(** X3. The keys of the four relations stay unique under every write: a
    store in which no two rows share a key is taken to such a store. *)
Theorem writes_keep_keys_unique (s : Store) (now : Z) (m : Mutation) :
  keys_unique s -> keys_unique (fst (run_mutation s now m)).
Proof.
  intros [Hg [Hm [Ht Hc]]].
  destruct (run_mutation_keys s now m) as [Kg [Km [Kt Kc]]].
  unfold keys_unique. repeat split.
  - destruct Kg as [->|[k [Hk ->]]]; [exact Hg | now apply NoDup_snoc].
  - destruct Km as [->|[k [Hk ->]]]; [exact Hm | now apply NoDup_snoc].
  - destruct Kt as [->|[k [Hk ->]]]; [exact Ht | now apply NoDup_snoc].
  - destruct Kc as [->|[k [Hk ->]]]; [exact Hc | now apply NoDup_snoc].
Qed.

(** X4. No write removes a row: in each of the four relations the keys
    after a call are the keys before it, in their order, followed by at most
    one key, which was not stored before; and this whatever the outcome of
    the call. *)
Theorem writes_never_remove_rows (s : Store) (now : Z) (m : Mutation) :
  let s' := fst (run_mutation s now m) in
  extends (map Group_Id (Groups s)) (map Group_Id (Groups s'))
  /\ extends (map member_key (GroupMembers s)) (map member_key (GroupMembers s'))
  /\ extends (map row_key (GroupTeams s)) (map row_key (GroupTeams s'))
  /\ extends (map row_key (GroupChannels s)) (map row_key (GroupChannels s')).
Proof.
  assert (Hext : forall (K : Type) (k l : list K),
            (l = k \/ exists x, ~ In x k /\ l = k ++ [x]) -> extends k l).
  { intros K k l [->|[x [Hx ->]]].
    - exists []. rewrite app_nil_r. repeat split; [simpl; lia | intros y []].
    - exists [x]. repeat split; [simpl; lia|].
      intros y [<-|[]]. exact Hx. }
  destruct (run_mutation_keys s now m) as [Kg [Km [Kt Kc]]].
  simpl. repeat split; apply Hext; assumption.
Qed.

Lemma Group_Name_replace_same (g r : Group) (tbl : list Group) :
  holds_one (group_has_id (Group_Id g)) tbl r ->
  Group_Name g = Group_Name r ->
  map Group_Name (replace_group g tbl) = map Group_Name tbl.
Proof.
  intros Hone Hn. unfold replace_group. rewrite map_map.
  apply map_ext_in. intros x Hx.
  destruct (group_has_id (Group_Id g) x) eqn:E; [|reflexivity].
  now rewrite (holds_one_only _ _ _ _ x Hone Hx E).
Qed.

(** Replacing the one row of an id by a group whose name no other row has
    keeps the names unique. *)
Lemma names_unique_replace (g : Group) (tbl : list Group) :
  NoDup (map Group_Name tbl) ->
  (List.length (filter (group_has_id (Group_Id g)) tbl) <= 1)%nat ->
  existsb (fun x => streq (Group_Name x) (Group_Name g)
                    && negb (group_has_id (Group_Id g) x)) tbl = false ->
  NoDup (map Group_Name (replace_group g tbl)).
Proof.
  unfold replace_group.
  induction tbl as [|x l IH]; intros Hnd Hlen Hclash; [constructor|].
  simpl in *. inversion Hnd as [|? ? Hx Hl]; subst.
  apply orb_false_iff in Hclash. destruct Hclash as [Hcx Hcl].
  destruct (group_has_id (Group_Id g) x) eqn:E.
  - simpl in Hlen.
    assert (Hnone : filter (group_has_id (Group_Id g)) l = []).
    { destruct (filter _ l); [reflexivity | simpl in Hlen; lia]. }
    assert (Hl' : map (fun r => if group_has_id (Group_Id g) r then g else r) l = l).
    { rewrite <- (map_id l) at 2. apply map_ext_in. intros y Hy.
      destruct (group_has_id (Group_Id g) y) eqn:Ey; [|reflexivity].
      assert (Hf : In y (filter (group_has_id (Group_Id g)) l))
        by (apply filter_In; auto).
      rewrite Hnone in Hf. destruct Hf. }
    rewrite Hl'. constructor; [|exact Hl].
    intro Hin. apply in_map_iff in Hin. destruct Hin as [y [Hn Hy]].
    assert (Ey : group_has_id (Group_Id g) y = false).
    { destruct (group_has_id (Group_Id g) y) eqn:Ey; [|reflexivity].
      assert (Hf : In y (filter (group_has_id (Group_Id g)) l))
        by (apply filter_In; auto).
      rewrite Hnone in Hf. destruct Hf. }
    assert (Ht : existsb (fun x0 => streq (Group_Name x0) (Group_Name g)
                                    && negb (group_has_id (Group_Id g) x0)) l
                 = true).
    { apply existsb_exists. exists y. split; [exact Hy|].
      rewrite Ey. simpl. rewrite andb_true_r. now apply streq_true. }
    congruence.
  - constructor.
    + intro Hin. apply in_map_iff in Hin. destruct Hin as [y [Hn Hy]].
      apply in_map_iff in Hy. destruct Hy as [z [Hz Hzl]].
      destruct (group_has_id (Group_Id g) z) eqn:Ez.
      * subst y. simpl in Hcx. rewrite andb_true_r in Hcx.
        apply streq_false in Hcx. congruence.
      * subst y. apply Hx. rewrite <- Hn. now apply in_map.
    + apply IH; [exact Hl | | exact Hcl]. simpl in Hlen. exact Hlen.
Qed.

(** X5. The names of the groups stay unique under every write, soft-deleted
    groups included. *)
Theorem writes_keep_names_unique (s : Store) (now : Z) (m : Mutation) :
  names_unique s -> names_unique (fst (run_mutation s now m)).
Proof.
  unfold names_unique. intro Hn.
  destruct m as [newId group|[group|gs]|[groupID|groupID userID|groupID syncableID t]
                 |groupID userID|gs]; simpl.
  - destruct (GroupCreate_store s now newId group) as [[-> _]|[_ [Hname ->]]];
      [exact Hn|].
    simpl. rewrite map_app. simpl. apply NoDup_snoc; [exact Hn|].
    apply (key_not_stored _ _ Group_Name
             (fun r => streq (Group_Name r) (Group_Name group)));
      [|exact Hname].
    intros x Hx. now apply streq_true.
  - destruct (GroupUpdate_written s now group) as [[-> _]|[r [Hone [Hclash ->]]]];
      [exact Hn|].
    simpl. apply names_unique_replace; [exact Hn | | exact Hclash].
    simpl. unfold holds_one in Hone. rewrite Hone. simpl. lia.
  - destruct (GroupUpdateGroupSyncable_store s now gs) as [->| ->];
      [exact Hn|].
    now destruct (GroupSyncable_Type gs).
  - destruct (GroupDelete_store s now groupID) as [[-> _]|[r [Hone [_ ->]]]];
      [exact Hn|].
    simpl. rewrite (Group_Name_replace_same _ r); [exact Hn | | reflexivity].
    simpl. destruct (holds_one_In _ _ _ _ Hone) as [_ Hid].
    apply streq_true in Hid. now rewrite Hid.
  - destruct (GroupDeleteMember_store s now groupID userID)
      as [[-> _]|[r [_ [_ ->]]]]; exact Hn.
  - destruct (GroupDeleteGroupSyncable_store s now groupID syncableID t)
      as [[-> _]|[r [_ [_ ->]]]]; [exact Hn|].
    now destruct t.
  - destruct (GroupCreateMember_store s now groupID userID) as [[-> _]|[_ ->]];
      exact Hn.
  - destruct (GroupCreateGroupSyncable_store s now gs) as [[-> _]|[_ [_ ->]]];
      [exact Hn|].
    now destruct (GroupSyncable_Type gs).
Qed.

(** ** The pages *)

Lemma insert_desc_In (A : Type) (key : A -> Z) (x y : A) (l : list A) :
  In y (insert_desc key x l) <-> y = x \/ In y l.
Proof.
  induction l as [|a l IH]; simpl.
  - split; [intros [H|[]]; auto | intros [H|[]]; auto].
  - destruct (key a <=? key x); simpl.
    + split; [intros [H|H]; auto | intros [H|H]; auto].
    + rewrite IH. split; [intros [H|[H|H]]; auto | intros [H|[H|H]]; auto].
Qed.

Lemma order_by_desc_In (A : Type) (key : A -> Z) (y : A) (l : list A) :
  In y (order_by_desc key l) <-> In y l.
Proof.
  unfold order_by_desc. induction l as [|a l IH]; simpl; [tauto|].
  rewrite insert_desc_In, IH. split; [intros [H|H]; auto | intros [H|H]; auto].
Qed.

Lemma insert_desc_length (A : Type) (key : A -> Z) (x : A) (l : list A) :
  List.length (insert_desc key x l) = S (List.length l).
Proof.
  induction l as [|a l IH]; simpl; [reflexivity|].
  destruct (key a <=? key x); simpl; [reflexivity | now rewrite IH].
Qed.

Lemma order_by_desc_length (A : Type) (key : A -> Z) (l : list A) :
  List.length (order_by_desc key l) = List.length l.
Proof.
  unfold order_by_desc. induction l as [|a l IH]; simpl; [reflexivity|].
  now rewrite insert_desc_length, IH.
Qed.

Lemma insert_desc_sorted (A : Type) (key : A -> Z) (x : A) (l : list A) :
  sorted_desc key l -> sorted_desc key (insert_desc key x l).
Proof.
  unfold sorted_desc. induction l as [|a l IH]; intro Hs; simpl.
  - constructor; constructor.
  - inversion Hs as [|? ? Hl Ha]; subst.
    destruct (key a <=? key x) eqn:E.
    + apply Z.leb_le in E. constructor; [exact Hs|].
      constructor; [exact E|].
      rewrite Forall_forall in *. intros b Hb. specialize (Ha b Hb). lia.
    + apply Z.leb_gt in E. constructor; [now apply IH|].
      rewrite Forall_forall in *. intros b Hb.
      apply insert_desc_In in Hb. destruct Hb as [->|Hb]; [lia | now apply Ha].
Qed.

Lemma order_by_desc_sorted (A : Type) (key : A -> Z) (l : list A) :
  sorted_desc key (order_by_desc key l).
Proof.
  unfold order_by_desc. induction l as [|a l IH]; simpl.
  - constructor.
  - now apply insert_desc_sorted.
Qed.

Lemma sorted_desc_skipn (A : Type) (key : A -> Z) (n : nat) (l : list A) :
  sorted_desc key l -> sorted_desc key (skipn n l).
Proof.
  unfold sorted_desc. revert l. induction n as [|n IH]; intros l Hs; [exact Hs|].
  destruct l as [|a l]; [exact Hs|]. simpl.
  inversion Hs; subst. now apply IH.
Qed.

Lemma In_firstn (A : Type) (n : nat) (l : list A) (x : A) :
  In x (firstn n l) -> In x l.
Proof.
  revert l. induction n as [|n IH]; intros l H; [destruct H|].
  destruct l as [|a l]; [destruct H|]. simpl in H.
  destruct H as [->|H]; [now left | right; now apply IH].
Qed.

Lemma sorted_desc_firstn (A : Type) (key : A -> Z) (n : nat) (l : list A) :
  sorted_desc key l -> sorted_desc key (firstn n l).
Proof.
  unfold sorted_desc. revert l. induction n as [|n IH]; intros l Hs; [constructor|].
  destruct l as [|a l]; [constructor|]. simpl.
  inversion Hs as [|? ? Hl Ha]; subst. constructor; [now apply IH|].
  rewrite Forall_forall in *. intros b Hb. apply Ha.
  now apply (In_firstn _ n l b).
Qed.

Lemma sorted_desc_map (A B : Type) (key : A -> Z) (key' : B -> Z)
    (f : A -> B) (l : list A) :
  (forall x, key' (f x) = key x) ->
  sorted_desc key l -> sorted_desc key' (map f l).
Proof.
  unfold sorted_desc. intros Hk.
  induction l as [|a l IH]; intro Hs; simpl; [constructor|].
  inversion Hs as [|? ? Hl Ha]; subst. constructor; [now apply IH|].
  rewrite Forall_forall in *. intros b Hb.
  apply in_map_iff in Hb. destruct Hb as [x [<- Hx]].
  rewrite !Hk. now apply Ha.
Qed.

Lemma limit_offset_some (A : Type) (limit offset : Z) (rows : list A) :
  0 <= limit -> 0 <= offset ->
  limit_offset limit offset rows
  = Some (firstn (Z.to_nat limit) (skipn (Z.to_nat offset) rows)).
Proof.
  intros Hl Ho. unfold limit_offset.
  assert (H1 : (limit <? 0) = false) by (apply Z.ltb_ge; lia).
  assert (H2 : (offset <? 0) = false) by (apply Z.ltb_ge; lia).
  now rewrite H1, H2.
Qed.

Lemma firstn_bound (A : Type) (limit : Z) (l : list A) :
  0 <= limit -> Z.of_nat (List.length (firstn (Z.to_nat limit) l)) <= limit.
Proof.
  intro H. pose proof (firstn_le_length (Z.to_nat limit) l). lia.
Qed.

Lemma In_page (A : Type) (n o : nat) (l : list A) (x : A) :
  In x (firstn n (skipn o l)) -> In x l.
Proof.
  intro H. apply In_firstn in H.
  rewrite <- (firstn_skipn o l). apply in_or_app. now right.
Qed.

Lemma remap_scan (t : GroupSyncableType) (r : SyncableRow) :
  remap_scanner t (scan_Scanner t r) = link_of_row r.
Proof. destruct t; reflexivity. Qed.

(** The page of links, for bounds that are not negative. *)
Lemma link_page_data (s : Store) (groupID : string) (t : GroupSyncableType)
    (offset limit : Z) :
  0 <= offset -> 0 <= limit ->
  GroupGetAllGroupSyncablesByGroupPage s groupID t offset limit
  = mkResult
      (DSyncables
         (map link_of_row
              (firstn (Z.to_nat limit)
                 (skipn (Z.to_nat offset) (select_by_group s groupID t)))))
      None.
Proof.
  intros Ho Hl. unfold GroupGetAllGroupSyncablesByGroupPage.
  rewrite limit_offset_some by assumption. simpl.
  rewrite map_map. unfold with_Data, NewSupplierResult. simpl. do 2 f_equal.
  apply map_ext. intro r. apply remap_scan.
Qed.

(** X6. A page of the links of a group, for an offset and a limit that are
    not negative, comes without an error; it is in descending order of
    [CreateAt]; it has at most [limit] entries; and every entry is built from
    a row that the relation of the type holds for the group, with the
    foreign key of the row as its [SyncableId]. *)
Theorem link_page_sorted_bounded (s : Store) (groupID : string)
    (t : GroupSyncableType) (offset limit : Z) :
  0 <= offset -> 0 <= limit ->
  let r := GroupGetAllGroupSyncablesByGroupPage s groupID t offset limit in
  Err r = None
  /\ sorted_desc GroupSyncable_CreateAt (data_links (Data r))
  /\ Z.of_nat (List.length (data_links (Data r))) <= limit
  /\ forall gs, In gs (data_links (Data r)) ->
       GroupSyncable_GroupId gs = groupID
       /\ exists row, In row (syncable_table t s)
            /\ same_columns gs (link_of_row row)
            /\ GroupSyncable_SyncableId gs = Row_ForeignId row.
Proof.
  intros Ho Hl r. subst r. rewrite link_page_data by assumption. simpl.
  split; [reflexivity|]. split; [|split].
  - apply (sorted_desc_map _ _ Row_CreateAt); [reflexivity|].
    apply sorted_desc_firstn, sorted_desc_skipn.
    unfold select_by_group. apply order_by_desc_sorted.
  - rewrite length_map. now apply firstn_bound.
  - intros gs Hin. apply in_map_iff in Hin. destruct Hin as [row [<- Hrow]].
    apply In_page in Hrow. unfold select_by_group in Hrow.
    apply order_by_desc_In in Hrow. apply filter_In in Hrow.
    destruct Hrow as [Hrow Hg]. apply streq_true in Hg.
    split; [exact Hg|]. exists row. repeat split. exact Hrow.
Qed.

(** The page of groups, for bounds that are not negative. *)
Lemma group_page_data (s : Store) (offset limit : Z) :
  0 <= offset -> 0 <= limit ->
  GroupGetAllPage s offset limit
  = mkResult
      (DGroups
         (firstn (Z.to_nat limit)
            (skipn (Z.to_nat offset)
               (order_by_desc Group_CreateAt
                  (filter (fun g => Group_DeleteAt g =? 0) (Groups s))))))
      None.
Proof.
  intros Ho Hl. unfold GroupGetAllPage.
  now rewrite limit_offset_some by assumption.
Qed.

(** X7. A page of groups, for an offset and a limit that are not negative,
    comes without an error; it is in descending order of [CreateAt]; it has
    at most [limit] entries; and every entry is a stored group with
    [DeleteAt] 0. *)
Theorem group_page_sorted_bounded_live (s : Store) (offset limit : Z) :
  0 <= offset -> 0 <= limit ->
  let r := GroupGetAllPage s offset limit in
  Err r = None
  /\ sorted_desc Group_CreateAt (data_groups (Data r))
  /\ Z.of_nat (List.length (data_groups (Data r))) <= limit
  /\ forall g, In g (data_groups (Data r)) ->
       In g (Groups s) /\ Group_DeleteAt g = 0.
Proof.
  intros Ho Hl r. subst r. rewrite group_page_data by assumption. simpl.
  split; [reflexivity|]. split; [|split].
  - apply sorted_desc_firstn, sorted_desc_skipn, order_by_desc_sorted.
  - now apply firstn_bound.
  - intros g Hin. apply In_page in Hin. apply order_by_desc_In in Hin.
    apply filter_In in Hin. destruct Hin as [Hin Hd].
    split; [exact Hin | now apply Z.eqb_eq].
Qed.

(** X8. The first page of groups, when its limit is at least the number of
    stored groups, lists exactly the live groups: every stored group with
    [DeleteAt] 0 is in it, and nothing else. *)
Theorem group_first_page_complete (s : Store) (limit : Z) (g : Group) :
  Z.of_nat (List.length (Groups s)) <= limit ->
  In g (data_groups (Data (GroupGetAllPage s 0 limit)))
  <-> In g (Groups s) /\ Group_DeleteAt g = 0.
Proof.
  intro Hl. rewrite group_page_data by lia. simpl.
  rewrite firstn_all2.
  - rewrite order_by_desc_In, filter_In, Z.eqb_eq. reflexivity.
  - rewrite order_by_desc_length.
    pose proof (filter_length_le (fun g0 => Group_DeleteAt g0 =? 0) (Groups s)).
    lia.
Qed.

Lemma firstn_add_skipn (A : Type) (n m : nat) (l : list A) :
  firstn (n + m) l = firstn n l ++ firstn m (skipn n l).
Proof.
  revert l. induction n as [|n IH]; intro l; [reflexivity|].
  destruct l as [|a l]; simpl; [now rewrite firstn_nil | now rewrite IH].
Qed.

Lemma skipn_add (A : Type) (n m : nat) (l : list A) :
  skipn (n + m) l = skipn m (skipn n l).
Proof.
  revert l. induction n as [|n IH]; intro l; [reflexivity|].
  destruct l as [|a l]; simpl; [now rewrite skipn_nil | apply IH].
Qed.

Lemma page_concat (A : Type) (o n m : Z) (l : list A) :
  0 <= o -> 0 <= n -> 0 <= m ->
  firstn (Z.to_nat n) (skipn (Z.to_nat o) l)
  ++ firstn (Z.to_nat m) (skipn (Z.to_nat (o + n)) l)
  = firstn (Z.to_nat (n + m)) (skipn (Z.to_nat o) l).
Proof.
  intros Ho Hn Hm.
  rewrite !Z2Nat.inj_add by assumption.
  now rewrite firstn_add_skipn, skipn_add.
Qed.

Lemma insert_desc_perm (A : Type) (key : A -> Z) (x : A) (l : list A) :
  Permutation (insert_desc key x l) (x :: l).
Proof.
  induction l as [|a l IH]; simpl; [apply Permutation_refl|].
  destruct (key a <=? key x); [apply Permutation_refl|].
  apply perm_trans with (a :: x :: l); [now apply perm_skip | apply perm_swap].
Qed.

Lemma order_by_desc_perm (A : Type) (key : A -> Z) (l : list A) :
  Permutation (order_by_desc key l) l.
Proof.
  unfold order_by_desc. induction l as [|a l IH]; simpl; [constructor|].
  apply perm_trans with (a :: fold_right (insert_desc key) [] l);
    [apply insert_desc_perm | now apply perm_skip].
Qed.

(** Rows of distinct keys have one descending order. *)
Lemma sorted_desc_unique (A : Type) (key : A -> Z) (l1 l2 : list A) :
  Permutation l1 l2 -> NoDup (map key l2) ->
  sorted_desc key l1 -> sorted_desc key l2 -> l1 = l2.
Proof.
  unfold sorted_desc. revert l2.
  induction l1 as [|a t1 IH]; intros l2 Hp Hnd Hs1 Hs2.
  - apply Permutation_nil in Hp. now subst.
  - destruct l2 as [|b t2].
    + apply Permutation_sym, Permutation_nil in Hp. discriminate.
    + inversion Hs1 as [|? ? Ht1 Ha]; subst.
      inversion Hs2 as [|? ? Ht2 Hb]; subst.
      rewrite Forall_forall in Ha, Hb.
      assert (Hab : a = b).
      { assert (Ha2 : In a (b :: t2))
          by (apply (Permutation_in a Hp); now left).
        assert (Hb1 : In b (a :: t1))
          by (apply (Permutation_in b (Permutation_sym Hp)); now left).
        destruct Ha2 as [E|Ha2]; [now subst|].
        destruct Hb1 as [E|Hb1]; [now subst|].
        apply (NoDup_map_eq _ _ key (b :: t2)); auto.
        - now right.
        - now left.
        - specialize (Ha b Hb1). specialize (Hb a Ha2). lia. }
      subst b. f_equal. apply IH.
      * now apply Permutation_cons_inv with a.
      * simpl in Hnd. now inversion Hnd.
      * exact Ht1.
      * exact Ht2.
Qed.

Lemma listing_determined (A : Type) (key : A -> Z) (rows listing : list A) :
  NoDup (map key rows) ->
  Permutation listing rows -> sorted_desc key listing ->
  listing = order_by_desc key rows.
Proof.
  intros Hnd Hp Hs. apply (sorted_desc_unique _ key).
  - apply perm_trans with rows; [exact Hp|].
    apply Permutation_sym, order_by_desc_perm.
  - apply (Permutation_NoDup (l := map key rows)); [|exact Hnd].
    apply Permutation_map, Permutation_sym, order_by_desc_perm.
  - exact Hs.
  - apply order_by_desc_sorted.
Qed.

(** X9. Consecutive pages join where the order is determined. When the
    live groups have pairwise distinct [CreateAt], every arrangement of them
    in descending order of [CreateAt] is the listing that the pages of
    [GroupGetAllPage] are cut from, and the page at [offset] of [n] entries
    followed by the page at [offset + n] of [m] entries is the page at
    [offset] of [n + m] entries. The same holds of the links of a group in
    the relation of a type, when these have pairwise distinct [CreateAt].
    With equal [CreateAt] the statements leave the order open, and nothing
    is said. *)
Theorem consecutive_pages_join (s : Store) (groupID : string)
    (t : GroupSyncableType) (offset n m : Z) :
  0 <= offset -> 0 <= n -> 0 <= m ->
  (NoDup (map Group_CreateAt
              (filter (fun g => Group_DeleteAt g =? 0) (Groups s))) ->
   (forall listing,
      Permutation listing (filter (fun g => Group_DeleteAt g =? 0) (Groups s)) ->
      sorted_desc Group_CreateAt listing ->
      firstn (Z.to_nat n) (skipn (Z.to_nat offset) listing)
      = data_groups (Data (GroupGetAllPage s offset n)))
   /\ data_groups (Data (GroupGetAllPage s offset n))
      ++ data_groups (Data (GroupGetAllPage s (offset + n) m))
      = data_groups (Data (GroupGetAllPage s offset (n + m))))
  /\ (NoDup (map Row_CreateAt
                 (filter (fun r => streq (Row_GroupId r) groupID)
                         (syncable_table t s))) ->
      (forall listing,
         Permutation listing
           (filter (fun r => streq (Row_GroupId r) groupID)
                   (syncable_table t s)) ->
         sorted_desc Row_CreateAt listing ->
         map link_of_row (firstn (Z.to_nat n) (skipn (Z.to_nat offset) listing))
         = data_links
             (Data (GroupGetAllGroupSyncablesByGroupPage s groupID t offset n)))
      /\ data_links
           (Data (GroupGetAllGroupSyncablesByGroupPage s groupID t offset n))
         ++ data_links
              (Data (GroupGetAllGroupSyncablesByGroupPage s groupID t
                                                          (offset + n) m))
         = data_links
             (Data (GroupGetAllGroupSyncablesByGroupPage s groupID t offset
                                                         (n + m)))).
Proof.
  intros Ho Hn Hm.
  rewrite !group_page_data, !link_page_data by lia. simpl.
  split; intro Hnd; split.
  - intros listing Hp Hs.
    now rewrite (listing_determined _ Group_CreateAt _ listing Hnd Hp Hs).
  - now rewrite page_concat.
  - intros listing Hp Hs. unfold select_by_group.
    now rewrite (listing_determined _ Row_CreateAt _ listing Hnd Hp Hs).
  - rewrite <- map_app. now rewrite page_concat.
Qed.

(** ** Reading what was written *)

Lemma syncable_table_other (t t' : GroupSyncableType) (s : Store)
    (rows : list SyncableRow) :
  t' <> t -> syncable_table t' (set_syncable_table t s rows) = syncable_table t' s.
Proof. destruct t, t'; intro H; try reflexivity; now contradiction H. Qed.

Lemma Groups_set (s : Store) (rows : list Group) :
  Groups (set_Groups s rows) = rows.
Proof. reflexivity. Qed.

(** X10. After a create, an update or a delete of a group that returned
    without an error, [GroupGet] of the id returns what that call returned:
    the stored row is the returned entity, for a delete the row with
    [DeleteAt] set. *)
Theorem group_read_after_write (s : Store) (now : Z) (m : Mutation)
    (groupID : string) :
  written_group_id m = Some groupID ->
  Err (snd (run_mutation s now m)) = None ->
  GroupGet (fst (run_mutation s now m)) groupID = snd (run_mutation s now m)
  /\ exists g, Data (snd (run_mutation s now m)) = DGroup g
               /\ Group_Id g = groupID.
Proof.
  destruct m as [newId group|[group|gs]|[gid|gid uid|gid sid t]|gid uid|gs];
    simpl; intros Hid Hok; try discriminate; injection Hid as <-.
  - destruct (GroupCreate_store s now newId group) as [[_ Hne]|[Hex [_ H]]];
      [contradiction|].
    rewrite H. simpl. split; [|eexists; split; reflexivity].
    unfold GroupGet, SelectOne. rewrite Groups_set.
    rewrite (filter_app_one _ _ _ _ Hex); [reflexivity|].
    unfold group_has_id. simpl. now apply streq_true.
  - destruct (GroupUpdate_written s now group) as [[_ Hne]|[r [Hone [_ H]]]];
      [contradiction|].
    rewrite H. simpl. split; [|eexists; split; reflexivity].
    unfold GroupGet, SelectOne. rewrite Groups_set.
    change (Group_Id group)
      with (Group_Id (Group_with_times group (Group_CreateAt r) now
                                       (Group_DeleteAt r))) at 1.
    rewrite filter_replace_group. simpl Group_Id.
    unfold holds_one in Hone. now rewrite Hone.
  - destruct (GroupDelete_store s now gid) as [[_ Hne]|[r [Hone [Hlive H]]]];
      [contradiction|].
    assert (Hrid : Group_Id r = gid).
    { destruct (holds_one_In _ _ _ _ Hone) as [_ Hk]. now apply streq_true. }
    assert (Hres : snd (GroupDelete s now gid)
                   = mkResult
                       (DGroup (Group_with_times r (Group_CreateAt r) now now))
                       None).
    { revert Hok. unfold GroupDelete.
      rewrite (SelectOne_holds_one _ _ _ _ Hone), Hlive. simpl.
      destruct (Update_Group _ _) as [[n tbl]|] eqn:Hup.
      - apply (Update_Group_ok _ _ r) in Hup; [|simpl; now rewrite Hrid].
        destruct Hup as [-> _]. simpl.
        destruct (IsValidId gid); simpl; [reflexivity | discriminate].
      - destruct (IsValidId gid); simpl; discriminate. }
    rewrite H, Hres. simpl. split; [|eexists; split; [reflexivity | exact Hrid]].
    unfold GroupGet, SelectOne. rewrite Groups_set.
    rewrite <- Hrid at 1.
    change (Group_Id r)
      with (Group_Id (Group_with_times r (Group_CreateAt r) now now)) at 1.
    rewrite filter_replace_group. simpl Group_Id. rewrite Hrid.
    unfold holds_one in Hone. now rewrite Hone.
Qed.

(** X11. After a create, an update or a delete of a link that returned
    without an error, [GroupGetGroupSyncable] of its key and type returns,
    without an error, a link with the columns of the entity that the call
    returned. *)
Theorem link_read_after_write (s : Store) (now : Z) (m : Mutation)
    (groupID syncableID : string) (t : GroupSyncableType) :
  written_link m = Some (groupID, syncableID, t) ->
  Err (snd (run_mutation s now m)) = None ->
  exists e got,
    Data (snd (run_mutation s now m)) = DSyncable e
    /\ GroupGetGroupSyncable (fst (run_mutation s now m)) groupID syncableID t
       = mkResult (DSyncable got) None
    /\ same_columns got e.
Proof.
  destruct m as [newId group|[group|gs]|[gid|gid uid|gid sid t']|gid uid|gs];
    simpl; intros Hkey Hok; try discriminate.
  - injection Hkey as <- <- <-.
    destruct (GroupUpdateGroupSyncable_ok_inv s now gs Hok)
      as [r [Hone [Hvalid Hdelta]]].
    rewrite (GroupUpdateGroupSyncable_success s now gs r Hone Hvalid Hdelta).
    simpl. unfold GroupGetGroupSyncable.
    rewrite syncable_table_set. unfold SelectOne.
    rewrite filter_map_same by (intro x; reflexivity).
    unfold holds_one in Hone. rewrite Hone. simpl.
    eexists. eexists. split; [reflexivity|]. split; [reflexivity|].
    unfold same_columns, row_of_GroupSyncable. simpl.
    assert (Hin : In r (filter (row_has_key (GroupSyncable_GroupId gs)
                                            (GroupSyncable_SyncableId gs))
                               (syncable_table (GroupSyncable_Type gs) s)))
      by (rewrite Hone; now left).
    apply filter_In in Hin. destruct Hin as [_ Hk].
    apply row_has_key_true in Hk. unfold row_key in Hk.
    injection Hk as Hg _. now rewrite Hg.
  - injection Hkey as <- <- <-.
    destruct (GroupDeleteGroupSyncable_store s now gid sid t')
      as [[_ Hne]|[r [Hone [_ H]]]]; [contradiction|].
    rewrite H. simpl. unfold GroupGetGroupSyncable.
    rewrite syncable_table_set. unfold SelectOne.
    rewrite filter_map_same
      by (intro x; destruct (row_has_key gid sid x) eqn:E; exact E).
    unfold holds_one in Hone. rewrite Hone. simpl.
    assert (Hin : In r (filter (row_has_key gid sid) (syncable_table t' s)))
      by (rewrite Hone; now left).
    apply filter_In in Hin. destruct Hin as [_ Hk]. rewrite Hk. simpl.
    eexists. eexists. split; [reflexivity|]. split; [reflexivity|].
    unfold same_columns, row_of_GroupSyncable. simpl.
    apply row_has_key_true in Hk. unfold row_key in Hk.
    injection Hk as Hg _. now rewrite Hg.
  - injection Hkey as <- <- <-.
    destruct (GroupCreateGroupSyncable_store s now gs)
      as [[_ Hne]|[_ [Hex H]]]; [contradiction|].
    rewrite H. simpl. unfold GroupGetGroupSyncable.
    rewrite syncable_table_set. unfold SelectOne.
    rewrite (filter_app_one _ _ _ _ Hex);
      [|apply (row_has_key_refl
                 (row_of_GroupSyncable (GroupSyncable_with_times gs now now 0)))].
    simpl. eexists. eexists. split; [reflexivity|]. split; [reflexivity|].
    reflexivity.
Qed.

(** ** Creating what is stored already *)

Lemma existsb_stored (A : Type) (p : A -> bool) (tbl : list A) (r : A) :
  In r tbl -> p r = true -> existsb p tbl = true.
Proof. intros Hin Hp. apply existsb_exists. eauto. Qed.

(** X12. [GroupCreateMember] under a key that a row has, whatever the
    [DeleteAt] of the row, is refused with the uniqueness error, a conflict,
    and writes nothing. *)
Theorem member_key_taken (s : Store) (now : Z) (groupID userID : string)
    (m : GroupMember) :
  In m (GroupMembers s) -> member_key m = (groupID, userID) ->
  GroupMember_IsValid (mkGroupMember groupID userID now 0) = None ->
  exists e, GroupCreateMember s now groupID userID = (s, mkResult DNil (Some e))
            /\ error_kind e = ConflictError
            /\ AppError_StatusCode e = StatusBadRequest.
Proof.
  intros Hin Hkey Hvalid. unfold GroupCreateMember. rewrite Hvalid.
  unfold Insert_GroupMember. simpl.
  rewrite (existsb_stored _ _ _ m Hin); [|now apply member_has_key_true].
  eexists. split; [reflexivity|]. split; reflexivity.
Qed.

(** X13. [GroupCreateGroupSyncable] under a key that a row of the relation of
    the type has, soft-deleted or not, fails with the insert error and
    writes nothing: a link that was deleted cannot be created again. *)
Theorem link_key_taken (s : Store) (now : Z) (gs : GroupSyncable)
    (r : SyncableRow) :
  In r (syncable_table (GroupSyncable_Type gs) s) ->
  row_key r = (GroupSyncable_GroupId gs, GroupSyncable_SyncableId gs) ->
  GroupSyncable_IsValid gs = None ->
  GroupCreateGroupSyncable s now gs
  = (s, mkResult DNil
          (Some (AppErr "SqlGroupStore.CreateGroupSyncable"
                        "store.sql_group.create_group_syncable.insert_error"
                        StatusInternalServerError))).
Proof.
  intros Hin Hkey Hvalid. unfold GroupCreateGroupSyncable. rewrite Hvalid.
  simpl. rewrite (existsb_stored _ _ _ r Hin); [reflexivity|].
  now apply row_has_key_true.
Qed.

(** X14. [GroupCreate] with a name that a stored group has, soft-deleted or
    not, writes nothing and returns nil data. The error it returns is the
    one of the commit, not the uniqueness error of the insert: the
    transaction is rolled back and then committed, and the failure of that
    commit overwrites the error. *)
Theorem group_name_taken (s : Store) (now : Z) (newId : string)
    (group r : Group) :
  String.length (Group_Id group) = 0%nat ->
  Group_IsValidForCreate group = None ->
  In r (Groups s) -> Group_Name r = Group_Name group ->
  GroupCreate s now newId group
  = (s, mkResult DNil
          (Some (AppErr "SqlGroupStore.GroupCreate"
                        "store.sql_group.create.commit_error"
                        StatusInternalServerError))).
Proof.
  intros Hid Hvalid Hin Hname. unfold GroupCreate.
  rewrite Hid, Hvalid. simpl. unfold Insert_Group, Begin. simpl.
  destruct (existsb (group_has_id newId) (Groups s)); [reflexivity|].
  rewrite (existsb_stored _ _ _ r Hin); [reflexivity|].
  now apply streq_true.
Qed.

(** ** Writing what is not stored *)

(** X15. An update or a delete of a group, a member or a link under a key
    that no row has returns the no-rows error of the method, a not-found
    error, and writes nothing. For [GroupDelete] this is so also when the id
    fails [model.IsValidId]: the no-rows error replaces the one of the
    check. *)
Theorem missing_key_not_found (s : Store) (now : Z) (m : Mutation) :
  target_absent s m ->
  exists e, run_mutation s now m = (s, mkResult DNil (Some e))
            /\ error_kind e = NotFoundError.
Proof.
  destruct m as [newId group|[group|gs]|[gid|gid uid|gid sid t]|gid uid|gs];
    simpl; intro H; try contradiction.
  - apply SelectOne_no_rows in H. unfold GroupUpdate. rewrite H.
    eexists. split; reflexivity.
  - apply SelectOne_no_rows in H. unfold GroupUpdateGroupSyncable. rewrite H.
    eexists. split; reflexivity.
  - apply SelectOne_no_rows in H. unfold GroupDelete. rewrite H.
    eexists. split.
    + destruct (IsValidId gid); reflexivity.
    + reflexivity.
  - destruct H as [Hg [Hu H]]. apply SelectOne_no_rows in H.
    unfold GroupDeleteMember. rewrite Hg, Hu, H.
    eexists. split; reflexivity.
  - destruct H as [Hg [Hi H]]. apply SelectOne_no_rows in H.
    unfold GroupDeleteGroupSyncable. rewrite Hg, Hi, H.
    eexists. split; reflexivity.
Qed.

(** ** What a delete writes *)

Lemma filter_negb_map (A : Type) (p : A -> bool) (f : A -> A) (l : list A) :
  (forall x, p x = true -> p (f x) = true) ->
  filter (fun x => negb (p x)) (map (fun x => if p x then f x else x) l)
  = filter (fun x => negb (p x)) l.
Proof.
  intro H. induction l as [|a l IH]; [reflexivity|]. simpl.
  destruct (p a) eqn:E; simpl.
  - rewrite (H a E). simpl. exact IH.
  - rewrite E. simpl. now rewrite IH.
Qed.

Lemma filter_negb_replace_group (g : Group) (tbl : list Group) :
  filter (fun x => negb (group_has_id (Group_Id g) x)) (replace_group g tbl)
  = filter (fun x => negb (group_has_id (Group_Id g) x)) tbl.
Proof.
  unfold replace_group.
  apply (filter_negb_map _ (group_has_id (Group_Id g)) (fun _ => g)).
  intros x _. apply group_has_id_refl.
Qed.

(** X16. A delete of a group that returns without an error writes one row:
    the row of the id gets [DeleteAt] and [UpdateAt] of the call and keeps
    its other columns; every other group is as before; and the members and
    the links of the group are not touched, they stay as live as they were. *)
Theorem group_delete_writes_one_row (s : Store) (now : Z) (groupID : string) :
  Err (snd (GroupDelete s now groupID)) = None ->
  let s' := fst (GroupDelete s now groupID) in
  GroupMembers s' = GroupMembers s
  /\ GroupTeams s' = GroupTeams s
  /\ GroupChannels s' = GroupChannels s
  /\ filter (fun g => negb (group_has_id groupID g)) (Groups s')
     = filter (fun g => negb (group_has_id groupID g)) (Groups s)
  /\ exists r,
       holds_one (group_has_id groupID) (Groups s) r
       /\ Group_DeleteAt r = 0
       /\ holds_one (group_has_id groupID) (Groups s')
                    (Group_with_times r (Group_CreateAt r) now now).
Proof.
  intros Hok s'. subst s'.
  destruct (GroupDelete_store s now groupID) as [[_ Hne]|[r [Hone [Hlive H]]]];
    [contradiction|].
  assert (Hrid : Group_Id r = groupID).
  { destruct (holds_one_In _ _ _ _ Hone) as [_ Hk]. now apply streq_true. }
  subst groupID. rewrite H. simpl. repeat split.
  - exact (filter_negb_replace_group
             (Group_with_times r (Group_CreateAt r) now now) (Groups s)).
  - exists r. split; [exact Hone|]. split; [exact Hlive|].
    unfold holds_one.
    change (Group_Id r)
      with (Group_Id (Group_with_times r (Group_CreateAt r) now now)) at 1.
    rewrite filter_replace_group. simpl Group_Id.
    unfold holds_one in Hone. now rewrite Hone.
Qed.

(** X17. A delete of a link that returns without an error writes one row, the
    one of the key in the relation of the type: it gets [DeleteAt] and
    [UpdateAt] of the call and keeps its flags and [CreateAt]. Every other
    row of that relation, the other link relation, the groups and the
    members are as before. *)
Theorem link_delete_writes_one_row (s : Store) (now : Z)
    (groupID syncableID : string) (t : GroupSyncableType) :
  Err (snd (GroupDeleteGroupSyncable s now groupID syncableID t)) = None ->
  let s' := fst (GroupDeleteGroupSyncable s now groupID syncableID t) in
  Groups s' = Groups s
  /\ GroupMembers s' = GroupMembers s
  /\ (forall t', t' <> t -> syncable_table t' s' = syncable_table t' s)
  /\ filter (fun r => negb (row_has_key groupID syncableID r))
            (syncable_table t s')
     = filter (fun r => negb (row_has_key groupID syncableID r))
              (syncable_table t s)
  /\ exists r,
       holds_one (row_has_key groupID syncableID) (syncable_table t s) r
       /\ Row_DeleteAt r = 0
       /\ holds_one (row_has_key groupID syncableID) (syncable_table t s')
                    (set_deleted now now r).
Proof.
  intros Hok s'. subst s'.
  destruct (GroupDeleteGroupSyncable_store s now groupID syncableID t)
    as [[_ Hne]|[r [Hone [Hlive H]]]]; [contradiction|].
  rewrite H. simpl. split; [|split; [|split; [|split]]].
  - now destruct t.
  - now destruct t.
  - intros t' Ht. now apply syncable_table_other.
  - rewrite syncable_table_set.
    apply (filter_negb_map _ (row_has_key groupID syncableID)
             (set_deleted now now)).
    intros x E. exact E.
  - exists r. split; [exact Hone|]. split; [exact Hlive|].
    rewrite syncable_table_set. unfold holds_one.
    rewrite filter_map_same
      by (intro x; destruct (row_has_key groupID syncableID x) eqn:E; exact E).
    unfold holds_one in Hone. rewrite Hone. simpl.
    destruct (holds_one_In _ _ _ _ Hone) as [_ Hk]. now rewrite Hk.
Qed.

(** X18. A removal of a member that returns without an error writes one row:
    the row of the key gets the [DeleteAt] of the call and keeps its
    [CreateAt]; every other member, and the groups and links, are as
    before. *)
Theorem member_delete_writes_one_row (s : Store) (now : Z)
    (groupID userID : string) :
  Err (snd (GroupDeleteMember s now groupID userID)) = None ->
  let s' := fst (GroupDeleteMember s now groupID userID) in
  Groups s' = Groups s
  /\ GroupTeams s' = GroupTeams s
  /\ GroupChannels s' = GroupChannels s
  /\ filter (fun m => negb (member_has_key groupID userID m)) (GroupMembers s')
     = filter (fun m => negb (member_has_key groupID userID m)) (GroupMembers s)
  /\ exists m,
       holds_one (member_has_key groupID userID) (GroupMembers s) m
       /\ GroupMember_DeleteAt m = 0
       /\ holds_one (member_has_key groupID userID) (GroupMembers s')
                    (mkGroupMember groupID userID (GroupMember_CreateAt m) now).
Proof.
  intros Hok s'. subst s'.
  destruct (GroupDeleteMember_store s now groupID userID)
    as [[_ Hne]|[m [Hone [Hlive H]]]]; [contradiction|].
  rewrite H. simpl.
  set (m' := mkGroupMember groupID userID (GroupMember_CreateAt m) now).
  assert (Hk' : member_has_key groupID userID m' = true)
    by (apply member_has_key_true; reflexivity).
  repeat split.
  - apply (filter_negb_map _ (member_has_key groupID userID) (fun _ => m')).
    intros x _. exact Hk'.
  - exists m. split; [exact Hone|]. split; [exact Hlive|].
    unfold holds_one. rewrite filter_map_same.
    + unfold holds_one in Hone. rewrite Hone. simpl.
      destruct (holds_one_In _ _ _ _ Hone) as [_ Hk]. now rewrite Hk.
    + intro x. destruct (member_has_key groupID userID x) eqn:E;
        [exact Hk' | exact E].
Qed.

(** ** More on updates, creates and reads *)

(** X25. An update of a group that returns without an error writes one row:
    the row of the id takes the columns of the entity, with the stored
    [CreateAt] and [DeleteAt] and the [UpdateAt] of the call; every other
    group, and the members and links, are as before. *)
Theorem group_update_writes_one_row (s : Store) (now : Z) (group : Group) :
  Err (snd (GroupUpdate s now group)) = None ->
  let s' := fst (GroupUpdate s now group) in
  GroupMembers s' = GroupMembers s
  /\ GroupTeams s' = GroupTeams s
  /\ GroupChannels s' = GroupChannels s
  /\ filter (fun g => negb (group_has_id (Group_Id group) g)) (Groups s')
     = filter (fun g => negb (group_has_id (Group_Id group) g)) (Groups s)
  /\ exists r,
       holds_one (group_has_id (Group_Id group)) (Groups s) r
       /\ holds_one (group_has_id (Group_Id group)) (Groups s')
            (mkGroup (Group_Id group) (Group_Name group)
                     (Group_DisplayName group) (Group_Description group)
                     (Group_Type group) (Group_RemoteId group)
                     (Group_CreateAt r) now (Group_DeleteAt r)).
Proof.
  intros Hok s'. subst s'.
  destruct (GroupUpdate_written s now group) as [[_ Hne]|[r [Hone [_ H]]]];
    [contradiction|].
  rewrite H. simpl. repeat split.
  - exact (filter_negb_replace_group
             (Group_with_times group (Group_CreateAt r) now (Group_DeleteAt r))
             (Groups s)).
  - exists r. split; [exact Hone|]. unfold holds_one.
    change (Group_Id group)
      with (Group_Id (Group_with_times group (Group_CreateAt r) now
                                       (Group_DeleteAt r))) at 1.
    rewrite filter_replace_group. simpl Group_Id.
    unfold holds_one in Hone. now rewrite Hone.
Qed.

(** X26. The times of what is created. A link that [GroupCreateGroupSyncable]
    creates is live and carries the time of the call as [CreateAt] and
    [UpdateAt], whatever times the caller supplied. A member that
    [GroupCreateMember] creates is live with the time of the call as
    [CreateAt]. A group that [GroupCreate] creates carries the new id and the
    time of the call as [CreateAt] and [UpdateAt], and the [DeleteAt] that
    the caller supplied: that one is not reset. *)
Theorem created_times (s : Store) (now : Z) (m : Mutation) :
  Err (snd (run_mutation s now m)) = None ->
  match m with
  | DoGroupCreateGroupSyncable gs =>
      Data (snd (run_mutation s now m))
      = DSyncable (mkGroupSyncable (GroupSyncable_GroupId gs)
                                   (GroupSyncable_SyncableId gs)
                                   (GroupSyncable_CanLeave gs)
                                   (GroupSyncable_AutoAdd gs)
                                   now now 0 (GroupSyncable_Type gs))
  | DoGroupCreateMember groupID userID =>
      Data (snd (run_mutation s now m))
      = DMember (mkGroupMember groupID userID now 0)
  | DoGroupCreate newId group =>
      Data (snd (run_mutation s now m))
      = DGroup (mkGroup newId (Group_Name group) (Group_DisplayName group)
                        (Group_Description group) (Group_Type group)
                        (Group_RemoteId group) now now (Group_DeleteAt group))
  | DoUpdate _ | DoDelete _ => True
  end.
Proof.
  destruct m as [newId group|op|op|groupID userID|gs]; simpl; intro Hok; auto.
  - destruct (GroupCreate_store s now newId group) as [[_ Hne]|[_ [_ H]]];
      [contradiction|].
    now rewrite H.
  - destruct (GroupCreateMember_store s now groupID userID)
      as [[_ Hne]|[_ H]]; [contradiction|].
    now rewrite H.
  - destruct (GroupCreateGroupSyncable_store s now gs)
      as [[_ Hne]|[_ [_ H]]]; [contradiction|].
    now rewrite H.
Qed.

(** X27. On a store with unique keys the reads find what is stored:
    [GroupGet] of the id of a stored group returns that group, and
    [GroupGetGroupSyncable] of the key of a stored row of the relation of
    a type returns the link of that row, both without an error and for
    soft-deleted rows as for live ones. *)
Theorem reads_find_stored_rows (s : Store) :
  keys_unique s ->
  (forall g, In g (Groups s) ->
     GroupGet s (Group_Id g) = mkResult (DGroup g) None)
  /\ (forall t row, In row (syncable_table t s) ->
        exists got,
          GroupGetGroupSyncable s (Row_GroupId row) (Row_ForeignId row) t
          = mkResult (DSyncable got) None
          /\ same_columns got (link_of_row row)).
Proof.
  intros [Hg [_ [Ht Hc]]]. split.
  - intros g Hin. unfold GroupGet.
    rewrite (SelectOne_holds_one _ _ _ g); [reflexivity|].
    apply (holds_one_of_NoDup _ _ Group_Id); auto.
    + intros x Hx. now apply streq_true.
    + apply group_has_id_refl.
  - intros t row Hin. unfold GroupGetGroupSyncable.
    rewrite (SelectOne_holds_one _ _ _ row);
      [eexists; split; reflexivity|].
    apply (holds_one_of_NoDup _ _ row_key).
    + intros x Hx. now apply row_has_key_true.
    + now destruct t.
    + exact Hin.
    + apply row_has_key_refl.
Qed.

End Supplier.

(** * The properties on the example store *)

(** ** Defects *)

(** C1, at a store with two team links. The update addresses the link of
    group 1 and team 1; its UPDATE statement has no WHERE clause, and the
    link of group 2 and team 2 comes out with the new [CanLeave] and
    [UpdateAt] as well. *)
Theorem link_update_writes_other_links :
  GroupTeams ex_store
  = [ mkSyncableRow ex_group1 ex_team1 true true 900 900 0;
      mkSyncableRow ex_group2 ex_team2 true false 20 60 60 ]
  /\ GroupUpdateGroupSyncable ex_GroupSyncable_IsValid ex_store 5000 ex_link_update
     = (set_syncable_table GSTeam ex_store
          [ mkSyncableRow ex_group1 ex_team1 false false 900 5000 0;
            mkSyncableRow ex_group2 ex_team2 false false 20 5000 60 ],
        mkResult
          (DSyncable (mkGroupSyncable ex_group1 ex_team1 false false 900 5000 0
                                      GSTeam))
          None).
Proof. split; reflexivity. Qed.

(** C2, at a store where the only team link of group 2 is soft-deleted
    ([DeleteAt] is 60): the statement has no condition on [DeleteAt], and
    the page lists the link. [GroupGetAllPage], the list of groups, leaves
    the soft-deleted group 2 out. *)
Theorem link_page_lists_deleted_links :
  GroupGetAllGroupSyncablesByGroupPage ex_store ex_group2 GSTeam 0 10
  = mkResult
      (DSyncables [ mkGroupSyncable ex_group2 ex_team2 true false 20 60 60 GSTeam ])
      None
  /\ GroupGetAllPage ex_store 0 10
     = mkResult
         (DGroups [ mkGroup ex_group1 "eng" "Engineering" "" "ldap" "r1" 800 800 0 ])
         None.
Proof. split; reflexivity. Qed.

(** The statement of [PendingAutoAddTeamMemberships] reads
    [GroupTeams.SyncableId]; the relation has no column of that name, its
    team column is TeamId. *)
Lemma GroupTeams_has_no_SyncableId_column :
  existsb (String.eqb "SyncableId") (syncable_columns GSTeam) = false
  /\ existsb (String.eqb "TeamId") (syncable_columns GSTeam) = true.
Proof. split; reflexivity. Qed.

(** Once user 1 is a member of team 1, the statement selects nothing. *)
Lemma team_statement_after_provisioning :
  team_statement ex_store_provisioned 500 = [].
Proof. reflexivity. Qed.

(** C4, at the store of the scenario: group 1 is live, user 1 is its member
    of time 1000, its link to team 1 is live with AutoAdd, and user 1 is not
    a member of team 1. The statement selects the pair of user 1 and team 1,
    but the method runs it through [Exec]: whatever the driver answers, the
    data of the result is nil or a [sql.Result], and holds no pair. *)
Theorem pending_team_returns_no_pairs :
  team_statement ex_store 500 = [ (Some ex_user1, Some ex_team1) ]
  /\ forall Exec_select,
       Data (PendingAutoAddTeamMemberships Exec_select ex_store 500) = DNil
       \/ exists r,
            Data (PendingAutoAddTeamMemberships Exec_select ex_store 500)
            = DSqlResult r.
Proof.
  split; [reflexivity|]. intro Exec_select.
  apply PendingAutoAddTeamMemberships_data.
Qed.


(** ** Reading a link that is not stored *)

(** C3 fails as stated: group 1 has no link to team 2, and reading it
    returns no error at all, so no not-found error. *)
Lemma get_absent_link_no_error :
  (forall r, In r (syncable_table GSTeam ex_store) ->
             row_has_key ex_group1 ex_team2 r = false)
  /\ ~ (exists e,
          Err (GroupGetGroupSyncable ex_store ex_group1 ex_team2 GSTeam) = Some e
          /\ error_kind e = NotFoundError).
Proof.
  split.
  - intros r [<-|[<-|[]]]; reflexivity.
  - intros [e [He _]]. discriminate He.
Qed.

(** Both parts of the result of reading a link, on the example store. *)
Lemma GroupGetGroupSyncable_returns_witness :
  ((forall r, In r (syncable_table GSTeam ex_store) ->
              row_has_key ex_group1 ex_team2 r = false)
   /\ GroupGetGroupSyncable ex_store ex_group1 ex_team2 GSTeam = mkResult DNil None)
  /\ (holds_one (row_has_key ex_group1 ex_chan1)
                (syncable_table GSChannel ex_store)
                (mkSyncableRow ex_group1 ex_chan1 true true 900 900 0)
      /\ exists got,
           GroupGetGroupSyncable ex_store ex_group1 ex_chan1 GSChannel
           = mkResult (DSyncable got) None
           /\ GroupSyncable_SyncableId got = ex_chan1
           /\ GroupSyncable_GroupId got = ex_group1
           /\ GroupSyncable_CanLeave got = true
           /\ GroupSyncable_AutoAdd got = true).
Proof.
  assert (Hno : forall r, In r (syncable_table GSTeam ex_store) ->
                          row_has_key ex_group1 ex_team2 r = false)
    by (intros r [<-|[<-|[]]]; reflexivity).
  assert (Hone : holds_one (row_has_key ex_group1 ex_chan1)
                   (syncable_table GSChannel ex_store)
                   (mkSyncableRow ex_group1 ex_chan1 true true 900 900 0))
    by reflexivity.
  split.
  - split; [exact Hno|].
    exact (proj1 (GroupGetGroupSyncable_returns ex_store ex_group1 ex_team2 GSTeam) Hno).
  - split; [exact Hone|].
    exact (proj2 (GroupGetGroupSyncable_returns ex_store ex_group1 ex_chan1 GSChannel) _ Hone).
Defined.

(** ** Instances of the properties *)

(** User 1 is removed from group 1 at 2000 and added again at 3000. *)
Lemma add_after_remove_witness :
  Err (snd (GroupDeleteMember ex_IsValidId ex_store 2000 ex_group1 ex_user1)) = None
  /\ ex_GroupMember_IsValid (mkGroupMember ex_group1 ex_user1 3000 0) = None
  /\ let s' := fst (GroupDeleteMember ex_IsValidId ex_store 2000 ex_group1 ex_user1) in
     (exists m, holds_one (member_has_key ex_group1 ex_user1) (GroupMembers s') m
                /\ GroupMember_DeleteAt m = 2000)
     /\ exists e, GroupCreateMember ex_GroupMember_IsValid s' 3000 ex_group1 ex_user1
                  = (s', mkResult DNil (Some e))
                  /\ error_kind e = ConflictError.
Proof.
  split; [reflexivity|]. split; [reflexivity|].
  apply (add_after_remove ex_IsValidId ex_GroupMember_IsValid ex_store 2000 3000
                          ex_group1 ex_user1); reflexivity.
Defined.

(** Updates of group 1 and of its team link that come with the times
    1, 2 and 3: the stored times stay. *)
Lemma update_preserves_CreateAt_DeleteAt_witness :
  (Err (snd (run_update ex_Group_IsValidForUpdate ex_GroupSyncable_IsValid
                        ex_store 5000 (UpdateGroup ex_group_update))) = None
   /\ Data (snd (run_update ex_Group_IsValidForUpdate ex_GroupSyncable_IsValid
                            ex_store 5000 (UpdateGroup ex_group_update)))
      = DGroup (mkGroup ex_group1 "eng" "Engineers" "all of them" "ldap" "r1"
                        800 5000 0)
   /\ stored_times
        (fst (run_update ex_Group_IsValidForUpdate ex_GroupSyncable_IsValid
                         ex_store 5000 (UpdateGroup ex_group_update)))
      = stored_times ex_store)
  /\ (Err (snd (run_update ex_Group_IsValidForUpdate ex_GroupSyncable_IsValid
                           ex_store 5000 (UpdateGroupSyncable ex_link_update))) = None
      /\ stored_times
           (fst (run_update ex_Group_IsValidForUpdate ex_GroupSyncable_IsValid
                            ex_store 5000 (UpdateGroupSyncable ex_link_update)))
         = stored_times ex_store).
Proof.
  split.
  - split; [reflexivity|]. split; [reflexivity|].
    apply (update_preserves_CreateAt_DeleteAt ex_Group_IsValidForUpdate
             ex_GroupSyncable_IsValid ex_store 5000 (UpdateGroup ex_group_update)).
    reflexivity.
  - split; [reflexivity|].
    apply (update_preserves_CreateAt_DeleteAt ex_Group_IsValidForUpdate
             ex_GroupSyncable_IsValid ex_store 5000
             (UpdateGroupSyncable ex_link_update)).
    reflexivity.
Defined.

(** No other group is called as group 2 is. *)
Lemma name_of_group2_is_its_own :
  forall r, In r (Groups ex_store) ->
            Group_Name r = Group_Name ex_deleted_group_update ->
            Group_Id r = Group_Id ex_deleted_group_update.
Proof.
  intros r [<-|[<-|[]]]; simpl; intro H; [discriminate H | reflexivity].
Defined.

(** Updates of the soft-deleted group 2 and of its soft-deleted team
    link: the new display name and the new flag are stored, with the time
    of the update, under the times of creation and deletion that the rows
    had. *)
Lemma update_of_soft_deleted_witness :
  (soft_deleted_target ex_store (UpdateGroup ex_deleted_group_update)
   /\ update_accepted ex_Group_IsValidForUpdate ex_GroupSyncable_IsValid
                      ex_store 5000 (UpdateGroup ex_deleted_group_update)
   /\ Err (snd (run_update ex_Group_IsValidForUpdate ex_GroupSyncable_IsValid
                           ex_store 5000 (UpdateGroup ex_deleted_group_update)))
      = None
   /\ target_times
        (fst (run_update ex_Group_IsValidForUpdate ex_GroupSyncable_IsValid
                         ex_store 5000 (UpdateGroup ex_deleted_group_update)))
        (UpdateGroup ex_deleted_group_update) = [(700, 750)]
   /\ stored_target ex_store (UpdateGroup ex_deleted_group_update)
      = [ DGroup (mkGroup ex_group2 "ops" "Operations" "" "ldap" "r2"
                          700 750 750) ]
   /\ stored_target
        (fst (run_update ex_Group_IsValidForUpdate ex_GroupSyncable_IsValid
                         ex_store 5000 (UpdateGroup ex_deleted_group_update)))
        (UpdateGroup ex_deleted_group_update)
      = [ DGroup (mkGroup ex_group2 "ops" "Operators" "" "ldap" "r2"
                          700 5000 750) ])
  /\ (soft_deleted_target ex_store (UpdateGroupSyncable ex_deleted_link_update)
      /\ update_accepted ex_Group_IsValidForUpdate ex_GroupSyncable_IsValid
                         ex_store 5000 (UpdateGroupSyncable ex_deleted_link_update)
      /\ Err (snd (run_update ex_Group_IsValidForUpdate ex_GroupSyncable_IsValid
                              ex_store 5000
                              (UpdateGroupSyncable ex_deleted_link_update)))
         = None
      /\ target_times
           (fst (run_update ex_Group_IsValidForUpdate ex_GroupSyncable_IsValid
                            ex_store 5000
                            (UpdateGroupSyncable ex_deleted_link_update)))
           (UpdateGroupSyncable ex_deleted_link_update) = [(20, 60)]
      /\ stored_target ex_store (UpdateGroupSyncable ex_deleted_link_update)
         = [ DSyncable (mkGroupSyncable ex_group2 ex_team2 true false
                                        20 60 60 GSTeam) ]
      /\ stored_target
           (fst (run_update ex_Group_IsValidForUpdate ex_GroupSyncable_IsValid
                            ex_store 5000
                            (UpdateGroupSyncable ex_deleted_link_update)))
           (UpdateGroupSyncable ex_deleted_link_update)
         = [ DSyncable (mkGroupSyncable ex_group2 ex_team2 true true
                                        20 5000 60 GSTeam) ]).
Proof.
  assert (Hg : soft_deleted_target ex_store (UpdateGroup ex_deleted_group_update)).
  { exists (mkGroup ex_group2 "ops" "Operations" "" "ldap" "r2" 700 750 750).
    split; [reflexivity | discriminate]. }
  assert (Hga : update_accepted ex_Group_IsValidForUpdate ex_GroupSyncable_IsValid
                  ex_store 5000 (UpdateGroup ex_deleted_group_update)).
  { split; [intros r _; reflexivity | exact name_of_group2_is_its_own]. }
  assert (Hl : soft_deleted_target ex_store
                 (UpdateGroupSyncable ex_deleted_link_update)).
  { exists (mkSyncableRow ex_group2 ex_team2 true false 20 60 60).
    split; [reflexivity | discriminate]. }
  assert (Hla : update_accepted ex_Group_IsValidForUpdate ex_GroupSyncable_IsValid
                  ex_store 5000 (UpdateGroupSyncable ex_deleted_link_update)).
  { split; [reflexivity|]. intros r Hr. unfold holds_one in Hr.
    injection Hr as <-. left. discriminate. }
  destruct (update_of_soft_deleted ex_Group_IsValidForUpdate
              ex_GroupSyncable_IsValid ex_store 5000 _ Hg Hga)
    as [Hge [c [d [_ [Hgt [Hgt' [_ Hgs]]]]]]].
  injection Hgt as <- <-.
  destruct (update_of_soft_deleted ex_Group_IsValidForUpdate
              ex_GroupSyncable_IsValid ex_store 5000 _ Hl Hla)
    as [Hle [c [d [_ [Hlt [Hlt' [_ Hls]]]]]]].
  injection Hlt as <- <-.
  split.
  - split; [exact Hg|]. split; [exact Hga|]. split; [exact Hge|].
    split; [exact Hgt'|]. split; [reflexivity | exact Hgs].
  - split; [exact Hl|]. split; [exact Hla|]. split; [exact Hle|].
    split; [exact Hlt'|]. split; [reflexivity | exact Hls].
Defined.

(** An update of the team link of group 1 with the flags it has. *)
Lemma update_without_change_witness :
  holds_one (row_has_key ex_group1 ex_team1) (GroupTeams ex_store)
            (mkSyncableRow ex_group1 ex_team1 true true 900 900 0)
  /\ ex_GroupSyncable_IsValid ex_link_same = None
  /\ (exists e,
        GroupUpdateGroupSyncable ex_GroupSyncable_IsValid ex_store 5000 ex_link_same
        = (ex_store, mkResult DNil (Some e))
        /\ error_kind e = NoChangeError)
  /\ exists got,
       GroupGetGroupSyncable
         (fst (GroupUpdateGroupSyncable ex_GroupSyncable_IsValid ex_store 5000
                                        ex_link_same))
         ex_group1 ex_team1 GSTeam
       = mkResult (DSyncable got) None
       /\ GroupSyncable_UpdateAt got = 900.
Proof.
  split; [reflexivity|]. split; [reflexivity|].
  apply (update_without_change ex_GroupSyncable_IsValid ex_store 5000 ex_link_same
           (mkSyncableRow ex_group1 ex_team1 true true 900 900 0));
    reflexivity.
Defined.

(** Deletes of group 2, of its member and of its team link, all three
    soft-deleted already. *)
Lemma delete_of_deleted_witness :
  (already_deleted ex_IsValidId ex_store (DeleteGroup ex_group2)
   /\ exists e, run_delete ex_IsValidId ex_store 5000 (DeleteGroup ex_group2)
                = (ex_store, mkResult DNil (Some e))
                /\ error_kind e = ConflictError)
  /\ (already_deleted ex_IsValidId ex_store (DeleteMember ex_group2 ex_user2)
      /\ exists e, run_delete ex_IsValidId ex_store 5000
                              (DeleteMember ex_group2 ex_user2)
                   = (ex_store, mkResult DNil (Some e))
                   /\ error_kind e = ConflictError)
  /\ (already_deleted ex_IsValidId ex_store
                      (DeleteGroupSyncable ex_group2 ex_team2 GSTeam)
      /\ exists e, run_delete ex_IsValidId ex_store 5000
                              (DeleteGroupSyncable ex_group2 ex_team2 GSTeam)
                   = (ex_store, mkResult DNil (Some e))
                   /\ error_kind e = ConflictError).
Proof.
  assert (Hg : already_deleted ex_IsValidId ex_store (DeleteGroup ex_group2)).
  { exists (mkGroup ex_group2 "ops" "Operations" "" "ldap" "r2" 700 750 750).
    split; [reflexivity | discriminate]. }
  assert (Hm : already_deleted ex_IsValidId ex_store
                 (DeleteMember ex_group2 ex_user2)).
  { split; [reflexivity|]. split; [reflexivity|].
    exists (mkGroupMember ex_group2 ex_user2 600 650).
    split; [reflexivity | discriminate]. }
  assert (Hl : already_deleted ex_IsValidId ex_store
                 (DeleteGroupSyncable ex_group2 ex_team2 GSTeam)).
  { split; [reflexivity|]. split; [reflexivity|].
    exists (mkSyncableRow ex_group2 ex_team2 true false 20 60 60).
    split; [reflexivity | discriminate]. }
  split; [|split].
  - split; [exact Hg|]. exact (delete_of_deleted ex_IsValidId ex_store 5000 _ Hg).
  - split; [exact Hm|]. exact (delete_of_deleted ex_IsValidId ex_store 5000 _ Hm).
  - split; [exact Hl|]. exact (delete_of_deleted ex_IsValidId ex_store 5000 _ Hl).
Defined.

(** * More instances on the example stores *)

Lemma ex_store_keys_unique : keys_unique ex_store.
Proof.
  unfold keys_unique. simpl.
  repeat split;
    repeat (constructor; [simpl; intuition discriminate|]); constructor.
Defined.

Lemma ex_store_names_unique : names_unique ex_store.
Proof.
  unfold names_unique. simpl.
  repeat (constructor; [simpl; intuition discriminate|]); constructor.
Defined.

(** Adding user 1 to group 1 again: a conflict, and the store is the same. *)
Lemma error_writes_nothing_witness :
  group_id_checked ex_IsValidId (DoGroupCreateMember ex_group1 ex_user1)
  /\ Err (snd (run_mutation ex_IsValidId ex_Group_IsValidForUpdate
                 ex_Group_IsValidForCreate ex_GroupMember_IsValid
                 ex_GroupSyncable_IsValid ex_store 5000
                 (DoGroupCreateMember ex_group1 ex_user1)))
     = Some (mkAppError "SqlGroupStore.CreateMember"
                        "store.sql_group.create_member.unique_error"
                        StatusBadRequest)
  /\ fst (run_mutation ex_IsValidId ex_Group_IsValidForUpdate
            ex_Group_IsValidForCreate ex_GroupMember_IsValid
            ex_GroupSyncable_IsValid ex_store 5000
            (DoGroupCreateMember ex_group1 ex_user1))
     = ex_store.
Proof.
  split; [exact I|]. split; [reflexivity|].
  apply (error_writes_nothing ex_IsValidId ex_Group_IsValidForUpdate
           ex_Group_IsValidForCreate ex_GroupMember_IsValid
           ex_GroupSyncable_IsValid ex_store 5000
           (DoGroupCreateMember ex_group1 ex_user1)
           (mkAppError "SqlGroupStore.CreateMember"
                       "store.sql_group.create_member.unique_error"
                       StatusBadRequest));
    [exact I | reflexivity].
Defined.

(** The group of the ill-formed id "g1" is deleted, and the error comes
    back with it. *)
Lemma GroupDelete_invalid_id_still_deletes_witness :
  ex_IsValidId "g1" = false
  /\ names_unique ex_store_short_id
  /\ holds_one (group_has_id "g1") (Groups ex_store_short_id)
               (mkGroup "g1" "old" "Old" "" "ldap" "r0" 100 100 0)
  /\ GroupDelete ex_IsValidId ex_store_short_id 5000 "g1"
     = (set_Groups ex_store_short_id
          [ mkGroup "g1" "old" "Old" "" "ldap" "r0" 100 5000 5000 ],
        mkResult (DGroup (mkGroup "g1" "old" "Old" "" "ldap" "r0" 100 5000 5000))
                 (Some (mkAppError "SqlGroupStore.Delete"
                                   "store.sql_group.delete.invalid_group_id"
                                   StatusBadRequest))).
Proof.
  assert (Hn : names_unique ex_store_short_id)
    by (unfold names_unique; simpl; constructor; [intros []|constructor]).
  split; [reflexivity|]. split; [exact Hn|]. split; [reflexivity|].
  exact (GroupDelete_invalid_id_still_deletes ex_IsValidId ex_store_short_id
           5000 "g1" (mkGroup "g1" "old" "Old" "" "ldap" "r0" 100 100 0)
           eq_refl Hn eq_refl eq_refl).
Defined.

(** Creating the group "qa" on the example store. *)
Lemma writes_keep_keys_unique_witness :
  keys_unique ex_store
  /\ keys_unique
       (fst (run_mutation ex_IsValidId ex_Group_IsValidForUpdate
               ex_Group_IsValidForCreate ex_GroupMember_IsValid
               ex_GroupSyncable_IsValid ex_store 5000
               (DoGroupCreate ex_group3 ex_new_group))).
Proof.
  split; [exact ex_store_keys_unique|].
  apply writes_keep_keys_unique. exact ex_store_keys_unique.
Defined.

Lemma writes_keep_names_unique_witness :
  names_unique ex_store
  /\ names_unique
       (fst (run_mutation ex_IsValidId ex_Group_IsValidForUpdate
               ex_Group_IsValidForCreate ex_GroupMember_IsValid
               ex_GroupSyncable_IsValid ex_store 5000
               (DoGroupCreate ex_group3 ex_new_group))).
Proof.
  split; [exact ex_store_names_unique|].
  apply writes_keep_names_unique. exact ex_store_names_unique.
Defined.

(** The first ten team links of group 1. *)
Lemma link_page_sorted_bounded_witness :
  0 <= 0 /\ 0 <= 10
  /\ Err (GroupGetAllGroupSyncablesByGroupPage ex_store ex_group1 GSTeam 0 10)
     = None
  /\ sorted_desc GroupSyncable_CreateAt
       (data_links
          (Data (GroupGetAllGroupSyncablesByGroupPage ex_store ex_group1 GSTeam
                                                      0 10)))
  /\ Z.of_nat
       (List.length
          (data_links
             (Data (GroupGetAllGroupSyncablesByGroupPage ex_store ex_group1
                                                         GSTeam 0 10))))
     <= 10.
Proof.
  assert (H0 : 0 <= 0) by lia. assert (H10 : 0 <= 10) by lia.
  pose proof (link_page_sorted_bounded ex_store ex_group1 GSTeam 0 10 H0 H10)
    as H.
  cbv zeta in H. destruct H as [He [Hs [Hb _]]].
  split; [exact H0|]. split; [exact H10|]. split; [exact He|].
  split; [exact Hs | exact Hb].
Defined.

(** The first ten groups. *)
Lemma group_page_sorted_bounded_live_witness :
  0 <= 0 /\ 0 <= 10
  /\ Err (GroupGetAllPage ex_store 0 10) = None
  /\ sorted_desc Group_CreateAt (data_groups (Data (GroupGetAllPage ex_store 0 10)))
  /\ forall g, In g (data_groups (Data (GroupGetAllPage ex_store 0 10))) ->
               In g (Groups ex_store) /\ Group_DeleteAt g = 0.
Proof.
  assert (H0 : 0 <= 0) by lia. assert (H10 : 0 <= 10) by lia.
  pose proof (group_page_sorted_bounded_live ex_store 0 10 H0 H10) as H.
  cbv zeta in H. destruct H as [He [Hs [_ Hl]]].
  split; [exact H0|]. split; [exact H10|]. split; [exact He|].
  split; [exact Hs | exact Hl].
Defined.

Lemma group_first_page_complete_witness :
  Z.of_nat (List.length (Groups ex_store)) <= 10
  /\ (In (mkGroup ex_group1 "eng" "Engineering" "" "ldap" "r1" 800 800 0)
         (data_groups (Data (GroupGetAllPage ex_store 0 10)))
      <-> In (mkGroup ex_group1 "eng" "Engineering" "" "ldap" "r1" 800 800 0)
             (Groups ex_store)
          /\ Group_DeleteAt
               (mkGroup ex_group1 "eng" "Engineering" "" "ldap" "r1" 800 800 0)
             = 0).
Proof.
  assert (H : Z.of_nat (List.length (Groups ex_store)) <= 10)
    by (simpl; lia).
  split; [exact H|].
  exact (group_first_page_complete ex_store 10 _ H).
Defined.

(** Of the three live groups, in descending order of their times groups
    3, 4 and 1, the page of one entry at offset 1 is group 4, and with the
    page of one entry at offset 2 it makes the page of two entries at
    offset 1. Likewise for the three links of group 1 to teams. *)
Lemma consecutive_pages_join_witness :
  0 <= 1
  /\ NoDup (map Group_CreateAt
                (filter (fun g => Group_DeleteAt g =? 0) (Groups ex_store_pages)))
  /\ data_groups (Data (GroupGetAllPage ex_store_pages 1 1))
     = [ mkGroup ex_group4 "web" "Web" "" "ldap" "r4" 900 900 0 ]
  /\ data_groups (Data (GroupGetAllPage ex_store_pages 1 1))
     ++ data_groups (Data (GroupGetAllPage ex_store_pages (1 + 1) 1))
     = data_groups (Data (GroupGetAllPage ex_store_pages 1 (1 + 1)))
  /\ NoDup (map Row_CreateAt
                (filter (fun r => streq (Row_GroupId r) ex_group1)
                        (syncable_table GSTeam ex_store_pages)))
  /\ data_links
       (Data (GroupGetAllGroupSyncablesByGroupPage ex_store_pages ex_group1
                                                   GSTeam 1 1))
     = [ mkGroupSyncable ex_group1 ex_team3 false true 910 910 0 GSTeam ]
  /\ data_links
       (Data (GroupGetAllGroupSyncablesByGroupPage ex_store_pages ex_group1
                                                   GSTeam 1 1))
     ++ data_links
          (Data (GroupGetAllGroupSyncablesByGroupPage ex_store_pages ex_group1
                                                      GSTeam (1 + 1) 1))
     = data_links
         (Data (GroupGetAllGroupSyncablesByGroupPage ex_store_pages ex_group1
                                                     GSTeam 1 (1 + 1))).
Proof.
  assert (H1 : 0 <= 1) by lia.
  assert (Hg : NoDup (map Group_CreateAt
                        (filter (fun g => Group_DeleteAt g =? 0)
                                (Groups ex_store_pages)))).
  { simpl. constructor; [simpl; intros [H|[H|[]]]; discriminate H|].
    constructor; [simpl; intros [H|[]]; discriminate H|].
    constructor; [simpl; intros []|]. constructor. }
  assert (Hl : NoDup (map Row_CreateAt
                        (filter (fun r => streq (Row_GroupId r) ex_group1)
                                (syncable_table GSTeam ex_store_pages)))).
  { simpl. constructor; [simpl; intros [H|[H|[]]]; discriminate H|].
    constructor; [simpl; intros [H|[]]; discriminate H|].
    constructor; [simpl; intros []|]. constructor. }
  destruct (consecutive_pages_join ex_store_pages ex_group1 GSTeam 1 1 1
              H1 H1 H1) as [Hgroups Hlinks].
  destruct (Hgroups Hg) as [Hgo Hgj]. destruct (Hlinks Hl) as [Hlo Hlj].
  split; [exact H1|]. split; [exact Hg|].
  split.
  { rewrite <- (Hgo [ mkGroup ex_group3 "qa" "Quality" "" "ldap" "r3" 950 950 0;
                      mkGroup ex_group4 "web" "Web" "" "ldap" "r4" 900 900 0;
                      mkGroup ex_group1 "eng" "Engineering" "" "ldap" "r1"
                              800 800 0 ]).
    - reflexivity.
    - apply Permutation_sym.
      exact (Permutation_cons_append
               [ mkGroup ex_group3 "qa" "Quality" "" "ldap" "r3" 950 950 0;
                 mkGroup ex_group4 "web" "Web" "" "ldap" "r4" 900 900 0 ]
               (mkGroup ex_group1 "eng" "Engineering" "" "ldap" "r1" 800 800 0)).
    - repeat (constructor; [|repeat (constructor; [simpl; lia|]); constructor]).
      constructor. }
  split; [exact Hgj|]. split; [exact Hl|].
  split; [|exact Hlj].
  rewrite <- (Hlo [ mkSyncableRow ex_group1 ex_team2 true false 950 960 960;
                    mkSyncableRow ex_group1 ex_team3 false true 910 910 0;
                    mkSyncableRow ex_group1 ex_team1 true true 900 900 0 ]).
  - reflexivity.
  - apply Permutation_sym.
    exact (Permutation_cons_append
             [ mkSyncableRow ex_group1 ex_team2 true false 950 960 960;
               mkSyncableRow ex_group1 ex_team3 false true 910 910 0 ]
             (mkSyncableRow ex_group1 ex_team1 true true 900 900 0)).
  - repeat (constructor; [|repeat (constructor; [simpl; lia|]); constructor]).
    constructor.
Defined.

(** Creating the group "qa" and reading it. *)
Lemma group_read_after_write_witness :
  written_group_id (DoGroupCreate ex_group3 ex_new_group) = Some ex_group3
  /\ Err (snd (run_mutation ex_IsValidId ex_Group_IsValidForUpdate
                 ex_Group_IsValidForCreate ex_GroupMember_IsValid
                 ex_GroupSyncable_IsValid ex_store 5000
                 (DoGroupCreate ex_group3 ex_new_group))) = None
  /\ GroupGet
       (fst (run_mutation ex_IsValidId ex_Group_IsValidForUpdate
               ex_Group_IsValidForCreate ex_GroupMember_IsValid
               ex_GroupSyncable_IsValid ex_store 5000
               (DoGroupCreate ex_group3 ex_new_group)))
       ex_group3
     = mkResult (DGroup (mkGroup ex_group3 "qa" "Quality" "" "ldap" "r3"
                                 5000 5000 3))
                None.
Proof.
  split; [reflexivity|]. split; [reflexivity|].
  rewrite (proj1 (group_read_after_write ex_IsValidId ex_Group_IsValidForUpdate
                    ex_Group_IsValidForCreate ex_GroupMember_IsValid
                    ex_GroupSyncable_IsValid ex_store 5000
                    (DoGroupCreate ex_group3 ex_new_group) ex_group3
                    eq_refl eq_refl)).
  reflexivity.
Defined.

(** Creating a channel link for group 2 and reading it. *)
Lemma link_read_after_write_witness :
  written_link (DoGroupCreateGroupSyncable ex_new_link)
  = Some (ex_group2, ex_chan1, GSChannel)
  /\ Err (snd (run_mutation ex_IsValidId ex_Group_IsValidForUpdate
                 ex_Group_IsValidForCreate ex_GroupMember_IsValid
                 ex_GroupSyncable_IsValid ex_store 5000
                 (DoGroupCreateGroupSyncable ex_new_link))) = None
  /\ exists e got,
       Data (snd (run_mutation ex_IsValidId ex_Group_IsValidForUpdate
                    ex_Group_IsValidForCreate ex_GroupMember_IsValid
                    ex_GroupSyncable_IsValid ex_store 5000
                    (DoGroupCreateGroupSyncable ex_new_link)))
       = DSyncable e
       /\ GroupGetGroupSyncable
            (fst (run_mutation ex_IsValidId ex_Group_IsValidForUpdate
                    ex_Group_IsValidForCreate ex_GroupMember_IsValid
                    ex_GroupSyncable_IsValid ex_store 5000
                    (DoGroupCreateGroupSyncable ex_new_link)))
            ex_group2 ex_chan1 GSChannel
          = mkResult (DSyncable got) None
       /\ same_columns got e.
Proof.
  split; [reflexivity|]. split; [reflexivity|].
  exact (link_read_after_write ex_IsValidId ex_Group_IsValidForUpdate
           ex_Group_IsValidForCreate ex_GroupMember_IsValid
           ex_GroupSyncable_IsValid ex_store 5000
           (DoGroupCreateGroupSyncable ex_new_link) ex_group2 ex_chan1 GSChannel
           eq_refl eq_refl).
Defined.

(** User 2 was removed from group 2; the key is taken all the same. *)
Lemma member_key_taken_witness :
  In (mkGroupMember ex_group2 ex_user2 600 650) (GroupMembers ex_store)
  /\ ex_GroupMember_IsValid (mkGroupMember ex_group2 ex_user2 5000 0) = None
  /\ exists e, GroupCreateMember ex_GroupMember_IsValid ex_store 5000
                                 ex_group2 ex_user2
               = (ex_store, mkResult DNil (Some e))
               /\ error_kind e = ConflictError
               /\ AppError_StatusCode e = StatusBadRequest.
Proof.
  assert (Hin : In (mkGroupMember ex_group2 ex_user2 600 650)
                   (GroupMembers ex_store))
    by (right; left; reflexivity).
  split; [exact Hin|]. split; [reflexivity|].
  exact (member_key_taken ex_GroupMember_IsValid ex_store 5000 ex_group2 ex_user2
           _ Hin eq_refl eq_refl).
Defined.

(** The link of group 2 to team 2 is soft-deleted; it cannot be created
    again. *)
Lemma link_key_taken_witness :
  In (mkSyncableRow ex_group2 ex_team2 true false 20 60 60)
     (syncable_table GSTeam ex_store)
  /\ ex_GroupSyncable_IsValid ex_deleted_link_update = None
  /\ GroupCreateGroupSyncable ex_GroupSyncable_IsValid ex_store 5000
                              ex_deleted_link_update
     = (ex_store,
        mkResult DNil
          (Some (mkAppError "SqlGroupStore.CreateGroupSyncable"
                            "store.sql_group.create_group_syncable.insert_error"
                            StatusInternalServerError))).
Proof.
  assert (Hin : In (mkSyncableRow ex_group2 ex_team2 true false 20 60 60)
                   (syncable_table GSTeam ex_store))
    by (right; left; reflexivity).
  split; [exact Hin|]. split; [reflexivity|].
  exact (link_key_taken ex_GroupSyncable_IsValid ex_store 5000
           ex_deleted_link_update _ Hin eq_refl eq_refl).
Defined.

(** The name "ops" belongs to the soft-deleted group 2. *)
Lemma group_name_taken_witness :
  String.length (Group_Id (mkGroup "" "ops" "Ops again" "" "ldap" "r4" 0 0 0))
  = 0%nat
  /\ In (mkGroup ex_group2 "ops" "Operations" "" "ldap" "r2" 700 750 750)
        (Groups ex_store)
  /\ GroupCreate ex_Group_IsValidForCreate ex_store 5000 ex_group3
                 (mkGroup "" "ops" "Ops again" "" "ldap" "r4" 0 0 0)
     = (ex_store,
        mkResult DNil
          (Some (mkAppError "SqlGroupStore.GroupCreate"
                            "store.sql_group.create.commit_error"
                            StatusInternalServerError))).
Proof.
  assert (Hin : In (mkGroup ex_group2 "ops" "Operations" "" "ldap" "r2" 700 750 750)
                   (Groups ex_store))
    by (right; left; reflexivity).
  split; [reflexivity|]. split; [exact Hin|].
  exact (group_name_taken ex_Group_IsValidForCreate ex_store 5000 ex_group3
           (mkGroup "" "ops" "Ops again" "" "ldap" "r4" 0 0 0) _
           eq_refl eq_refl Hin eq_refl).
Defined.

(** Group 1 has no link to team 2. *)
Lemma missing_key_not_found_witness :
  target_absent ex_IsValidId ex_store
    (DoDelete (DeleteGroupSyncable ex_group1 ex_team2 GSTeam))
  /\ exists e,
       run_mutation ex_IsValidId ex_Group_IsValidForUpdate
         ex_Group_IsValidForCreate ex_GroupMember_IsValid
         ex_GroupSyncable_IsValid ex_store 5000
         (DoDelete (DeleteGroupSyncable ex_group1 ex_team2 GSTeam))
       = (ex_store, mkResult DNil (Some e))
       /\ error_kind e = NotFoundError.
Proof.
  assert (H : target_absent ex_IsValidId ex_store
                (DoDelete (DeleteGroupSyncable ex_group1 ex_team2 GSTeam))).
  { split; [reflexivity|]. split; [reflexivity|].
    intros r [<-|[<-|[]]]; reflexivity. }
  split; [exact H|].
  exact (missing_key_not_found ex_IsValidId ex_Group_IsValidForUpdate
           ex_Group_IsValidForCreate ex_GroupMember_IsValid
           ex_GroupSyncable_IsValid ex_store 5000 _ H).
Defined.

(** Deleting group 1: its member and its links stay. *)
Lemma group_delete_writes_one_row_witness :
  Err (snd (GroupDelete ex_IsValidId ex_store 5000 ex_group1)) = None
  /\ GroupMembers (fst (GroupDelete ex_IsValidId ex_store 5000 ex_group1))
     = GroupMembers ex_store
  /\ GroupTeams (fst (GroupDelete ex_IsValidId ex_store 5000 ex_group1))
     = GroupTeams ex_store
  /\ GroupChannels (fst (GroupDelete ex_IsValidId ex_store 5000 ex_group1))
     = GroupChannels ex_store.
Proof.
  assert (Hok : Err (snd (GroupDelete ex_IsValidId ex_store 5000 ex_group1)) = None)
    by reflexivity.
  pose proof (group_delete_writes_one_row ex_IsValidId ex_store 5000 ex_group1 Hok)
    as H.
  cbv zeta in H. destruct H as [Hm [Ht [Hc _]]].
  split; [exact Hok|]. split; [exact Hm|]. split; [exact Ht | exact Hc].
Defined.

(** Deleting the link of group 1 to team 1: the link of group 2 stays. *)
Lemma link_delete_writes_one_row_witness :
  Err (snd (GroupDeleteGroupSyncable ex_IsValidId ex_store 5000
                                     ex_group1 ex_team1 GSTeam)) = None
  /\ filter (fun r => negb (row_has_key ex_group1 ex_team1 r))
            (syncable_table GSTeam
               (fst (GroupDeleteGroupSyncable ex_IsValidId ex_store 5000
                                              ex_group1 ex_team1 GSTeam)))
     = filter (fun r => negb (row_has_key ex_group1 ex_team1 r))
              (syncable_table GSTeam ex_store).
Proof.
  assert (Hok : Err (snd (GroupDeleteGroupSyncable ex_IsValidId ex_store 5000
                            ex_group1 ex_team1 GSTeam)) = None)
    by reflexivity.
  pose proof (link_delete_writes_one_row ex_IsValidId ex_store 5000
                ex_group1 ex_team1 GSTeam Hok) as H.
  cbv zeta in H. destruct H as [_ [_ [_ [Hf _]]]].
  split; [exact Hok | exact Hf].
Defined.

(** Removing user 1 from group 1: the row of user 2 stays. *)
Lemma member_delete_writes_one_row_witness :
  Err (snd (GroupDeleteMember ex_IsValidId ex_store 5000 ex_group1 ex_user1))
  = None
  /\ filter (fun m => negb (member_has_key ex_group1 ex_user1 m))
            (GroupMembers
               (fst (GroupDeleteMember ex_IsValidId ex_store 5000
                                       ex_group1 ex_user1)))
     = filter (fun m => negb (member_has_key ex_group1 ex_user1 m))
              (GroupMembers ex_store).
Proof.
  assert (Hok : Err (snd (GroupDeleteMember ex_IsValidId ex_store 5000
                                            ex_group1 ex_user1)) = None)
    by reflexivity.
  pose proof (member_delete_writes_one_row ex_IsValidId ex_store 5000
                ex_group1 ex_user1 Hok) as H.
  cbv zeta in H. destruct H as [_ [_ [_ [Hf _]]]].
  split; [exact Hok | exact Hf].
Defined.

(** An update of group 1. *)
Lemma group_update_writes_one_row_witness :
  Err (snd (GroupUpdate ex_Group_IsValidForUpdate ex_store 5000 ex_group_update))
  = None
  /\ GroupMembers
       (fst (GroupUpdate ex_Group_IsValidForUpdate ex_store 5000 ex_group_update))
     = GroupMembers ex_store
  /\ filter (fun g => negb (group_has_id ex_group1 g))
            (Groups
               (fst (GroupUpdate ex_Group_IsValidForUpdate ex_store 5000
                                 ex_group_update)))
     = filter (fun g => negb (group_has_id ex_group1 g)) (Groups ex_store).
Proof.
  assert (Hok : Err (snd (GroupUpdate ex_Group_IsValidForUpdate ex_store 5000
                                      ex_group_update)) = None)
    by reflexivity.
  pose proof (group_update_writes_one_row ex_Group_IsValidForUpdate ex_store 5000
                ex_group_update Hok) as H.
  cbv zeta in H. destruct H as [Hm [_ [_ [Hf _]]]].
  split; [exact Hok|]. split; [exact Hm | exact Hf].
Defined.

(** A link created with the times 1, 2 and 3 comes out live at 5000. *)
Lemma created_times_witness :
  Err (snd (run_mutation ex_IsValidId ex_Group_IsValidForUpdate
              ex_Group_IsValidForCreate ex_GroupMember_IsValid
              ex_GroupSyncable_IsValid ex_store 5000
              (DoGroupCreateGroupSyncable ex_new_link))) = None
  /\ Data (snd (run_mutation ex_IsValidId ex_Group_IsValidForUpdate
                  ex_Group_IsValidForCreate ex_GroupMember_IsValid
                  ex_GroupSyncable_IsValid ex_store 5000
                  (DoGroupCreateGroupSyncable ex_new_link)))
     = DSyncable (mkGroupSyncable ex_group2 ex_chan1 false true 5000 5000 0
                                  GSChannel).
Proof.
  split; [reflexivity|].
  exact (created_times ex_IsValidId ex_Group_IsValidForUpdate
           ex_Group_IsValidForCreate ex_GroupMember_IsValid
           ex_GroupSyncable_IsValid ex_store 5000
           (DoGroupCreateGroupSyncable ex_new_link) eq_refl).
Defined.

(** Reading the soft-deleted group 2. *)
Lemma reads_find_stored_rows_witness :
  keys_unique ex_store
  /\ GroupGet ex_store ex_group2
     = mkResult (DGroup (mkGroup ex_group2 "ops" "Operations" "" "ldap" "r2"
                                 700 750 750))
                None.
Proof.
  split; [exact ex_store_keys_unique|].
  apply (proj1 (reads_find_stored_rows ex_store ex_store_keys_unique)
               (mkGroup ex_group2 "ops" "Operations" "" "ldap" "r2" 700 750 750)).
  right; left; reflexivity.
Defined.
